(** * Inkless-server: anonymous messaging relay

    A shallow embedding of the identity allocator, the message relay and the
    lifecycle sweep of the server, and the properties of its specification.

    Conventions of the embedding.
    - A JavaScript string is a Rocq [string]; each [ascii] is one code unit
      in the range 0..255 (the Latin-1 part of UTF-16).
    - A JavaScript number that the handlers count or index with is an exact
      integer [Z]; [None] in an [option Z] stands for a non-finite number
      ([NaN] or an infinity), which is also what JSON serialises as [null].
      The arithmetic of [generateRandomId] on what [Math.random()] returns is
      binary64 arithmetic, with its rounding.
    - A member of a request body is a [Json], a value of any type.
      [sendMessage] is the send route on a body whose members are strings;
      [sendMessageJson] is the route on any body, and agrees with it there.
      A route parameter and a member of the query string are strings.
    - A [Date] is its number of milliseconds, a [Z].
    - The two collections are lists in insertion order inside a [Store];
      every handler takes the store and the clock readings it performs and
      returns the new store with its HTTP reply.
    - A handler runs from start to end on the store, with no other request
      in between; failures of the database connection are not modelled, nor
      is the [updatedAt] field that the schemas maintain by themselves.
    - The sources exist in several versions; each definition says which
      file it embeds.  [markRead] is the route of the first version of the
      routes, every other route is the one of [routes/api.js], and the sweep
      is the two-phase [cleanupInactiveUsers]. *)

From Stdlib Require Import ZArith List String Ascii Bool Lia Arith.
From Stdlib Require Import Permutation.
Import ListNotations.

Local Open Scope string_scope.
Local Open Scope list_scope.
Local Open Scope Z_scope.

(** ** JavaScript primitives used by the sources *)

Module JS.

(** Code units matched by [\s] and removed by [String.prototype.trim]:
    TAB, LF, VT, FF, CR, SPACE and NBSP. *)
Definition isWhiteSpace (c : ascii) : bool :=
  let n := N_of_ascii c in
  ((n =? 9) || (n =? 10) || (n =? 11) || (n =? 12) || (n =? 13)
   || (n =? 32) || (n =? 160))%N.

(** Line terminators, which [.] does not match. *)
Definition isLineTerminator (c : ascii) : bool :=
  let n := N_of_ascii c in ((n =? 10) || (n =? 13))%N.

(** [\d] *)
Definition isDigit (c : ascii) : bool :=
  let n := N_of_ascii c in ((48 <=? n) && (n <=? 57))%N.

Fixpoint trimStart (s : string) : string :=
  match s with
  | EmptyString => EmptyString
  | String c r => if isWhiteSpace c then trimStart r else s
  end.

Fixpoint trimEnd (s : string) : string :=
  match s with
  | EmptyString => EmptyString
  | String c r =>
      match trimEnd r with
      | EmptyString => if isWhiteSpace c then EmptyString else String c EmptyString
      | r' => String c r'
      end
  end.

(** [s.trim()] *)
Definition trim (s : string) : string := trimEnd (trimStart s).

(** [s.replace(/\s+/g, " ")]: every maximal run of white space becomes one
    space. *)
Fixpoint collapseFrom (inRun : bool) (s : string) : string :=
  match s with
  | EmptyString => EmptyString
  | String c r =>
      if isWhiteSpace c
      then (if inRun then collapseFrom true r else String " " (collapseFrom true r))
      else String c (collapseFrom false r)
  end.

Definition collapseWhiteSpace (s : string) : string := collapseFrom false s.

(** [s.substring(0, n)] *)
Fixpoint substring0 (n : nat) (s : string) : string :=
  match n, s with
  | S k, String c r => String c (substring0 k r)
  | _, _ => EmptyString
  end.

Fixpoint allChars (p : ascii -> bool) (s : string) : bool :=
  match s with
  | EmptyString => true
  | String c r => p c && allChars p r
  end.

(** Value of a digit in the given radix, if it is one. *)
Definition digitValue (radix : Z) (c : ascii) : option Z :=
  let n := Z.of_N (N_of_ascii c) in
  let v := if (48 <=? n) && (n <=? 57) then n - 48
           else if (97 <=? n) && (n <=? 122) then n - 87
           else if (65 <=? n) && (n <=? 90) then n - 55
           else radix in
  if v <? radix then Some v else None.

(** Longest prefix of digits, accumulated left to right. *)
Fixpoint parseDigits (radix : Z) (acc : option Z) (s : string) : option Z :=
  match s with
  | EmptyString => acc
  | String c r =>
      match digitValue radix c with
      | Some v =>
          parseDigits radix
            (Some (match acc with Some a => a * radix + v | None => v end)) r
      | None => acc
      end
  end.

Definition stripHexPrefix (s : string) : option string :=
  match s with
  | String "0" (String "x" r) => Some r
  | String "0" (String "X" r) => Some r
  | _ => None
  end.

(** [parseInt(s)] with no radix argument: leading white space is skipped,
    one sign is read, a [0x] prefix selects radix 16, and the longest prefix
    of digits is the value; [None] is [NaN].  The value is given exactly;
    the code has the nearest binary64 number, which is the same up to
    [2^53] in magnitude. *)
Definition parseInt (s : string) : option Z :=
  let s1 := trimStart s in
  let '(neg, s2) :=
    match s1 with
    | String "-" r => (true, r)
    | String "+" r => (false, r)
    | _ => (false, s1)
    end in
  let mag :=
    match stripHexPrefix s2 with
    | Some r => parseDigits 16 None r
    | None => parseDigits 10 None s2
    end in
  option_map (fun m => if neg then - m else m) mag.

Definition digitChar (d : Z) : ascii := ascii_of_N (Z.to_N (48 + d)).

Fixpoint toDigits (fuel : nat) (n : Z) (acc : string) : string :=
  match fuel with
  | O => acc
  | S f =>
      let acc' := String (digitChar (n mod 10)) acc in
      if n / 10 =? 0 then acc' else toDigits f (n / 10) acc'
  end.

(** [n.toString()] for an integer. *)
Definition toString (n : Z) : string :=
  if n <? 0
  then String "-" (toDigits (S (Z.to_nat (Z.log2 (- n)))) (- n) EmptyString)
  else toDigits (S (Z.to_nat (Z.log2 n))) n EmptyString.

(** Arithmetic on numbers that may be [NaN]. *)
Definition numSub (a b : option Z) : option Z :=
  match a, b with Some x, Some y => Some (x - y) | _, _ => None end.

Definition numMul (a b : option Z) : option Z :=
  match a, b with Some x, Some y => Some (x * y) | _, _ => None end.

(** [Math.ceil(a / b)]; dividing by zero gives a non-finite number. *)
Definition ceilDiv (a b : Z) : option Z :=
  if b =? 0 then None else Some (- ((- a) / b)).

(** *** Binary64 numbers

    Every binary64 number is an integer multiple of [2^-1074].  A number [v]
    that is not negative is kept as the integer [v * 2^1074]; [unit64] is the
    number 1. *)
Definition unit64 : Z := 2 ^ 1074.

(** The binary64 number nearest to [a / 2^1074], ties to the even
    significand, for [a] from 0 up to the overflow threshold: below
    [2^-1021] every multiple of [2^-1074] is a binary64 number, and from
    there on the unit in the last place is [2^(e - 52)] for a number in
    [[2^e, 2^(e+1))]. *)
Definition roundBinary64 (a : Z) : Z :=
  if a <? 2 ^ 53 then a
  else
    let ulp := 2 ^ (Z.log2 a - 52) in
    let q := a / ulp in
    let r := a mod ulp in
    if 2 * r <? ulp then q * ulp
    else if ulp <? 2 * r then (q + 1) * ulp
    else if Z.even q then q * ulp else (q + 1) * ulp.

(** [a * n] and [n + a] for a binary64 number [a] and an integer [n] that is
    not negative: the exact result, rounded. *)
Definition mulInteger (a n : Z) : Z := roundBinary64 (a * n).

Definition addInteger (n a : Z) : Z := roundBinary64 (n * unit64 + a).

(** [Math.floor(a)], an integer. *)
Definition floor (a : Z) : Z := a / unit64.

(** What [Math.random()] may return: a binary64 number from 0 up to, but
    not including, 1. *)
Definition isMathRandom (r : Z) : Prop :=
  0 <= r < unit64 /\ roundBinary64 r = r.

(** *** Values of a JSON body

    A number is kept as its decimal writing [String(n)], which is all that
    the handlers and the schemas read of it; two numbers are equal exactly
    when their writings are, and the writing of zero is [0]. *)
#[warnings="-register-all"] Inductive Json :=
| JNull
| JBool (b : bool)
| JNum (shown : string)
| JStr (s : string)
| JArr (items : list Json)
| JObj (members : list (string * Json)).

(** [!!v] *)
Definition truthyJ (v : Json) : bool :=
  match v with
  | JNull => false
  | JBool b => b
  | JNum shown => negb (String.eqb shown "0")
  | JStr s => negb (Nat.eqb (String.length s) 0)
  | JArr _ | JObj _ => true
  end.

(** [k in members], for a member of the object itself. *)
Definition hasOwn (k : string) (members : list (string * Json)) : bool :=
  existsb (fun kv => String.eqb (fst kv) k) members.

(** [members[k]]; of two members with the same name the parser keeps the
    last. *)
Definition getOwn (k : string) (members : list (string * Json)) : option Json :=
  option_map snd (find (fun kv => String.eqb (fst kv) k) (rev members)).

(** [String(v)], as a pattern test and a template do it; [None] is the
    [TypeError] for an object that cannot be converted, which is one with a
    [toString] member of its own, since no JSON value can be called.  An
    array is the texts of its elements joined by commas, [null] counting as
    the empty text. *)
Fixpoint toStringJ (v : Json) : option string :=
  match v with
  | JNull => Some "null"
  | JBool b => Some (if b then "true" else "false")
  | JNum shown => Some shown
  | JStr s => Some s
  | JArr items =>
      (fix join (l : list Json) : option string :=
         match l with
         | [] => Some EmptyString
         | x :: r =>
             match match x with JNull => Some EmptyString | _ => toStringJ x end,
                   join r with
             | Some a, Some b =>
                 Some (match r with [] => a | _ :: _ => (a ++ "," ++ b)%string end)
             | _, _ => None
             end
         end) items
  | JObj members =>
      if hasOwn "toString" members then None else Some "[object Object]"
  end.

(** An array or an object. *)
Definition isComposite (v : Json) : bool :=
  match v with
  | JArr _ | JObj _ => true
  | _ => false
  end.

(** [a === b] for two values of one parsed body: values of the same
    primitive type are compared, two arrays or objects are never the same
    object. *)
Definition strictEq (a b : Json) : bool :=
  match a, b with
  | JNull, JNull => true
  | JBool x, JBool y => Bool.eqb x y
  | JNum x, JNum y => String.eqb x y
  | JStr x, JStr y => String.eqb x y
  | _, _ => false
  end.

End JS.

Import JS.

(** ** models/index.js: the two collections *)

Module Models.

(** A document of the [User] collection.  [markedAt] and [deleteReason] have
    no default, so they are absent until the identity is marked. *)
Record User := mkUser {
  id : string;
  createdAt : Z;
  lastActive : Z;
  markedForDeletion : bool;
  markedAt : option Z;
  deleteReason : option string
}.

(** A document of the [Message] collection; [_id] is assigned by the store. *)
Record Message := mkMessage {
  _id : nat;
  senderId : string;
  recipientId : string;
  content : string;
  timestamp : Z;
  isRead : bool;
  senderFingerprint : option string
}.

(** The store: both collections in insertion order, and the next fresh
    message identifier. *)
Record Store := mkStore {
  users : list User;
  messages : list Message;
  nextId : nat
}.

Definition withUsers (s : Store) (us : list User) : Store :=
  mkStore us (messages s) (nextId s).

Definition withMessages (s : Store) (ms : list Message) : Store :=
  mkStore (users s) ms (nextId s).

Section Collection.
Context {A : Type}.

(** [Model.countDocuments(filter)] *)
Definition countDocuments (p : A -> bool) (l : list A) : Z :=
  Z.of_nat (List.length (filter p l)).

(** [Model.deleteMany(filter)]: the documents that stay. *)
Definition deleteMany (p : A -> bool) (l : list A) : list A :=
  filter (fun x => negb (p x)) l.

(** [Model.deleteOne(filter)]: the first match goes. *)
Fixpoint deleteOne (p : A -> bool) (l : list A) : list A :=
  match l with
  | [] => []
  | x :: r => if p x then r else x :: deleteOne p r
  end.

(** [Model.findOneAndUpdate(filter, update)]: the first match is updated. *)
Fixpoint findOneAndUpdate (p : A -> bool) (f : A -> A) (l : list A) : list A :=
  match l with
  | [] => []
  | x :: r => if p x then f x :: r else x :: findOneAndUpdate p f r
  end.

(** [Model.updateMany(filter, update)] *)
Definition updateMany (p : A -> bool) (f : A -> A) (l : list A) : list A :=
  map (fun x => if p x then f x else x) l.

End Collection.

(** [User.findOne({ id })] *)
Definition hasId (i : string) (u : User) : bool := String.eqb (id u) i.

Definition findOne (i : string) (us : list User) : option User :=
  find (hasId i) us.

(** The update [{ lastActive: t }]. *)
Definition setLastActive (t : Z) (u : User) : User :=
  mkUser (id u) (createdAt u) t (markedForDeletion u) (markedAt u) (deleteReason u).

(** The update [{ markedForDeletion: true, markedAt: t, deleteReason: r }]. *)
Definition mark (t : Z) (r : string) (u : User) : User :=
  mkUser (id u) (createdAt u) (lastActive u) true (Some t) (Some r).

(** The update [{ isRead: true }]. *)
Definition setRead (m : Message) : Message :=
  mkMessage (_id m) (senderId m) (recipientId m) (content m) (timestamp m) true
    (senderFingerprint m).

(** The projection [select("-senderFingerprint")]. *)
Definition stripFingerprint (m : Message) : Message :=
  mkMessage (_id m) (senderId m) (recipientId m) (content m) (timestamp m)
    (isRead m) None.

(** The filter [{ $or: [{ senderId: i }, { recipientId: i }] }]. *)
Definition involves (i : string) (m : Message) : bool :=
  String.eqb (senderId m) i || String.eqb (recipientId m) i.

(** The filter [{ _id: { $in: ids } }]. *)
Definition idIn (ids : list nat) (m : Message) : bool :=
  existsb (Nat.eqb (_id m)) ids.

(** [sort({ timestamp: -1 })]: newest first; documents with equal
    timestamps keep their store order. *)
Fixpoint insertNewest (m : Message) (l : list Message) : list Message :=
  match l with
  | [] => [m]
  | x :: r => if timestamp x <=? timestamp m then m :: l else x :: insertNewest m r
  end.

Fixpoint sortNewestFirst (l : list Message) : list Message :=
  match l with
  | [] => []
  | m :: r => insertNewest m (sortNewestFirst r)
  end.

(** [limit(n)] of the driver: zero means no limit, a negative value limits
    to its absolute value. *)
Definition applyLimit (n : Z) (l : list Message) : list Message :=
  if n =? 0 then l else firstn (Z.to_nat (Z.abs n)) l.

(** [Message.find(q).sort({ timestamp: -1 }).skip(skip).limit(limit)
    .select("-senderFingerprint")]: the store rejects a skip or a limit that
    is not a number and a negative skip, which the handler sees as a thrown
    error ([None]). *)
Definition findPage (q : Message -> bool) (skip limit : option Z)
    (ms : list Message) : option (list Message) :=
  match skip, limit with
  | Some sk, Some lim =>
      if sk <? 0 then None
      else Some (map stripFingerprint
                   (applyLimit lim (skipn (Z.to_nat sk) (sortNewestFirst (filter q ms)))))
  | _, _ => None
  end.

(** The cast of a value to a [String] path of a schema: a string is kept, a
    number or a boolean is written out, an object with a string [_id] stands
    for that string, and any other object and every array is refused
    ([None], a [CastError]). *)
Definition castString (v : Json) : option string :=
  match v with
  | JStr s => Some s
  | JNum shown => Some shown
  | JBool b => Some (if b then "true" else "false")
  | JObj members =>
      match getOwn "_id" members with
      | Some (JStr s) => if Nat.eqb (String.length s) 0 then None else Some s
      | _ => None
      end
  | JArr _ | JNull => None
  end.

(** The cast of a value in a filter on a [String] path: an array becomes
    [{ $in: [...] }] of its elements cast one by one. *)
Definition castFilter (v : Json) : option (list string) :=
  match v with
  | JArr items =>
      fold_right
        (fun x acc =>
           match castString x, acc with
           | Some c, Some r => Some (c :: r)
           | _, _ => None
           end)
        (Some []) items
  | _ => option_map (fun c => [c]) (castString v)
  end.

(** [User.findOne({ id: { $in: codes } })] *)
Definition findOneIn (codes : list string) (us : list User) : option User :=
  find (fun u => existsb (String.eqb (id u)) codes) us.

(** [new User({ id }).save()] at time [now]: the schema requires six digits
    and the unique index refuses a code already stored; [None] is the thrown
    error. *)
Definition saveUser (i : string) (now : Z) (s : Store) : option Store :=
  if (Nat.eqb (String.length i) 6 && allChars isDigit i)
     && match findOne i (users s) with None => true | Some _ => false end
  then Some (withUsers s (users s ++ [mkUser i now now false None None]))
  else None.

(** [new Message({...}).save()] at time [now]: the schema trims the content
    and validates the two codes and the content length; the store assigns the
    identifier.  [None] is the thrown [ValidationError]. *)
Definition saveMessage (sender recipient text : string) (fp : option string)
    (now : Z) (s : Store) : option (Message * Store) :=
  let text' := trim text in
  let valid (i : string) := Nat.eqb (String.length i) 6 && allChars isDigit i in
  if valid sender && valid recipient
     && negb (Nat.eqb (String.length text') 0)
     && (String.length text' <=? 1000)%nat
  then
    let m := mkMessage (nextId s) sender recipient text' now false fp in
    Some (m, mkStore (users s) (messages s ++ [m]) (S (nextId s)))
  else None.

End Models.

Import Models.

(** ** utils/helpers.js *)

Module Helpers.

(** A thrown [Error]. *)
Inductive Exn := Error (message : string).

(** [generateRandomId], given the binary64 number [r] that [Math.random()]
    returned: [Math.floor(100000 + r * 900000).toString()]. *)
Definition generateRandomId (r : Z) : string :=
  toString (floor (addInteger 100000 (mulInteger r 900000))).

(** The loop of [generateUniqueId], from attempt [i] with [attempts] left;
    [rand i] is what the [i]-th call of [Math.random()] returns. *)
Fixpoint generateUniqueIdFrom (attempts : nat) (rand : nat -> Z) (i : nat)
    (us : list User) : string + Exn :=
  match attempts with
  | O => inr (Error "Unable to generate unique ID after maximum attempts")
  | S k =>
      let id := generateRandomId (rand i) in
      match findOne id us with
      | None => inl id
      | Some _ => generateUniqueIdFrom k rand (S i) us
      end
  end.

Definition generateUniqueId (maxAttempts : nat) (rand : nat -> Z)
    (us : list User) : string + Exn :=
  generateUniqueIdFrom maxAttempts rand 0 us.

(** [/^\d{6}$/.test(id)] *)
Definition isValidId (id : string) : bool :=
  Nat.eqb (String.length id) 6 && allChars isDigit id.

Definition isIdAvailable (id : string) (us : list User) : bool :=
  if negb (isValidId id) then false
  else match findOne id us with None => true | Some _ => false end.

Definition generateCustomId (id : string) (us : list User) : string + Exn :=
  if negb (isValidId id) then inr (Error "Invalid ID format")
  else match findOne id us with
       | Some _ => inr (Error "ID already taken")
       | None => inl id
       end.

(** [sanitizeMessage]: defined by the first version of the helpers; no route
    calls it. *)
Definition sanitizeMessage (content : string) : string :=
  substring0 1000 (collapseWhiteSpace (trim content)).

(** [parsePagination]: defined by the first version of the helpers; no route
    calls it.  [x || d] replaces [NaN] and [0] by [d]. *)
Definition orDefault (x : option Z) (d : Z) : Z :=
  match x with
  | Some v => if v =? 0 then d else v
  | None => d
  end.

Definition parsePagination (page limit : option string) : Z * Z * Z :=
  let num (x : option string) :=
    match x with Some s => parseInt s | None => None end in
  let page := Z.max 1 (orDefault (num page) 1) in
  let limit := Z.min 50 (Z.max 1 (orDefault (num limit) 20)) in
  let skip := (page - 1) * limit in
  (page, limit, skip).

(** The number of copies of [c] at the head of [s]. *)
Fixpoint countPrefix (c : ascii) (s : string) : nat :=
  match s with
  | String d r => if Ascii.eqb c d then S (countPrefix c r) else O
  | EmptyString => O
  end.

(** [/(.)\1{10,}/.test(s)]: some character other than a line terminator is
    followed by ten or more copies of itself. *)
Fixpoint repeatedChars (s : string) : bool :=
  match s with
  | EmptyString => false
  | String c r =>
      (negb (isLineTerminator c) && (10 <=? countPrefix c r)%nat)
      || repeatedChars r
  end.

Definition lowerAscii (c : ascii) : ascii :=
  let n := N_of_ascii c in
  if ((65 <=? n) && (n <=? 90))%N then ascii_of_N (n + 32) else c.

(** [s] starts with the lower-case word [p], letter case ignored. *)
Fixpoint stripPrefixCI (p s : string) : option string :=
  match p, s with
  | EmptyString, _ => Some s
  | String a p', String b s' =>
      if Ascii.eqb (lowerAscii b) a then stripPrefixCI p' s' else None
  | String _ _, EmptyString => None
  end.

Definition urlAt (s : string) : bool :=
  let nonSpaceNext (r : option string) :=
    match r with
    | Some (String c _) => negb (isWhiteSpace c)
    | _ => false
    end in
  nonSpaceNext (stripPrefixCI "https://" s)
  || nonSpaceNext (stripPrefixCI "http://" s).

(** [/https?:\/\/[^\s]+/gi.test(s)] on a fresh pattern object. *)
Fixpoint containsUrl (s : string) : bool :=
  urlAt s
  || match s with
     | EmptyString => false
     | String _ r => containsUrl r
     end.

Inductive Validation :=
| Valid (content : string)
| Invalid (error : string).

(** [validateMessage] on a string; the empty string is falsy. *)
Definition validateMessage (content : string) : Validation :=
  if Nat.eqb (String.length content) 0 then Invalid "Message content is required"
  else
    let trimmed := trim content in
    if Nat.eqb (String.length trimmed) 0 then Invalid "Message cannot be empty"
    else if (1000 <? String.length trimmed)%nat
    then Invalid "Message too long (max 1000 characters)"
    else if repeatedChars trimmed || containsUrl trimmed
    then Invalid "Message appears to be spam"
    else Valid trimmed.

(** [isValidId(v)] for a value of a body: the pattern tests [String(v)];
    [None] when that conversion throws. *)
Definition isValidIdOf (v : Json) : option bool :=
  option_map isValidId (toStringJ v).

(** [validateMessage(v)] for a value of a body: what is not a string is
    refused like an absent content. *)
Definition validateMessageOf (v : Json) : Validation :=
  match v with
  | JStr s => validateMessage s
  | _ => Invalid "Message content is required"
  end.

(** [hay.includes(needle)] *)
Fixpoint includes (needle hay : string) : bool :=
  String.prefix needle hay
  || match hay with
     | EmptyString => false
     | String _ r => includes needle r
     end.

End Helpers.

Import Helpers.

(** ** middleware/index.js *)

Module Middleware.

(** [validateUserId] lets the request through exactly when the route
    parameter is non-empty and matches [/^\d{6}$/]. *)
Definition validateUserId (id : string) : bool :=
  negb (Nat.eqb (String.length id) 0)
  && (Nat.eqb (String.length id) 6 && allChars isDigit id).

End Middleware.

Import Middleware.

(** ** routes/api.js *)

Module Api.

Record Pagination := mkPagination {
  currentPage : option Z;
  totalPages : option Z;
  totalMessages : Z;
  hasMore : bool;
  limit : option Z
}.

(** The [data] member of a successful reply, per route. *)
Inductive Data :=
| GeneratedId (id : string)
| Availability (available : bool) (id : string)
| Sent (id : nat) (timestamp : Z)
| Received (messages : list Message) (pagination : Pagination)
    (unreadCount : option Z) (deletedCount : Z)
| MarkedRead (updated : Z)
| Deleted (userId : string) (deletedMessages : Z) (wasDeleted : bool)
    (reason : Json)
| Heartbeat (userId : string) (lastActive : Z)
| UserExists (found : bool) (userId : string)
| CleanupReceived.

(** An HTTP reply: [formatResponse(true, data)] with its status, or a
    failure with its status and error code.  [Unanswered] is a handler whose
    [catch] block throws: its promise is rejected and the handler sends
    nothing. *)
Inductive Reply :=
| Success (status : Z) (data : Data)
| Failure (status : Z) (code : string)
| Unanswered.

(** A field of a request is [undefined] ([None]) or a string; the empty
    string is falsy. *)
Definition truthy (x : option string) : option string :=
  match x with
  | Some EmptyString => None
  | _ => x
  end.

(** GET /api/generate-id *)
Definition generateId (s : Store) (now : Z) (rand : nat -> Z) : Store * Reply :=
  match generateUniqueId 10 rand (users s) with
  | inl id =>
      match saveUser id now s with
      | Some s' => (s', Success 200 (GeneratedId id))
      | None => (s, Failure 500 "GENERATION_ERROR")
      end
  | inr (Error message) =>
      if includes "Unable to generate unique ID" message
      then (s, Failure 503 "SERVICE_UNAVAILABLE")
      else (s, Failure 500 "GENERATION_ERROR")
  end.

(** GET /api/check-id/:id, behind [validateUserId]. *)
Definition checkId (s : Store) (id : string) : Store * Reply :=
  if negb (validateUserId id) then (s, Failure 400 "INVALID_ID_FORMAT")
  else (s, Success 200 (Availability (isIdAvailable id (users s)) id)).

(** The body of POST /api/messages/send when the members that it has are
    strings, and the fingerprint that [createFingerprint(req)] derives from
    the connection.  [SendBody] below is the body with members of any
    type. *)
Record SendRequest := mkSendRequest {
  bodySenderId : option string;
  bodyRecipientId : option string;
  bodyContent : option string;
  bodyFingerprint : option string;
  derivedFingerprint : string
}.

(** POST /api/messages/send on such a body; [tMessage] is the clock when
    the message is built and [tTouch] when the recipient is touched. *)
Definition sendMessage (s : Store) (tMessage tTouch : Z) (rq : SendRequest)
    : Store * Reply :=
  match truthy (bodySenderId rq), truthy (bodyRecipientId rq),
        truthy (bodyContent rq) with
  | Some sender, Some recipient, Some text =>
      if negb (isValidId sender) || negb (isValidId recipient)
      then (s, Failure 400 "INVALID_ID")
      else if String.eqb sender recipient
      then (s, Failure 400 "INVALID_RECIPIENT")
      else
        match validateMessage text with
        | Invalid _ => (s, Failure 400 "INVALID_MESSAGE")
        | Valid validated =>
            match findOne sender (users s), findOne recipient (users s) with
            | None, _ => (s, Failure 404 "SENDER_NOT_FOUND")
            | Some _, None => (s, Failure 404 "RECIPIENT_NOT_FOUND")
            | Some _, Some _ =>
                let fp := match truthy (bodyFingerprint rq) with
                          | Some f => f
                          | None => derivedFingerprint rq
                          end in
                match saveMessage sender recipient validated (Some fp) tMessage s with
                | None => (s, Failure 400 "VALIDATION_ERROR")
                | Some (m, s1) =>
                    (withUsers s1
                       (findOneAndUpdate (hasId recipient) (setLastActive tTouch)
                          (users s1)),
                     Success 201 (Sent (_id m) (timestamp m)))
                end
            end
        end
  | _, _, _ => (s, Failure 400 "INVALID_REQUEST")
  end.

(** The body of POST /api/messages/send as the JSON parser leaves it: each
    member absent or a value of any type. *)
Record SendBody := mkSendBody {
  jsonSenderId : option Json;
  jsonRecipientId : option Json;
  jsonContent : option Json;
  jsonFingerprint : option Json;
  connectionFingerprint : string
}.

(** A member that is present and truthy. *)
Definition truthyValue (x : option Json) : option Json :=
  match x with
  | Some v => if truthyJ v then Some v else None
  | None => None
  end.

(** POST /api/messages/send on any body.  A conversion that throws and a
    filter that cannot be cast end in the [catch] block as 500 SEND_ERROR;
    a member of the new message that cannot be cast makes [save()] reject
    with a [ValidationError]. *)
Definition sendMessageJson (s : Store) (tMessage tTouch : Z) (rq : SendBody)
    : Store * Reply :=
  match truthyValue (jsonSenderId rq), truthyValue (jsonRecipientId rq),
        truthyValue (jsonContent rq) with
  | Some sender, Some recipient, Some text =>
      match isValidIdOf sender with
      | None => (s, Failure 500 "SEND_ERROR")
      | Some false => (s, Failure 400 "INVALID_ID")
      | Some true =>
          match isValidIdOf recipient with
          | None => (s, Failure 500 "SEND_ERROR")
          | Some false => (s, Failure 400 "INVALID_ID")
          | Some true =>
              if strictEq sender recipient
              then (s, Failure 400 "INVALID_RECIPIENT")
              else
                match validateMessageOf text with
                | Invalid _ => (s, Failure 400 "INVALID_MESSAGE")
                | Valid validated =>
                    match castFilter sender, castFilter recipient with
                    | Some senders, Some recipients =>
                        match findOneIn senders (users s),
                              findOneIn recipients (users s) with
                        | None, _ => (s, Failure 404 "SENDER_NOT_FOUND")
                        | Some _, None => (s, Failure 404 "RECIPIENT_NOT_FOUND")
                        | Some _, Some _ =>
                            let fingerprint :=
                              match truthyValue (jsonFingerprint rq) with
                              | Some f => castString f
                              | None => Some (connectionFingerprint rq)
                              end in
                            match castString sender, castString recipient,
                                  fingerprint with
                            | Some from, Some to, Some fp =>
                                match saveMessage from to validated (Some fp)
                                        tMessage s with
                                | None => (s, Failure 400 "VALIDATION_ERROR")
                                | Some (m, s1) =>
                                    (withUsers s1
                                       (findOneAndUpdate (hasId to)
                                          (setLastActive tTouch) (users s1)),
                                     Success 201 (Sent (_id m) (timestamp m)))
                                end
                            | _, _, _ => (s, Failure 400 "VALIDATION_ERROR")
                            end
                        end
                    | _, _ => (s, Failure 500 "SEND_ERROR")
                    end
                end
          end
      end
  | _, _, _ => (s, Failure 400 "INVALID_REQUEST")
  end.

(** The query string of GET /api/messages/:recipientId. *)
Record Query := mkQuery {
  queryPage : option string;
  queryLimit : option string;
  queryUnread : option string
}.

(** [parseInt(x)] where [x] defaults to the number [d] when absent. *)
Definition numParam (x : option string) (d : Z) : option Z :=
  match x with
  | Some str => parseInt str
  | None => Some d
  end.

(** [unread === "true"] *)
Definition unreadOnly (q : Query) : bool :=
  match queryUnread q with
  | Some str => String.eqb str "true"
  | None => false
  end.

(** The filter [{ recipientId }], with [isRead: false] when only unread
    messages are asked for. *)
Definition inboxQuery (recipient : string) (unread : bool) (m : Message) : bool :=
  String.eqb (recipientId m) recipient && (if unread then negb (isRead m) else true).

(** GET /api/messages/:recipientId, behind [validateUserId]. *)
Definition getMessages (s : Store) (now : Z) (recipient : string) (q : Query)
    : Store * Reply :=
  if negb (validateUserId recipient) then (s, Failure 400 "INVALID_ID_FORMAT")
  else
    match findOne recipient (users s) with
    | None => (s, Failure 404 "USER_NOT_FOUND")
    | Some _ =>
        let page := numParam (queryPage q) 1 in
        let lim := numParam (queryLimit q) 20 in
        let skip := numMul (numSub page (Some 1)) lim in
        let query := inboxQuery recipient (unreadOnly q) in
        match findPage query skip lim (messages s), skip, lim with
        | Some found, Some sk, Some l =>
            let total := countDocuments query (messages s) in
            let messageIds := map _id found in
            let us := findOneAndUpdate (hasId recipient) (setLastActive now) (users s) in
            let ms := deleteMany (idIn messageIds) (messages s) in
            let returned := Z.of_nat (List.length found) in
            let remainingMessages := total - returned in
            let pagination :=
              mkPagination page (ceilDiv remainingMessages l) remainingMessages
                (sk + returned <? total) lim in
            let unreadCount :=
              if negb (unreadOnly q)
              then Some (countDocuments (inboxQuery recipient true) ms)
              else None in
            (mkStore us ms (nextId s),
             Success 200 (Received found pagination unreadCount returned))
        | _, _, _ => (s, Failure 500 "PROCESS_ERROR")
        end
    end.

(** PUT /api/messages/:userId/read, behind [validateUserId]; [messageIds] is
    the array of the body, [None] when it is absent or not an array.  The
    schema keeps timestamps, so every matched document is rewritten with
    the clock in [updatedAt]; the count of the reply is given here as the
    number of matched documents, which is what the store reports unless a
    matched document that is already read was last written in the same
    millisecond. *)
Definition markRead (s : Store) (userId : string) (messageIds : option (list nat))
    : Store * Reply :=
  if negb (validateUserId userId) then (s, Failure 400 "INVALID_ID_FORMAT")
  else
    match findOne userId (users s) with
    | None => (s, Failure 404 "USER_NOT_FOUND")
    | Some _ =>
        let updateQuery (m : Message) :=
          String.eqb (recipientId m) userId
          && match messageIds with
             | Some (i :: ids) => idIn (i :: ids) m
             | _ => true
             end in
        let modifiedCount := countDocuments updateQuery (messages s) in
        (withMessages s (updateMany updateQuery setRead (messages s)),
         Success 200 (MarkedRead modifiedCount))
    end.

(** The body of DELETE /api/users/:userId as the parsers of [server.js]
    leave it: absent, or an object of which the handler reads the members
    [immediate], [reason] and [get] ([None] is [undefined]).  [FormBody] is
    the form data that the second branch of the handler expects, an object
    whose [get] can be called; neither parser produces one. *)
Inductive DeleteBody :=
| NoBody
| JsonBody (immediate reason get : option Json)
| FormBody (get : string -> option string).

(** [immediate], by its truthiness, and [reason] after the first block of
    the handler, when nothing is thrown. *)
Definition deleteOptions (b : DeleteBody) : bool * Json :=
  match b with
  | NoBody => (false, JStr "manual")
  | JsonBody (Some immediate) reason _ =>
      (truthyJ immediate,
       match reason with
       | Some r => if truthyJ r then r else JStr "manual"
       | None => JStr "manual"
       end)
  | JsonBody None _ _ => (false, JStr "manual")
  | FormBody get =>
      (match get "immediate" with Some v => String.eqb v "true" | None => false end,
       JStr (match truthy (get "reason") with Some r => r | None => "beacon" end))
  end.

(** Whether the first block, or the log line that follows it, throws a
    [TypeError]: without [immediate], a truthy [get] member is called,
    which no value of a JSON body allows; with [immediate], the template of
    the log line needs the text of [immediate] and of [reason]. *)
Definition bodyThrows (b : DeleteBody) : bool :=
  match b with
  | JsonBody None _ (Some get) => truthyJ get
  | JsonBody (Some immediate) _ _ =>
      match toStringJ immediate, toStringJ (snd (deleteOptions b)) with
      | Some _, Some _ => false
      | _, _ => true
      end
  | _ => false
  end.

(** The [catch] block of the handler: it calls [req.body.get] when that
    member is truthy, and so throws again for a JSON body that has one. *)
Definition deleteFailed (b : DeleteBody) : Reply :=
  match b with
  | JsonBody _ _ (Some get) =>
      if truthyJ get then Unanswered else Failure 500 "DELETE_ERROR"
  | FormBody get =>
      match get "reason" with
      | Some r =>
          if String.eqb r "beacon" then Success 200 CleanupReceived
          else Failure 500 "DELETE_ERROR"
      | None => Failure 500 "DELETE_ERROR"
      end
  | _ => Failure 500 "DELETE_ERROR"
  end.

(** DELETE /api/users/:userId, behind [validateUserId].  The update of a
    soft deletion casts [reason] to the [String] path [deleteReason], and is
    thrown back when the cast fails. *)
Definition deleteUser (s : Store) (now : Z) (userId : string) (b : DeleteBody)
    : Store * Reply :=
  if negb (validateUserId userId) then (s, Failure 400 "INVALID_ID_FORMAT")
  else if bodyThrows b then (s, deleteFailed b)
  else
    let '(immediate, reason) := deleteOptions b in
    match findOne userId (users s) with
    | None => (s, Success 200 (Deleted userId 0 false reason))
    | Some _ =>
        if immediate then
          let deletedMessages := countDocuments (involves userId) (messages s) in
          (mkStore (deleteOne (hasId userId) (users s))
             (deleteMany (involves userId) (messages s)) (nextId s),
           Success 200 (Deleted userId deletedMessages true reason))
        else
          match castString reason with
          | Some r =>
              (withUsers s (findOneAndUpdate (hasId userId) (mark now r) (users s)),
               Success 200 (Deleted userId 0 false reason))
          | None => (s, deleteFailed b)
          end
    end.

(** PUT /api/users/:userId/heartbeat, behind [validateUserId]. *)
Definition heartbeat (s : Store) (now : Z) (userId : string) : Store * Reply :=
  if negb (validateUserId userId) then (s, Failure 400 "INVALID_ID_FORMAT")
  else
    match findOne userId (users s) with
    | None => (s, Failure 404 "USER_NOT_FOUND")
    | Some _ =>
        (withUsers s (findOneAndUpdate (hasId userId) (setLastActive now) (users s)),
         Success 200 (Heartbeat userId now))
    end.

(** GET /api/users/:userId/exists, behind [validateUserId]. *)
Definition userExists (s : Store) (userId : string) : Store * Reply :=
  if negb (validateUserId userId) then (s, Failure 400 "INVALID_ID_FORMAT")
  else
    (s, Success 200
          (UserExists (match findOne userId (users s) with Some _ => true | None => false end)
             userId)).

End Api.

Import Api.

(** ** server.js: the periodic sweep *)

Module Server.

(** The filter [{ markedForDeletion: true, markedAt: { $lt: t } }]. *)
Definition pastGrace (t : Z) (u : User) : bool :=
  markedForDeletion u
  && match markedAt u with
     | Some at_ => at_ <? t
     | None => false
     end.

(** The filter [{ lastActive: { $lt: t }, markedForDeletion: { $ne: true } }]. *)
Definition inactive (t : Z) (u : User) : bool :=
  (lastActive u <? t) && negb (markedForDeletion u).

(** One turn of the purge loop. *)
Definition purge (s : Store) (u : User) : Store :=
  mkStore (deleteOne (hasId (id u)) (users s))
    (deleteMany (involves (id u)) (messages s)) (nextId s).

(** The filter [{ id: { $in: ids } }]. *)
Definition userIdIn (ids : list string) (u : User) : bool :=
  existsb (String.eqb (id u)) ids.

(** [cleanupInactiveUsers]; [t1], [t2] and [t3] are the three clock readings
    of a pass, in program order. *)
Definition cleanupInactiveUsers (s : Store) (t1 t2 t3 : Z) : Store :=
  let twoMinutesAgo := t1 - 2 * 60 * 1000 in
  let softDeletedUsers := filter (pastGrace twoMinutesAgo) (users s) in
  let s1 := fold_left purge softDeletedUsers s in
  let fifteenMinutesAgo := t2 - 15 * 60 * 1000 in
  let inactiveUsers := filter (inactive fifteenMinutesAgo) (users s1) in
  if (0 <? List.length inactiveUsers)%nat
  then withUsers s1
         (updateMany (userIdIn (map id inactiveUsers)) (mark t3 "inactivity")
            (users s1))
  else s1.

End Server.

Import Server.

(** ** The server as a transition system *)

Module System.

(** What can happen to the store: a request to one of the routes, or a pass
    of the sweep, each with the clock readings and random draws it uses. *)
Inductive Event :=
| OnGenerateId (now : Z) (rand : nat -> Z)
| OnCheckId (id : string)
| OnSend (tMessage tTouch : Z) (rq : SendRequest)
| OnSendJson (tMessage tTouch : Z) (rq : SendBody)
| OnGetMessages (now : Z) (recipient : string) (q : Query)
| OnMarkRead (userId : string) (messageIds : option (list nat))
| OnDeleteUser (now : Z) (userId : string) (b : DeleteBody)
| OnHeartbeat (now : Z) (userId : string)
| OnUserExists (userId : string)
| OnSweep (t1 t2 t3 : Z).

Definition step (s : Store) (e : Event) : Store :=
  match e with
  | OnGenerateId now rand => fst (generateId s now rand)
  | OnCheckId id => fst (checkId s id)
  | OnSend tMessage tTouch rq => fst (sendMessage s tMessage tTouch rq)
  | OnSendJson tMessage tTouch rq => fst (sendMessageJson s tMessage tTouch rq)
  | OnGetMessages now recipient q => fst (getMessages s now recipient q)
  | OnMarkRead userId messageIds => fst (markRead s userId messageIds)
  | OnDeleteUser now userId b => fst (deleteUser s now userId b)
  | OnHeartbeat now userId => fst (heartbeat s now userId)
  | OnUserExists userId => fst (userExists s userId)
  | OnSweep t1 t2 t3 => cleanupInactiveUsers s t1 t2 t3
  end.

(** The stores the server can be in, starting from empty collections. *)
Inductive reachable : Store -> Prop :=
| reachable_empty : reachable (mkStore [] [] 0)
| reachable_step s e : reachable s -> reachable (step s e).

End System.

Import System.

(** ** Predicates of the specification *)

Module Spec.

(** The messages are in non-increasing order of timestamp. *)
Fixpoint newestFirst (l : list Message) : Prop :=
  match l with
  | [] => True
  | m :: r => (forall x, In x r -> timestamp x <= timestamp m) /\ newestFirst r
  end.

(** The messages a reply hands to the client. *)
Definition delivered (r : Reply) : list Message :=
  match r with
  | Success _ (Received ms _ _ _) => ms
  | _ => []
  end.

(** The page that a call with page [p] and limit [l] selects, before the
    fingerprint is dropped. *)
Definition selectPage (r : string) (q : Query) (p l : Z) (ms : list Message)
    : list Message :=
  applyLimit l
    (skipn (Z.to_nat ((p - 1) * l))
       (sortNewestFirst (filter (inboxQuery r (unreadOnly q)) ms))).

(** The six decimal digits of [n], most significant first. *)
Definition sixDigits (n : Z) : string :=
  let q1 := n / 10 in
  let q2 := q1 / 10 in
  let q3 := q2 / 10 in
  let q4 := q3 / 10 in
  let q5 := q4 / 10 in
  String (digitChar (q5 mod 10))
    (String (digitChar (q4 mod 10))
       (String (digitChar (q3 mod 10))
          (String (digitChar (q2 mod 10))
             (String (digitChar (q1 mod 10))
                (String (digitChar (n mod 10)) EmptyString))))).

(** The normal form of a content as the specification words it: outer white
    space trimmed, then every internal run of white space collapsed to one
    space. *)
Definition normalized (text : string) : string := collapseWhiteSpace (trim text).

(** The store's own invariants: message identifiers are unique and below
    the next fresh one, and identity codes are unique. *)
Definition uniqueMessageIds (s : Store) : Prop := NoDup (map _id (messages s)).

Definition uniqueCodes (s : Store) : Prop := NoDup (map id (users s)).

Definition freshNextId (s : Store) : Prop :=
  forall m, In m (messages s) -> (_id m < nextId s)%nat.

Definition wellFormed (s : Store) : Prop :=
  uniqueMessageIds s /\ freshNextId s /\ uniqueCodes s.

End Spec.

Import Spec.

(** ** Sample stores *)

Module Samples.

Definition alice : User := mkUser "123456" 1000 1000 false None None.
Definition bob : User := mkUser "654321" 2000 2000 false None None.

Definition note (i : nat) (t : Z) (text : string) : Message :=
  mkMessage i "123456" "654321" text t false (Some "fp").

(** Two identities; three messages from the first to the second. *)
Definition inbox : Store :=
  mkStore [alice; bob]
    [note 0 3000 "one"; note 1 4000 "two"; note 2 5000 "three"] 3.

Definition emptyStore : Store := mkStore [] [] 0.

Definition firstTwo : Query := mkQuery (Some "1") (Some "2") None.

(** The sample inbox after its recipient fetched the first page of two. *)
Definition inboxAfter : Store :=
  Eval vm_compute in fst (getMessages inbox 9000 "654321" firstTwo).

(** [n] messages to the second identity, numbered from [n - 1] down to 0. *)
Fixpoint notes (n : nat) : list Message :=
  match n with
  | O => []
  | S k => note k (Z.of_nat k) "hello" :: notes k
  end.

Definition crowded : Store := mkStore [alice; bob] (notes 51) 51.

(** Three identities at clock 1000000: one marked long ago, one idle for
    more than fifteen minutes, one active; and their messages. *)
Definition stale : User := mkUser "111111" 0 0 true (Some 1000) (Some "manual").
Definition idle : User := mkUser "222222" 0 50000 false None None.
Definition busy : User := mkUser "333333" 0 990000 false None None.

Definition lobby : Store :=
  mkStore [stale; idle; busy]
    [mkMessage 0 "111111" "333333" "from stale" 10 false None;
     mkMessage 1 "222222" "333333" "from idle" 20 false None;
     mkMessage 2 "333333" "111111" "to stale" 30 false None]
    3.

End Samples.

Import Samples.

(** ** The routes, helpers and sweep that the other versions add *)

Module Extended.

(** POST /api/custom-id/:id of [routes/api.js], behind [validateUserId]; the
    reply carries [{ id }] like the one of the generator. *)
Definition customId (s : Store) (now : Z) (id : string) : Store * Reply :=
  if negb (validateUserId id) then (s, Failure 400 "INVALID_ID_FORMAT")
  else
    match generateCustomId id (users s) with
    | inl customId =>
        match saveUser customId now s with
        | Some s' => (s', Success 200 (GeneratedId customId))
        | None => (s, Failure 500 "GENERATION_ERROR")
        end
    | inr (Error message) =>
        if String.eqb message "ID already taken"
        then (s, Failure 409 "ID_TAKEN")
        else if String.eqb message "Invalid ID format"
        then (s, Failure 400 "INVALID_FORMAT")
        else (s, Failure 500 "GENERATION_ERROR")
    end.

(** [getPaginationMeta] of the first helpers.  With a limit of zero the
    quotient is not finite: [Infinity] for a positive total, which every page
    is below, and [NaN] or [-Infinity] otherwise, which no page is below. *)
Record PaginationMeta := mkPaginationMeta {
  metaCurrentPage : Z;
  metaTotalPages : option Z;
  totalItems : Z;
  itemsPerPage : Z;
  hasNextPage : bool;
  hasPrevPage : bool
}.

Definition getPaginationMeta (page limit total : Z) : PaginationMeta :=
  let totalPages := ceilDiv total limit in
  mkPaginationMeta page totalPages total limit
    (match totalPages with
     | Some pages => page <? pages
     | None => 0 <? total
     end)
    (1 <? page).

(** The replies of the routes that only the first version of the routes
    has. *)
Inductive DataV1 :=
| Created (id : string) (createdAt : Z)
| Stats (userId : string) (createdAt lastActive : Z)
    (totalMessages unreadMessages readMessages : Z)
| Removed (userId : string) (deletedMessages : Z).

Inductive ReplyV1 :=
| SuccessV1 (status : Z) (data : DataV1)
| FailureV1 (status : Z) (code : string).

(** Why [save()] of an identity throws: the schema refuses the code, or the
    unique index does (error code 11000). *)
Inductive SaveError := ValidationFailed | DuplicateKey.

Definition trySaveUser (i : string) (now : Z) (s : Store) : Store + SaveError :=
  if negb (Nat.eqb (String.length i) 6 && allChars isDigit i)
  then inr ValidationFailed
  else match findOne i (users s) with
       | Some _ => inr DuplicateKey
       | None => inl (withUsers s (users s ++ [mkUser i now now false None None]))
       end.

(** POST /api/users of the first routes; [bodyId] is the [id] member of the
    body, a value of any type.  The filter of [isIdAvailable] and the new
    document cast it to a string; a conversion or a cast that fails ends in
    the [catch] block as 500 CREATE_ERROR. *)
Definition createUser (s : Store) (now : Z) (bodyId : option Json)
    : Store * ReplyV1 :=
  match truthyValue bodyId with
  | None => (s, FailureV1 400 "INVALID_ID")
  | Some id =>
      match isValidIdOf id with
      | None => (s, FailureV1 500 "CREATE_ERROR")
      | Some false => (s, FailureV1 400 "INVALID_ID")
      | Some true =>
          match castFilter id with
          | None => (s, FailureV1 500 "CREATE_ERROR")
          | Some codes =>
              match findOneIn codes (users s) with
              | Some _ => (s, FailureV1 409 "ID_TAKEN")
              | None =>
                  match castString id with
                  | None => (s, FailureV1 500 "CREATE_ERROR")
                  | Some code =>
                      match trySaveUser code now s with
                      | inl s' => (s', SuccessV1 201 (Created code now))
                      | inr DuplicateKey => (s, FailureV1 409 "ID_TAKEN")
                      | inr ValidationFailed => (s, FailureV1 500 "CREATE_ERROR")
                      end
                  end
              end
          end
      end
  end.

(** GET /api/users/:userId/stats of the first routes, behind
    [validateUserId]. *)
Definition userStats (s : Store) (userId : string) : Store * ReplyV1 :=
  if negb (validateUserId userId) then (s, FailureV1 400 "INVALID_ID_FORMAT")
  else
    match findOne userId (users s) with
    | None => (s, FailureV1 404 "USER_NOT_FOUND")
    | Some user =>
        let totalMessages := countDocuments (inboxQuery userId false) (messages s) in
        let unreadMessages := countDocuments (inboxQuery userId true) (messages s) in
        (s, SuccessV1 200
              (Stats userId (createdAt user) (lastActive user)
                 totalMessages unreadMessages (totalMessages - unreadMessages)))
    end.

(** DELETE /api/users/:userId of the first routes, behind [validateUserId]:
    always a hard deletion. *)
Definition deleteUserV1 (s : Store) (userId : string) : Store * ReplyV1 :=
  if negb (validateUserId userId) then (s, FailureV1 400 "INVALID_ID_FORMAT")
  else
    match findOne userId (users s) with
    | None => (s, SuccessV1 200 (Removed userId 0))
    | Some _ =>
        (mkStore (deleteOne (hasId userId) (users s))
           (deleteMany (involves userId) (messages s)) (nextId s),
         SuccessV1 200
           (Removed userId (countDocuments (involves userId) (messages s))))
    end.

(** The filter [{ lastActive: { $lt: t } }]. *)
Definition idleSince (t : Z) (u : User) : bool := lastActive u <? t.

(** [cleanupInactiveUsers] of the first sweep: identities idle for more than
    ten minutes are deleted at once, with their messages. *)
Definition cleanupInactiveUsersV1 (s : Store) (now : Z) : Store :=
  let tenMinutesAgo := now - 10 * 60 * 1000 in
  let inactiveUsers := filter (idleSince tenMinutesAgo) (users s) in
  fold_left purge inactiveUsers s.

(** Everything that can happen to the store, in any version of the
    server. *)
Inductive Action :=
| Routed (e : Event)
| OnCustomId (now : Z) (id : string)
| OnCreateUser (now : Z) (bodyId : option Json)
| OnUserStats (userId : string)
| OnDeleteUserV1 (userId : string)
| OnSweepV1 (now : Z).

Definition act (s : Store) (a : Action) : Store :=
  match a with
  | Routed e => step s e
  | OnCustomId now id => fst (customId s now id)
  | OnCreateUser now bodyId => fst (createUser s now bodyId)
  | OnUserStats userId => fst (userStats s userId)
  | OnDeleteUserV1 userId => fst (deleteUserV1 s userId)
  | OnSweepV1 now => cleanupInactiveUsersV1 s now
  end.

Fixpoint run (s : Store) (l : list Action) : Store :=
  match l with
  | [] => s
  | a :: r => run (act s a) r
  end.

(** The data that the routes keep of what they store: codes are six
    digits; a message goes between two well-formed codes, both of them
    stored identities, and its content is trimmed, of 1 to 1000 characters,
    and passed the spam patterns. *)
Definition validMessage (us : list User) (m : Message) : Prop :=
  isValidId (senderId m) = true
  /\ isValidId (recipientId m) = true
  /\ trim (content m) = content m
  /\ (1 <= String.length (content m) <= 1000)%nat
  /\ repeatedChars (content m) = false
  /\ containsUrl (content m) = false
  /\ findOne (senderId m) us <> None
  /\ findOne (recipientId m) us <> None.

Definition validData (s : Store) : Prop :=
  (forall u, In u (users s) -> isValidId (id u) = true)
  /\ (forall m, In m (messages s) -> validMessage (users s) m).

Definition validStore (s : Store) : Prop := wellFormed s /\ validData s.

(** The string of [n] copies of [c]. *)
Fixpoint replicate (n : nat) (c : ascii) : string :=
  match n with
  | O => EmptyString
  | S k => String c (replicate k c)
  end.

(** [s] with its ASCII capitals in lower case. *)
Fixpoint lowerString (s : string) : string :=
  match s with
  | EmptyString => EmptyString
  | String c r => String (lowerAscii c) (lowerString r)
  end.

(** No two white-space characters in a row, and every white-space character
    is a space. *)
Fixpoint singleSpaced (s : string) : Prop :=
  match s with
  | EmptyString => True
  | String c r =>
      (isWhiteSpace c = true ->
       c = " "%char
       /\ match r with
          | EmptyString => True
          | String d _ => isWhiteSpace d = false
          end)
      /\ singleSpaced r
  end.

End Extended.

Import Extended.

(** * Properties *)

(** ** Collections *)

Section CollectionFacts.
Context {A : Type}.
Implicit Types (p : A -> bool) (l : list A).

Lemma deleteMany_In p l x : In x (deleteMany p l) <-> In x l /\ p x = false.
Proof.
  unfold deleteMany. rewrite filter_In. now rewrite negb_true_iff.
Qed.

Lemma countDocuments_nonneg p l : 0 <= countDocuments p l.
Proof. unfold countDocuments. lia. Qed.

Lemma Permutation_filter p l l' :
  Permutation l l' -> Permutation (filter p l) (filter p l').
Proof.
  induction 1; simpl.
  - constructor.
  - destruct (p x); auto.
  - destruct (p x), (p y); auto using perm_swap.
  - etransitivity; eassumption.
Qed.

Lemma filter_comm p (q : A -> bool) l :
  filter p (filter q l) = filter q (filter p l).
Proof.
  induction l as [|x l IH]; simpl; [reflexivity|].
  destruct (p x) eqn:Hp, (q x) eqn:Hq; simpl; rewrite ?Hp, ?Hq, IH; reflexivity.
Qed.

Lemma firstn_incl n l x : In x (firstn n l) -> In x l.
Proof.
  intros H. rewrite <- (firstn_skipn n l). apply in_or_app. now left.
Qed.

Lemma skipn_incl n l x : In x (skipn n l) -> In x l.
Proof.
  intros H. rewrite <- (firstn_skipn n l). apply in_or_app. now right.
Qed.

End CollectionFacts.

Lemma idIn_spec ids m : idIn ids m = true <-> In (_id m) ids.
Proof.
  unfold idIn. rewrite existsb_exists. split.
  - intros (i & Hin & Heq). apply Nat.eqb_eq in Heq. now subst.
  - intros H. exists (_id m). split; [assumption | apply Nat.eqb_refl].
Qed.

Lemma hasId_spec i u : hasId i u = true <-> id u = i.
Proof. unfold hasId. apply String.eqb_eq. Qed.

Lemma findOne_None i us : findOne i us = None <-> forall u, In u us -> id u <> i.
Proof.
  unfold findOne. split.
  - intros H u Hin Heq.
    apply (find_none _ _ H) in Hin. apply hasId_spec in Heq. congruence.
  - intros H. destruct (find (hasId i) us) eqn:E; [|reflexivity].
    apply find_some in E. destruct E as [Hin Hid].
    apply hasId_spec in Hid. now apply H in Hin.
Qed.

Lemma findOne_Some i us u : findOne i us = Some u -> In u us /\ id u = i.
Proof.
  unfold findOne. intros H. apply find_some in H.
  now rewrite hasId_spec in H.
Qed.

(** Touching an identity keeps it findable under its code. *)
Lemma findOne_update i f us u :
  (forall x, id (f x) = id x) ->
  findOne i us = Some u ->
  findOne i (findOneAndUpdate (hasId i) f us) = Some (f u).
Proof.
  intros Hf. unfold findOne. induction us as [|x us IH]; simpl; [discriminate|].
  destruct (hasId i x) eqn:E.
  - intros [= ->]. simpl.
    assert (hasId i (f u) = true) as ->
        by (apply hasId_spec; rewrite Hf; now apply hasId_spec).
    reflexivity.
  - intros H. simpl. rewrite E. auto.
Qed.

(** ** Sorting newest first *)

Lemma insertNewest_perm m l : Permutation (m :: l) (insertNewest m l).
Proof.
  induction l as [|x l IH]; simpl; [reflexivity|].
  destruct (timestamp x <=? timestamp m); [reflexivity|].
  rewrite perm_swap. now constructor.
Qed.

Lemma sortNewestFirst_perm l : Permutation l (sortNewestFirst l).
Proof.
  induction l as [|m l IH]; simpl; [constructor|].
  rewrite <- insertNewest_perm. now constructor.
Qed.

Lemma insertNewest_sorted m l : newestFirst l -> newestFirst (insertNewest m l).
Proof.
  induction l as [|x l IH]; simpl.
  - intros _. split; [intros ? []|exact I].
  - intros [Hx Hl]. destruct (Z.leb_spec (timestamp x) (timestamp m)).
    + simpl. split; [|split; assumption].
      intros y [<-|Hy]; [assumption|]. specialize (Hx _ Hy). lia.
    + simpl. split; [|auto].
      intros y Hy.
      apply (Permutation_in _ (Permutation_sym (insertNewest_perm m l))) in Hy.
      destruct Hy as [<-|Hy]; [lia|auto].
Qed.

Lemma sortNewestFirst_sorted l : newestFirst (sortNewestFirst l).
Proof.
  induction l as [|m l IH]; simpl; [exact I|]. now apply insertNewest_sorted.
Qed.

(** ** Receiving *)

(** What a call computes once the recipient exists and the page and limit
    are numbers with a non-negative skip. *)
Lemma getMessages_ok s now r q u p l :
  validateUserId r = true ->
  findOne r (users s) = Some u ->
  numParam (queryPage q) 1 = Some p ->
  numParam (queryLimit q) 20 = Some l ->
  0 <= (p - 1) * l ->
  getMessages s now r q =
    let found := map stripFingerprint (selectPage r q p l (messages s)) in
    let total := countDocuments (inboxQuery r (unreadOnly q)) (messages s) in
    let ms := deleteMany (idIn (map _id found)) (messages s) in
    let returned := Z.of_nat (List.length found) in
    (mkStore (findOneAndUpdate (hasId r) (setLastActive now) (users s)) ms (nextId s),
     Success 200
       (Received found
          (mkPagination (Some p) (ceilDiv (total - returned) l) (total - returned)
             ((p - 1) * l + returned <? total) (Some l))
          (if negb (unreadOnly q)
           then Some (countDocuments (inboxQuery r true) ms) else None)
          returned)).
Proof.
  intros Hv Hu Hp Hl Hsk. unfold getMessages, findPage, selectPage.
  rewrite Hv, Hu, Hp, Hl. cbn [negb numSub numMul].
  destruct (Z.ltb_spec ((p - 1) * l) 0); [lia|]. reflexivity.
Qed.

(** A call that delivers went through every guard. *)
Lemma getMessages_inv s now r q s1 st msgs pg uc dc :
  getMessages s now r q = (s1, Success st (Received msgs pg uc dc)) ->
  exists u p l,
    validateUserId r = true /\ findOne r (users s) = Some u /\
    numParam (queryPage q) 1 = Some p /\ numParam (queryLimit q) 20 = Some l /\
    0 <= (p - 1) * l.
Proof.
  unfold getMessages, findPage.
  destruct (validateUserId r); cbn [negb]; [|discriminate].
  destruct (findOne r (users s)) as [u|]; [|discriminate].
  destruct (numParam (queryPage q) 1) as [p|]; cbn [numSub numMul]; [|discriminate].
  destruct (numParam (queryLimit q) 20) as [l|]; [|discriminate].
  destruct (Z.ltb_spec ((p - 1) * l) 0); [discriminate|].
  intros _. exists u, p, l. auto.
Qed.

Lemma ids_stripFingerprint l : map _id (map stripFingerprint l) = map _id l.
Proof. rewrite map_map. reflexivity. Qed.

(** Whatever a call delivers is gone from the store it leaves. *)
Lemma getMessages_deletes s now r q :
  forall m m',
    In m (delivered (snd (getMessages s now r q))) ->
    In m' (messages (fst (getMessages s now r q))) ->
    _id m' <> _id m.
Proof.
  intros m m'.
  destruct (getMessages s now r q) as [s1 rep] eqn:E.
  destruct rep as [st [| | |msgs pg uc dc| | | | |]| |]; simpl; try contradiction.
  destruct (getMessages_inv _ _ _ _ _ _ _ _ _ _ E) as (u & p & l & Hv & Hu & Hp & Hl & Hsk).
  rewrite (getMessages_ok _ _ _ _ _ _ _ Hv Hu Hp Hl Hsk) in E.
  cbv zeta in E. injection E as <- _ <- _ _ _.
  cbn [messages]. intros Hm Hm'.
  apply deleteMany_In in Hm'. destruct Hm' as [_ Hout].
  intros Heq. apply (in_map _id) in Hm. rewrite <- Heq in Hm.
  apply idIn_spec in Hm. congruence.
Qed.

(** Whatever a call delivers was addressed to the recipient in the store it
    started from. *)
Lemma getMessages_delivers_stored s now r q m :
  In m (delivered (snd (getMessages s now r q))) ->
  exists m0, In m0 (messages s) /\ m = stripFingerprint m0 /\ recipientId m0 = r.
Proof.
  destruct (getMessages s now r q) as [s1 rep] eqn:E.
  destruct rep as [st [| | |msgs pg uc dc| | | | |]| |]; simpl; try contradiction.
  destruct (getMessages_inv _ _ _ _ _ _ _ _ _ _ E) as (u & p & l & Hv & Hu & Hp & Hl & Hsk).
  rewrite (getMessages_ok _ _ _ _ _ _ _ Hv Hu Hp Hl Hsk) in E.
  cbv zeta in E. injection E as _ _ <- _ _ _.
  intros Hm. apply in_map_iff in Hm. destruct Hm as (m0 & <- & Hin).
  exists m0. split; [|split; [reflexivity|]].
  - unfold selectPage, applyLimit in Hin.
    destruct (l =? 0); [|apply firstn_incl in Hin]; apply skipn_incl in Hin;
      apply (Permutation_in _ (Permutation_sym (sortNewestFirst_perm _))) in Hin;
      apply filter_In in Hin; tauto.
  - unfold selectPage, applyLimit in Hin.
    assert (In m0 (filter (inboxQuery r (unreadOnly q)) (messages s))) as H.
    { destruct (l =? 0); [|apply firstn_incl in Hin]; apply skipn_incl in Hin;
        apply (Permutation_in _ (Permutation_sym (sortNewestFirst_perm _))) in Hin;
        assumption. }
    apply filter_In in H. destruct H as [_ H]. unfold inboxQuery in H.
    apply andb_true_iff in H. destruct H as [H _]. now apply String.eqb_eq in H.
Qed.

(** A later call for the same recipient, whatever its page and limit, delivers
    nothing that an earlier call delivered. *)
Lemma getMessages_then_disjoint s now now' r q q' :
  forall m m',
    In m (delivered (snd (getMessages s now r q))) ->
    In m' (delivered (snd (getMessages (fst (getMessages s now r q)) now' r q'))) ->
    _id m' <> _id m.
Proof.
  intros m m' Hm Hm'.
  apply getMessages_delivers_stored in Hm'.
  destruct Hm' as (m0 & Hin & -> & _).
  change (_id (stripFingerprint m0)) with (_id m0).
  eapply getMessages_deletes; eassumption.
Qed.

(** On the sample inbox, a first call with limit 2 delivers the two newest
    messages and a second one the remaining message. *)
Example getMessages_inbox_twice :
  let q := mkQuery (Some "1") (Some "2") None in
  let first := getMessages inbox 9000 "654321" q in
  let second := getMessages (fst first) 9001 "654321" q in
  map content (delivered (snd first)) = ["three"; "two"]
  /\ map content (delivered (snd second)) = ["one"]
  /\ messages (fst second) = [].
Proof. vm_compute. auto. Qed.

(** C1. Consume-on-read: for an identity [r] that exists, a call
    [receive(r, page=1, limit=L)] succeeds and every message it returns is
    deleted from the store by that same call (and stays deleted), so the
    call [receive(r, page=1, limit=L)] that follows with no send in between
    succeeds with messages disjoint from those of the first call. *)
Theorem receive_consumes_on_read s now now' r u (L unread : option string) l :
  validateUserId r = true ->
  findOne r (users s) = Some u ->
  numParam L 20 = Some l ->
  exists s1 msgs pg uc dc s2 msgs' pg' uc' dc',
    getMessages s now r (mkQuery (Some "1") L unread)
      = (s1, Success 200 (Received msgs pg uc dc)) /\
    getMessages s1 now' r (mkQuery (Some "1") L unread)
      = (s2, Success 200 (Received msgs' pg' uc' dc')) /\
    (forall m m', In m msgs -> In m' (messages s1) -> _id m' <> _id m) /\
    (forall m m', In m msgs -> In m' (messages s2) -> _id m' <> _id m) /\
    (forall m m', In m msgs -> In m' msgs' -> _id m' <> _id m /\ m' <> m).
Proof.
  intros Hv Hu Hl.
  set (q := mkQuery (Some "1") L unread).
  assert (Hp : numParam (queryPage q) 1 = Some 1) by reflexivity.
  assert (Hsk : 0 <= (1 - 1) * l) by lia.
  pose proof (getMessages_ok s now r q u 1 l Hv Hu Hp Hl Hsk) as E1.
  cbv zeta in E1.
  pose proof (getMessages_deletes s now r q) as D1.
  pose proof (getMessages_then_disjoint s now now' r q q) as D2.
  rewrite E1 in D1, D2. cbn [fst snd delivered] in D1, D2.
  match type of E1 with _ = (?a, _) => set (s1 := a) in * end.
  assert (Hu1 : findOne r (users s1) = Some (setLastActive now u))
    by (now apply findOne_update).
  pose proof (getMessages_ok s1 now' r q _ 1 l Hv Hu1 Hp Hl Hsk) as E2.
  cbv zeta in E2.
  rewrite E2 in D2. cbn [fst snd delivered] in D2.
  do 10 eexists.
  split; [exact E1|]. split; [exact E2|]. split; [exact D1|]. split.
  - intros m m' Hm Hm'. apply (D1 m m' Hm).
    cbn [messages] in Hm'. apply deleteMany_In in Hm'. tauto.
  - intros m m' Hm Hm'. split; [now apply D2|].
    intros ->. now apply (D2 m m).
Qed.

Lemma receive_consumes_on_read_witness :
  exists s1 msgs pg uc dc s2 msgs' pg' uc' dc',
    getMessages inbox 9000 "654321" (mkQuery (Some "1") (Some "2") None)
      = (s1, Success 200 (Received msgs pg uc dc)) /\
    getMessages s1 9001 "654321" (mkQuery (Some "1") (Some "2") None)
      = (s2, Success 200 (Received msgs' pg' uc' dc')) /\
    (forall m m', In m msgs -> In m' (messages s1) -> _id m' <> _id m) /\
    (forall m m', In m msgs -> In m' (messages s2) -> _id m' <> _id m) /\
    (forall m m', In m msgs -> In m' msgs' -> _id m' <> _id m /\ m' <> m).
Proof.
  exact (receive_consumes_on_read inbox 9000 9001 "654321" bob (Some "2") None 2
           eq_refl eq_refl eq_refl).
Defined.

(** ** Counting after the deletion *)

Section Counting.
Context {A B : Type}.
Implicit Types (l : list A) (f : A -> B).

Lemma NoDup_app_disjoint (l1 l2 : list B) :
  NoDup (l1 ++ l2) -> forall a, In a l1 -> ~ In a l2.
Proof.
  induction l1 as [|x l1 IH]; simpl; [intros _ a []|].
  intros H a [<-|Ha] Hin; inversion H; subst.
  - apply H2. apply in_or_app. now right.
  - now apply (IH H3 a).
Qed.

Lemma NoDup_map_filter f (p : A -> bool) l :
  NoDup (map f l) -> NoDup (map f (filter p l)).
Proof.
  induction l as [|x l IH]; simpl; [auto|].
  intros H. inversion H; subst. destruct (p x); simpl; [|auto].
  constructor; [|auto].
  intros Hin. apply H2. apply in_map_iff in Hin.
  destruct Hin as (y & Hy & Hin). apply filter_In in Hin.
  apply in_map_iff. exists y. tauto.
Qed.

Lemma filter_none (p : A -> bool) l :
  (forall x, In x l -> p x = false) -> filter p l = [].
Proof.
  induction l as [|x l IH]; simpl; [reflexivity|].
  intros H. rewrite (H x) by auto. auto.
Qed.

Lemma filter_all (p : A -> bool) l :
  (forall x, In x l -> p x = true) -> filter p l = l.
Proof.
  induction l as [|x l IH]; simpl; [reflexivity|].
  intros H. rewrite (H x) by auto. f_equal. auto.
Qed.

End Counting.

(** Deleting by the identifiers of a segment of a duplicate-free list leaves
    what is around the segment. *)
Lemma delete_segment (a f b : list Message) :
  NoDup (map _id (a ++ f ++ b)) ->
  deleteMany (idIn (map _id f)) (a ++ f ++ b) = a ++ b.
Proof.
  intros H. unfold deleteMany. rewrite !filter_app.
  rewrite !map_app in H.
  assert (Ha : forall x, In x a -> negb (idIn (map _id f) x) = true).
  { intros x Hx. apply negb_true_iff.
    destruct (idIn (map _id f) x) eqn:E; [|reflexivity].
    apply idIn_spec in E.
    apply NoDup_app_disjoint with (a := _id x) in H; [|now apply in_map].
    exfalso. apply H. apply in_or_app. now left. }
  assert (Hf : forall x, In x f -> negb (idIn (map _id f) x) = false).
  { intros x Hx. apply negb_false_iff. apply idIn_spec. now apply in_map. }
  assert (Hb : forall x, In x b -> negb (idIn (map _id f) x) = true).
  { intros x Hx. apply negb_true_iff.
    destruct (idIn (map _id f) x) eqn:E; [|reflexivity].
    apply idIn_spec in E. apply NoDup_app_remove_l in H.
    apply NoDup_app_disjoint with (a := _id x) in H; [|assumption].
    exfalso. apply H. now apply in_map. }
  rewrite (filter_all _ a Ha), (filter_none _ f Hf), (filter_all _ b Hb).
  reflexivity.
Qed.

(** A page is a segment of the sorted list. *)
Lemma page_is_segment (l : Z) (k : nat) (p : list Message) :
  exists a b, p = a ++ applyLimit l (skipn k p) ++ b.
Proof.
  unfold applyLimit. destruct (l =? 0).
  - exists (firstn k p), []. now rewrite app_nil_r, firstn_skipn.
  - exists (firstn k p), (skipn (Z.to_nat (Z.abs l)) (skipn k p)).
    now rewrite !firstn_skipn.
Qed.

(** With unique identifiers, the documents that match the filter after the
    deletion are those that matched before, less the page delivered. *)
Lemma count_after_delivery r q p l ms :
  NoDup (map _id ms) ->
  countDocuments (inboxQuery r (unreadOnly q))
    (deleteMany (idIn (map _id (map stripFingerprint (selectPage r q p l ms)))) ms)
  = countDocuments (inboxQuery r (unreadOnly q)) ms
    - Z.of_nat (List.length (map stripFingerprint (selectPage r q p l ms))).
Proof.
  intros Hnd. rewrite ids_stripFingerprint, length_map.
  unfold countDocuments, deleteMany at 1.
  rewrite filter_comm.
  set (sel := filter (inboxQuery r (unreadOnly q)) ms).
  set (sorted := sortNewestFirst sel).
  assert (Hperm : Permutation sel sorted) by apply sortNewestFirst_perm.
  assert (Hnds : NoDup (map _id sorted)).
  { eapply Permutation_NoDup; [apply Permutation_map, Hperm|].
    now apply NoDup_map_filter. }
  unfold selectPage. fold sel. fold sorted.
  destruct (page_is_segment l (Z.to_nat ((p - 1) * l)) sorted) as (a & b & Hseg).
  remember (applyLimit l (skipn (Z.to_nat ((p - 1) * l)) sorted)) as page eqn:Hpage.
  clear Hpage.
  rewrite (Permutation_length
             (Permutation_filter (fun x => negb (idIn (map _id page) x)) _ _ Hperm)).
  rewrite (Permutation_length Hperm).
  rewrite Hseg in Hnds |- *.
  change (filter (fun x => negb (idIn (map _id page) x)) (a ++ page ++ b))
    with (deleteMany (idIn (map _id page)) (a ++ page ++ b)).
  rewrite (delete_segment a page b Hnds).
  rewrite !length_app. lia.
Qed.

Lemma ceilDiv_spec a b c :
  0 < b -> ceilDiv a b = Some c -> (c - 1) * b < a <= c * b.
Proof.
  unfold ceilDiv. intros Hb. destruct (Z.eqb_spec b 0); [lia|].
  intros [= <-]. pose proof (Z.div_mod (- a) b ltac:(lia)).
  pose proof (Z.mod_pos_bound (- a) b Hb). nia.
Qed.

Lemma inbox_unique : uniqueMessageIds inbox.
Proof.
  unfold uniqueMessageIds. cbn.
  repeat constructor; cbn; intuition discriminate.
Qed.

(** C3. The counts of a successful receive describe the store after the
    deletion: [totalMessages] is the number of messages that still match the
    query in the store the call leaves (the count before the call less the
    page delivered), [totalPages] is the ceiling of that number over the
    limit, [unreadCount] is absent when only unread messages were asked
    for and otherwise counts the recipient's unread messages in the store the
    call leaves, and [deletedCount] is the size of the page. *)
Theorem receive_counts_after_deletion s now r q s1 msgs pg uc dc :
  uniqueMessageIds s ->
  getMessages s now r q = (s1, Success 200 (Received msgs pg uc dc)) ->
  totalMessages pg = countDocuments (inboxQuery r (unreadOnly q)) (messages s1)
  /\ totalMessages pg
     = countDocuments (inboxQuery r (unreadOnly q)) (messages s)
       - Z.of_nat (List.length msgs)
  /\ (exists l, limit pg = Some l
        /\ totalPages pg
           = ceilDiv (countDocuments (inboxQuery r (unreadOnly q)) (messages s1)) l)
  /\ uc = (if unreadOnly q then None
           else Some (countDocuments (inboxQuery r true) (messages s1)))
  /\ dc = Z.of_nat (List.length msgs).
Proof.
  intros Hnd E.
  destruct (getMessages_inv _ _ _ _ _ _ _ _ _ _ E) as (u & p & l & Hv & Hu & Hp & Hl & Hsk).
  rewrite (getMessages_ok _ _ _ _ _ _ _ Hv Hu Hp Hl Hsk) in E.
  cbv zeta in E. injection E as <- <- <- <- <-.
  cbn [messages totalMessages totalPages limit].
  rewrite (count_after_delivery r q p l (messages s) Hnd).
  repeat split.
  - exists l. split; reflexivity.
  - now destruct (unreadOnly q).
Qed.

Lemma receive_counts_after_deletion_witness :
  exists s1 msgs pg uc dc,
    getMessages inbox 9000 "654321" firstTwo
      = (s1, Success 200 (Received msgs pg uc dc))
    /\ totalMessages pg = countDocuments (inboxQuery "654321" (unreadOnly firstTwo)) (messages s1)
    /\ totalMessages pg
       = countDocuments (inboxQuery "654321" (unreadOnly firstTwo)) (messages inbox)
         - Z.of_nat (List.length msgs)
    /\ (exists l, limit pg = Some l
          /\ totalPages pg
             = ceilDiv (countDocuments (inboxQuery "654321" (unreadOnly firstTwo))
                          (messages s1)) l)
    /\ uc = (if unreadOnly firstTwo then None
             else Some (countDocuments (inboxQuery "654321" true) (messages s1)))
    /\ dc = Z.of_nat (List.length msgs).
Proof.
  do 5 eexists. split; [vm_compute; reflexivity|].
  apply (receive_counts_after_deletion inbox 9000 "654321" firstTwo);
    [exact inbox_unique | reflexivity].
Defined.

(** On the sample inbox the first page of two leaves one message, one page
    and one unread message. *)
Example getMessages_inbox_counts :
  snd (getMessages inbox 9000 "654321" firstTwo)
  = Success 200
      (Received
         [stripFingerprint (note 2 5000 "three"); stripFingerprint (note 1 4000 "two")]
         (mkPagination (Some 1) (Some 1) 1 true (Some 2)) (Some 1) 2).
Proof. vm_compute. reflexivity. Qed.

(** ** The page and its size *)

(** C8, as stated, fails: the route uses [parseInt(limit)] as it is.  With 51
    messages waiting, a call with [limit=51] delivers all 51, one more than
    the 50 that [parsePagination] (which no route calls) would allow. *)
Lemma receive_limit_not_clamped :
  List.length
    (delivered
       (snd (getMessages crowded 9000 "654321" (mkQuery (Some "1") (Some "51") None))))
  = 51%nat
  /\ parsePagination (Some "1") (Some "51") = (1, 50, 0).
Proof. vm_compute. auto. Qed.

Lemma length_notes n : List.length (notes n) = n.
Proof. induction n; simpl; congruence. Qed.

Lemma notes_match n m : In m (notes n) -> inboxQuery "654321" false m = true.
Proof.
  induction n as [|n IH]; simpl; [intros []|].
  intros [<-|H]; [reflexivity|auto].
Qed.

(** No maximum at all bounds a page: under a limit of 0, which the store
    reads as no limit, a call delivers the whole inbox. *)
Lemma receive_page_unbounded (bound : nat) :
  exists s q,
    (bound < List.length (delivered (snd (getMessages s 9000 "654321" q))))%nat.
Proof.
  exists (mkStore [alice; bob] (notes (S bound)) (S bound)),
         (mkQuery (Some "1") (Some "0") None).
  rewrite (getMessages_ok (mkStore [alice; bob] (notes (S bound)) (S bound)) 9000
             "654321" (mkQuery (Some "1") (Some "0") None) bob 1 0
             eq_refl eq_refl eq_refl eq_refl ltac:(lia)).
  cbv zeta. cbn [snd delivered messages].
  rewrite length_map. unfold selectPage, applyLimit.
  change (0 =? 0) with true. change (Z.to_nat ((1 - 1) * 0)) with O.
  cbn [skipn ].
  rewrite <- (Permutation_length (sortNewestFirst_perm _)).
  rewrite filter_all by (intros m Hm; now apply notes_match in Hm).
  rewrite length_notes. lia.
Qed.

(** C8, amended. A successful receive selects its page by
    [skip = (page - 1) * limit] over the recipient's matching messages ordered
    newest first, with [limit = parseInt(limit)] taken as the caller gave it:
    no maximum is applied.  For a non-zero limit the page holds the
    [|limit|] messages after the skip, or those that are left; for a limit of
    zero (and so a skip of zero) it holds them all. *)
Theorem receive_page_selection s now r q s1 msgs pg uc dc :
  getMessages s now r q = (s1, Success 200 (Received msgs pg uc dc)) ->
  exists p l sorted,
    numParam (queryPage q) 1 = Some p
    /\ numParam (queryLimit q) 20 = Some l
    /\ 0 <= (p - 1) * l
    /\ Permutation (filter (inboxQuery r (unreadOnly q)) (messages s)) sorted
    /\ newestFirst sorted
    /\ msgs = map stripFingerprint
                (applyLimit l (skipn (Z.to_nat ((p - 1) * l)) sorted))
    /\ (l <> 0 ->
        Z.of_nat (List.length msgs)
        = Z.min (Z.abs l) (Z.max 0 (Z.of_nat (List.length sorted) - (p - 1) * l)))
    /\ (l = 0 -> msgs = map stripFingerprint sorted).
Proof.
  intros E.
  destruct (getMessages_inv _ _ _ _ _ _ _ _ _ _ E) as (u & p & l & Hv & Hu & Hp & Hl & Hsk).
  rewrite (getMessages_ok _ _ _ _ _ _ _ Hv Hu Hp Hl Hsk) in E.
  cbv zeta in E. injection E as _ <- _ _ _.
  exists p, l, (sortNewestFirst (filter (inboxQuery r (unreadOnly q)) (messages s))).
  repeat split; try assumption.
  - apply sortNewestFirst_perm.
  - apply sortNewestFirst_sorted.
  - intros Hne. unfold selectPage, applyLimit.
    destruct (Z.eqb_spec l 0); [contradiction|].
    rewrite length_map, length_firstn, length_skipn. lia.
  - intros ->. unfold selectPage, applyLimit.
    change (0 =? 0) with true. replace ((p - 1) * 0) with 0 by lia.
    reflexivity.
Qed.

Lemma receive_page_selection_witness :
  exists s1 msgs pg uc dc,
    getMessages inbox 9000 "654321" firstTwo
      = (s1, Success 200 (Received msgs pg uc dc))
    /\ exists p l sorted,
         numParam (queryPage firstTwo) 1 = Some p
         /\ numParam (queryLimit firstTwo) 20 = Some l
         /\ 0 <= (p - 1) * l
         /\ Permutation
              (filter (inboxQuery "654321" (unreadOnly firstTwo)) (messages inbox))
              sorted
         /\ newestFirst sorted
         /\ msgs = map stripFingerprint
                     (applyLimit l (skipn (Z.to_nat ((p - 1) * l)) sorted))
         /\ (l <> 0 ->
             Z.of_nat (List.length msgs)
             = Z.min (Z.abs l)
                 (Z.max 0 (Z.of_nat (List.length sorted) - (p - 1) * l)))
         /\ (l = 0 -> msgs = map stripFingerprint sorted).
Proof.
  do 5 eexists. split; [vm_compute; reflexivity|].
  eapply (receive_page_selection inbox 9000 "654321" firstTwo).
  vm_compute. reflexivity.
Defined.

(** ** Deleting an identity *)

(** C4, as stated, fails for a [userId] that is not six digits: no stored
    identity holds it, and the route answers 400 INVALID_ID_FORMAT from its
    [validateUserId] guard, not success. *)
Lemma deleteUser_rejects_malformed :
  findOne "12345" (users emptyStore) = None
  /\ deleteUser emptyStore 5000 "12345" NoBody
     = (emptyStore, Failure 400 "INVALID_ID_FORMAT")
  /\ forall data,
       snd (deleteUser emptyStore 5000 "12345" NoBody) <> Success 200 data.
Proof. repeat split. intros data. discriminate. Qed.

(** C4, amended. Deleting an identity that does not exist is a successful
    no-op for a well-formed code: for a six-digit [userId] that no stored
    identity holds, and a body whose options the handler reads and logs
    without a thrown error, the route leaves the store as it is and answers
    success with [deletedMessages = 0] and [wasDeleted = false], whatever the
    body asks for.  A [userId] that is not six digits is answered with
    400 INVALID_ID_FORMAT, and the store is left as it is. *)
Theorem deleteUser_absent_succeeds s now userId b :
  findOne userId (users s) = None ->
  (validateUserId userId = true ->
   bodyThrows b = false ->
   deleteUser s now userId b
   = (s, Success 200 (Deleted userId 0 false (snd (deleteOptions b)))))
  /\ (validateUserId userId = false ->
      deleteUser s now userId b = (s, Failure 400 "INVALID_ID_FORMAT")).
Proof.
  intros Hu. unfold deleteUser. split.
  - intros Hv Hb. rewrite Hv, Hb, Hu. cbn [negb]. now destruct (deleteOptions b).
  - intros Hv. now rewrite Hv.
Qed.

Lemma deleteUser_absent_succeeds_witness :
  let b := JsonBody (Some (JBool true)) (Some (JStr "beacon")) None in
  (validateUserId "123456" = true ->
   bodyThrows b = false ->
   deleteUser emptyStore 5000 "123456" b
   = (emptyStore, Success 200 (Deleted "123456" 0 false (snd (deleteOptions b)))))
  /\ (validateUserId "123456" = false ->
      deleteUser emptyStore 5000 "123456" b
      = (emptyStore, Failure 400 "INVALID_ID_FORMAT")).
Proof.
  exact (deleteUser_absent_succeeds emptyStore 5000 "123456"
           (JsonBody (Some (JBool true)) (Some (JStr "beacon")) None) eq_refl).
Defined.

(** An immediate deletion of the recipient of the sample inbox removes its
    three messages; the same request again is a successful no-op. *)
Example deleteUser_inbox_twice :
  let b := JsonBody (Some (JBool true)) None None in
  let first := deleteUser inbox 9000 "654321" b in
  let second := deleteUser (fst first) 9001 "654321" b in
  snd first = Success 200 (Deleted "654321" 3 true (JStr "manual"))
  /\ snd second = Success 200 (Deleted "654321" 0 false (JStr "manual"))
  /\ fst second = fst first.
Proof. vm_compute. auto. Qed.

(** Bodies that make the handler throw.  With [{ get: "x" }] the handler
    calls [req.body.get], and its [catch] block calls it again: the request
    is not answered.  With a [reason] that has a [toString] member of its
    own the log line throws, and the request is answered 500 DELETE_ERROR
    and deletes nothing, whether or not the identity exists and although
    [immediate] is set.  With a [reason] that the schema cannot cast to a
    string the soft deletion is answered 500 DELETE_ERROR and marks
    nothing. *)
Example deleteUser_thrown :
  deleteUser emptyStore 5000 "123456" (JsonBody None None (Some (JStr "x")))
  = (emptyStore, Unanswered)
  /\ deleteUser emptyStore 5000 "123456"
       (JsonBody (Some (JBool true)) (Some (JObj [("toString", JNum "1")])) None)
     = (emptyStore, Failure 500 "DELETE_ERROR")
  /\ deleteUser inbox 5000 "654321"
       (JsonBody (Some (JBool true)) (Some (JObj [("toString", JNum "1")])) None)
     = (inbox, Failure 500 "DELETE_ERROR")
  /\ deleteUser inbox 5000 "654321"
       (JsonBody (Some (JBool false)) (Some (JObj [])) None)
     = (inbox, Failure 500 "DELETE_ERROR").
Proof. vm_compute. auto. Qed.

(** ** Heartbeat *)

Section PointwiseUpdate.
Context {A : Type} (R : A -> A -> Prop).

Lemma findOneAndUpdate_pointwise (p : A -> bool) (f : A -> A) (l : list A) :
  (forall x, R x x) -> (forall x, p x = true -> R x (f x)) ->
  Forall2 R l (findOneAndUpdate p f l).
Proof.
  intros Hrefl Hf. induction l as [|x l IH]; simpl; [constructor|].
  destruct (p x) eqn:E.
  - constructor; [auto|]. clear IH. induction l; constructor; auto.
  - constructor; auto.
Qed.

Lemma updateMany_pointwise (p : A -> bool) (f : A -> A) (l : list A) :
  (forall x, p x = false -> R x x) -> (forall x, p x = true -> R x (f x)) ->
  Forall2 R l (updateMany p f l).
Proof.
  intros Hrefl Hf. unfold updateMany.
  induction l as [|x l IH]; simpl; constructor; [|assumption].
  destruct (p x) eqn:E; auto.
Qed.

End PointwiseUpdate.

(** C9, as stated, fails for a [userId] that is not six digits: no stored
    identity holds it, and the route answers 400 INVALID_ID_FORMAT from its
    [validateUserId] guard, not USER_NOT_FOUND. *)
Lemma heartbeat_rejects_malformed :
  findOne "12345" (users inbox) = None
  /\ heartbeat inbox 7000 "12345" = (inbox, Failure 400 "INVALID_ID_FORMAT")
  /\ heartbeat inbox 7000 "12345" <> (inbox, Failure 404 "USER_NOT_FOUND").
Proof. repeat split. discriminate. Qed.

(** C9, amended. A heartbeat for a [userId] that is not six digits is
    answered 400 INVALID_ID_FORMAT; for a well-formed [userId] that no
    identity holds it fails with USER_NOT_FOUND; either way nothing changes.
    For one that exists it succeeds, sets [lastActive] of that identity to
    the clock, and leaves every identity's code, creation time,
    [markedForDeletion], [markedAt] and [deleteReason] as they were (so a
    marked identity stays marked); other identities and all messages are
    untouched. *)
Theorem heartbeat_frame s now userId :
  (validateUserId userId = false ->
   heartbeat s now userId = (s, Failure 400 "INVALID_ID_FORMAT"))
  /\ (validateUserId userId = true ->
      findOne userId (users s) = None ->
      heartbeat s now userId = (s, Failure 404 "USER_NOT_FOUND"))
  /\ (validateUserId userId = true ->
      forall u, findOne userId (users s) = Some u ->
      exists s',
        heartbeat s now userId = (s', Success 200 (Heartbeat userId now))
        /\ findOne userId (users s') = Some (setLastActive now u)
        /\ lastActive (setLastActive now u) = now
        /\ messages s' = messages s
        /\ Forall2
             (fun old new =>
                id new = id old
                /\ createdAt new = createdAt old
                /\ markedForDeletion new = markedForDeletion old
                /\ markedAt new = markedAt old
                /\ deleteReason new = deleteReason old
                /\ (id old <> userId -> new = old))
             (users s) (users s')).
Proof.
  unfold heartbeat. split; [|split].
  - now intros ->.
  - now intros -> ->.
  - intros -> u Hu. cbn [negb]. rewrite Hu. eexists. split; [reflexivity|].
    cbn [users messages withUsers].
    split; [now apply findOne_update|].
    split; [reflexivity|]. split; [reflexivity|].
    apply findOneAndUpdate_pointwise.
    + intros x. repeat split; reflexivity.
    + intros x Hx. apply hasId_spec in Hx.
      repeat split; try reflexivity. intros Hne. contradiction.
Qed.

Lemma heartbeat_frame_witness :
  exists s',
    heartbeat inbox 7000 "654321" = (s', Success 200 (Heartbeat "654321" 7000))
    /\ findOne "654321" (users s') = Some (setLastActive 7000 bob)
    /\ lastActive (setLastActive 7000 bob) = 7000
    /\ messages s' = messages inbox
    /\ Forall2
         (fun old new =>
            id new = id old
            /\ createdAt new = createdAt old
            /\ markedForDeletion new = markedForDeletion old
            /\ markedAt new = markedAt old
            /\ deleteReason new = deleteReason old
            /\ (id old <> "654321" -> new = old))
         (users inbox) (users s').
Proof.
  exact (proj2 (proj2 (heartbeat_frame inbox 7000 "654321")) eq_refl bob eq_refl).
Defined.

(** A heartbeat on an identity that is marked for deletion leaves the mark. *)
Example heartbeat_keeps_mark :
  let marked := mkUser "123456" 1000 1000 true (Some 1500) (Some "manual") in
  heartbeat (mkStore [marked] [] 0) 7000 "123456"
  = (mkStore [mkUser "123456" 1000 7000 true (Some 1500) (Some "manual")] [] 0,
     Success 200 (Heartbeat "123456" 7000)).
Proof. reflexivity. Qed.

(** ** Marking as read *)

(** C10. Marking as read stays in the caller's inbox: whatever identifiers
    the caller names, and whether or not the call succeeds, each message is
    afterwards either as it was or the same message with [isRead = true], and
    a message addressed to another identity is as it was. *)
Theorem markRead_own_inbox s userId messageIds :
  Forall2
    (fun old new =>
       (new = old \/ new = setRead old)
       /\ (recipientId old <> userId -> new = old))
    (messages s) (messages (fst (markRead s userId messageIds))).
Proof.
  assert (Hsame : forall l : list Message,
             Forall2 (fun old new =>
                        (new = old \/ new = setRead old)
                        /\ (recipientId old <> userId -> new = old)) l l)
    by (induction l; constructor; auto).
  unfold markRead.
  destruct (validateUserId userId); cbn [negb fst]; [|apply Hsame].
  destruct (findOne userId (users s)); cbn [fst]; [|apply Hsame].
  cbn [messages withMessages].
  apply updateMany_pointwise.
  - intros x _. auto.
  - intros x Hx. split; [now right|].
    apply andb_true_iff in Hx. destruct Hx as [Hx _].
    apply String.eqb_eq in Hx. intros Hne. contradiction.
Qed.

(** Naming the identifier of a message in another inbox changes nothing. *)
Example markRead_foreign_id :
  markRead inbox "123456" (Some [0%nat; 1%nat])
  = (inbox, Success 200 (MarkedRead 0)).
Proof. reflexivity. Qed.

Example markRead_own_ids :
  map isRead (messages (fst (markRead inbox "654321" (Some [1%nat]))))
  = [false; true; false].
Proof. reflexivity. Qed.

(** ** The sweep *)

Lemma userIdIn_spec ids u : userIdIn ids u = true <-> In (id u) ids.
Proof.
  unfold userIdIn. rewrite existsb_exists. split.
  - intros (i & Hin & Heq). apply String.eqb_eq in Heq. now subst.
  - intros H. exists (id u). split; [assumption | apply String.eqb_refl].
Qed.

Lemma NoDup_map_injective {A B : Type} (f : A -> B) (l : list A) x y :
  NoDup (map f l) -> In x l -> In y l -> f x = f y -> x = y.
Proof.
  induction l as [|a l IH]; simpl; [intros _ []|].
  intros H Hx Hy Heq. inversion H; subst.
  destruct Hx as [<-|Hx], Hy as [<-|Hy]; auto.
  - exfalso. apply H2. rewrite Heq. now apply in_map.
  - exfalso. apply H2. rewrite <- Heq. now apply in_map.
Qed.

(** Among identities with unique codes, selecting by the codes of those that
    satisfy [p] selects those that satisfy [p]. *)
Lemma userIdIn_filter (p : User -> bool) us u :
  NoDup (map id us) -> In u us ->
  userIdIn (map id (filter p us)) u = p u.
Proof.
  intros Hnd Hu. destruct (p u) eqn:E.
  - apply userIdIn_spec. apply in_map. apply filter_In. auto.
  - destruct (userIdIn (map id (filter p us)) u) eqn:F; [|reflexivity].
    apply userIdIn_spec in F. apply in_map_iff in F.
    destruct F as (v & Hid & Hv). apply filter_In in Hv. destruct Hv as [Hv Hp].
    assert (v = u) by (eapply NoDup_map_injective; eassumption).
    congruence.
Qed.

(** With unique codes, [deleteOne] by code removes every identity with that
    code. *)
Lemma deleteOne_unique i us :
  NoDup (map id us) ->
  deleteOne (hasId i) us = filter (fun u => negb (hasId i u)) us.
Proof.
  induction us as [|x us IH]; simpl; [reflexivity|].
  intros H. inversion H; subst. destruct (hasId i x) eqn:E; simpl.
  - symmetry. apply filter_all. intros y Hy. apply negb_true_iff.
    destruct (hasId i y) eqn:F; [|reflexivity].
    apply hasId_spec in E, F. exfalso. apply H2. rewrite E, <- F. now apply in_map.
  - f_equal. auto.
Qed.

Lemma filter_filter {A : Type} (p q : A -> bool) (l : list A) :
  filter p (filter q l) = filter (fun x => q x && p x) l.
Proof.
  induction l as [|x l IH]; simpl; [reflexivity|].
  destruct (q x); simpl; [destruct (p x)|]; rewrite IH; reflexivity.
Qed.

Lemma purge_all_users l : forall s,
  NoDup (map id (users s)) ->
  users (fold_left purge l s)
  = filter (fun u => negb (userIdIn (map id l) u)) (users s).
Proof.
  induction l as [|a l IH]; intros s Hnd; simpl.
  - symmetry. now apply filter_all.
  - rewrite IH; cbn [purge users].
    + rewrite (deleteOne_unique _ _ Hnd), filter_filter.
      apply filter_ext. intros u. unfold hasId. now rewrite negb_orb.
    + rewrite (deleteOne_unique _ _ Hnd). now apply NoDup_map_filter.
Qed.

Lemma purge_all_messages l : forall s,
  messages (fold_left purge l s)
  = filter (fun m => negb (existsb (fun i => involves i m) (map id l))) (messages s).
Proof.
  induction l as [|a l IH]; intros s; simpl.
  - symmetry. now apply filter_all.
  - rewrite IH. cbn [purge messages]. unfold deleteMany.
    rewrite filter_filter. apply filter_ext. intros m. now rewrite negb_orb.
Qed.

Lemma purge_all_nextId l : forall s, nextId (fold_left purge l s) = nextId s.
Proof. induction l as [|a l IH]; intros s; simpl; [reflexivity|now rewrite IH]. Qed.

(** The identities after a pass: those past grace are gone, and of the rest
    the inactive ones are marked. *)
Lemma cleanup_users s t1 t2 t3 :
  uniqueCodes s ->
  users (cleanupInactiveUsers s t1 t2 t3)
  = map (fun u => if inactive (t2 - 15 * 60 * 1000) u
                  then mark t3 "inactivity" u else u)
      (filter (fun u => negb (pastGrace (t1 - 2 * 60 * 1000) u)) (users s)).
Proof.
  intros Hnd. unfold uniqueCodes in Hnd. unfold cleanupInactiveUsers.
  set (g := pastGrace (t1 - 2 * 60 * 1000)).
  set (a := inactive (t2 - 15 * 60 * 1000)).
  assert (Hus : users (fold_left purge (filter g (users s)) s)
                = filter (fun u => negb (g u)) (users s)).
  { rewrite (purge_all_users _ _ Hnd). apply filter_ext_in.
    intros u Hu. now rewrite userIdIn_filter. }
  rewrite Hus.
  set (rest := filter (fun u => negb (g u)) (users s)).
  assert (Hrest : NoDup (map id rest)) by now apply NoDup_map_filter.
  destruct (Nat.ltb_spec 0 (List.length (filter a rest))) as [Hlen|Hlen].
  - cbn [users withUsers]. unfold updateMany. apply map_ext_in.
    intros u Hu. now rewrite userIdIn_filter.
  - rewrite Hus. fold rest. rewrite <- (map_id rest) at 1. apply map_ext_in.
    intros u Hu. destruct (a u) eqn:E; [|reflexivity].
    assert (In u (filter a rest)) as Hin by (apply filter_In; auto).
    destruct (filter a rest); [contradiction|simpl in Hlen; lia].
Qed.

(** The messages after a pass: those that involve a purged identity are
    gone. *)
Lemma cleanup_messages s t1 t2 t3 :
  messages (cleanupInactiveUsers s t1 t2 t3)
  = filter
      (fun m =>
         negb (existsb (fun i => involves i m)
                 (map id (filter (pastGrace (t1 - 2 * 60 * 1000)) (users s)))))
      (messages s).
Proof.
  unfold cleanupInactiveUsers.
  destruct (0 <? _)%nat; cbn [messages withMessages withUsers];
    apply purge_all_messages.
Qed.

Lemma findOne_unique us u :
  NoDup (map id us) -> In u us -> findOne (id u) us = Some u.
Proof.
  intros Hnd Hin. destruct (findOne (id u) us) as [v|] eqn:E.
  - apply findOne_Some in E. destruct E as [Hv Hid]. f_equal.
    eapply NoDup_map_injective; eassumption.
  - exfalso. now apply (proj1 (findOne_None _ _) E u).
Qed.

(** A pass keeps the codes unique. *)
Lemma cleanup_unique s t1 t2 t3 :
  uniqueCodes s -> uniqueCodes (cleanupInactiveUsers s t1 t2 t3).
Proof.
  intros Hnd. unfold uniqueCodes. rewrite (cleanup_users _ _ _ _ Hnd).
  rewrite map_map.
  rewrite (map_ext _ id) by (intros u; now destruct (inactive _ u)).
  now apply NoDup_map_filter.
Qed.

(** C2. One pass of the sweep on a store with unique codes.  Every identity
    that is marked with [markedAt] older than the two-minute grace window is
    purged: its row is gone and so is every message it sent or received.
    Then every identity that is not marked and whose [lastActive] is older
    than the fifteen-minute threshold is marked, with [markedAt] the clock
    and [deleteReason] "inactivity"; such a newly marked identity is still in
    the store after the pass, so it is not purged by the pass that marked it.
    Every other identity is kept as it was, and no message is deleted other
    than those of purged identities. *)
Theorem sweep_purges_then_marks s t1 t2 t3 :
  uniqueCodes s ->
  let s' := cleanupInactiveUsers s t1 t2 t3 in
  (forall u at_,
      In u (users s) -> markedForDeletion u = true ->
      markedAt u = Some at_ -> at_ < t1 - 2 * 60 * 1000 ->
      findOne (id u) (users s') = None
      /\ forall m, In m (messages s') -> senderId m <> id u /\ recipientId m <> id u)
  /\ (forall u,
      In u (users s) -> markedForDeletion u = false ->
      lastActive u < t2 - 15 * 60 * 1000 ->
      exists u',
        findOne (id u) (users s') = Some u'
        /\ markedForDeletion u' = true /\ markedAt u' = Some t3
        /\ deleteReason u' = Some "inactivity"
        /\ createdAt u' = createdAt u /\ lastActive u' = lastActive u)
  /\ (forall u,
      In u (users s) -> pastGrace (t1 - 2 * 60 * 1000) u = false ->
      inactive (t2 - 15 * 60 * 1000) u = false ->
      findOne (id u) (users s') = Some u)
  /\ (forall m, In m (messages s') <->
        In m (messages s)
        /\ forall u, In u (users s) -> pastGrace (t1 - 2 * 60 * 1000) u = true ->
                     senderId m <> id u /\ recipientId m <> id u).
Proof.
  intros Hnd s'.
  pose proof (cleanup_unique s t1 t2 t3 Hnd) as Hnd'.
  pose proof (cleanup_users s t1 t2 t3 Hnd) as Hus.
  pose proof (cleanup_messages s t1 t2 t3) as Hms.
  fold s' in Hnd', Hus, Hms. unfold uniqueCodes in Hnd, Hnd'.
  set (g := pastGrace (t1 - 2 * 60 * 1000)) in *.
  set (a := inactive (t2 - 15 * 60 * 1000)) in *.
  assert (Hmsg : forall m, In m (messages s') <->
            In m (messages s)
            /\ forall u, In u (users s) -> g u = true ->
                         senderId m <> id u /\ recipientId m <> id u).
  { intros m. rewrite Hms, filter_In. apply and_iff_compat_l.
    rewrite negb_true_iff. split.
    - intros Hex u Hu Hg.
      assert (involves (id u) m = false) as Hinv.
      { destruct (involves (id u) m) eqn:F; [|reflexivity].
        rewrite <- Hex. symmetry. apply existsb_exists. exists (id u).
        split; [|assumption]. apply in_map. apply filter_In. auto. }
      unfold involves in Hinv. apply orb_false_iff in Hinv.
      destruct Hinv as [H1 H2].
      apply String.eqb_neq in H1, H2. auto.
    - intros H. destruct (existsb _ _) eqn:F; [|reflexivity].
      apply existsb_exists in F. destruct F as (i & Hi & Hinv).
      apply in_map_iff in Hi. destruct Hi as (u & <- & Hu).
      apply filter_In in Hu. destruct Hu as [Hu Hg].
      destruct (H u Hu Hg) as [H1 H2].
      unfold involves in Hinv. apply orb_true_iff in Hinv.
      destruct Hinv as [Hinv|Hinv]; apply String.eqb_eq in Hinv; contradiction. }
  assert (Hkept : forall u, In u (users s) -> g u = false ->
            findOne (id u) (users s')
            = Some (if a u then mark t3 "inactivity" u else u)).
  { intros u Hu Hg.
    assert (In (if a u then mark t3 "inactivity" u else u) (users s')) as Hin.
    { rewrite Hus. apply in_map_iff. exists u. split; [reflexivity|].
      apply filter_In. now rewrite Hg. }
    apply (findOne_unique _ _ Hnd') in Hin.
    now destruct (a u). }
  split; [|split; [|split]].
  - intros u at_ Hu Hm Hat Hlt.
    assert (g u = true) as Hg.
    { unfold g, pastGrace. rewrite Hm, Hat. cbn. now apply Z.ltb_lt. }
    split.
    + apply findOne_None. intros v Hv Hid. rewrite Hus in Hv.
      apply in_map_iff in Hv. destruct Hv as (v0 & <- & Hv0).
      apply filter_In in Hv0. destruct Hv0 as [Hv0 Hg0].
      assert (v0 = u).
      { apply (NoDup_map_injective id (users s)); try assumption.
        rewrite <- Hid. now destruct (a v0). }
      subst. rewrite Hg in Hg0. discriminate.
    + intros m Hm'. apply Hmsg in Hm'. destruct Hm' as [_ H]. now apply H.
  - intros u Hu Hm Hlt.
    assert (g u = false) as Hg by (unfold g, pastGrace; now rewrite Hm).
    assert (a u = true) as Ha.
    { unfold a, inactive. rewrite Hm. cbn. rewrite andb_true_r. now apply Z.ltb_lt. }
    exists (mark t3 "inactivity" u). rewrite (Hkept u Hu Hg), Ha.
    repeat split.
  - intros u Hu Hg Ha. rewrite (Hkept u Hu Hg). fold a in Ha. now rewrite Ha.
  - exact Hmsg.
Qed.

Lemma lobby_unique : uniqueCodes lobby.
Proof.
  unfold uniqueCodes. cbn. repeat constructor; cbn; intuition discriminate.
Qed.

Lemma sweep_purges_then_marks_witness :
  let s' := cleanupInactiveUsers lobby 1000000 1000000 1000001 in
  users s' = [mark 1000001 "inactivity" idle; busy]
  /\ findOne "111111" (users s') = None
  /\ (forall m, In m (messages s') <->
        In m (messages lobby)
        /\ forall u, In u (users lobby) -> pastGrace (1000000 - 2 * 60 * 1000) u = true ->
                     senderId m <> id u /\ recipientId m <> id u).
Proof.
  intros s'. split; [reflexivity|].
  pose proof (sweep_purges_then_marks lobby 1000000 1000000 1000001 lobby_unique)
    as (Hpurge & _ & _ & Hmsg).
  split; [|exact Hmsg].
  apply (Hpurge stale 1000); cbn; auto. lia.
Defined.

(** On the sample: the stale identity and its two messages are purged, the
    idle one is marked, the active one is untouched. *)
Example sweep_lobby :
  cleanupInactiveUsers lobby 1000000 1000000 1000001
  = mkStore
      [mkUser "222222" 0 50000 true (Some 1000001) (Some "inactivity"); busy]
      [mkMessage 1 "222222" "333333" "from idle" 20 false None] 3.
Proof. reflexivity. Qed.

(** ** Allocation *)

Lemma roundBinary64_small a : a < 2 ^ 53 -> roundBinary64 a = a.
Proof.
  intros H. unfold roundBinary64. destruct (Z.ltb_spec a (2 ^ 53)); [reflexivity|lia].
Qed.

Lemma ulp_bounds a :
  2 ^ 53 <= a ->
  53 <= Z.log2 a
  /\ 0 < 2 ^ (Z.log2 a - 52)
  /\ 2 ^ 52 * 2 ^ (Z.log2 a - 52) <= a < 2 ^ 53 * 2 ^ (Z.log2 a - 52).
Proof.
  intros Ha.
  assert (0 < a) as Hpos by (pose proof (Z.pow_pos_nonneg 2 53); lia).
  assert (53 <= Z.log2 a) as Hk.
  { rewrite <- (Z.log2_pow2 53) by lia. now apply Z.log2_le_mono. }
  pose proof (Z.log2_spec a Hpos) as [Hlo Hhi].
  split; [assumption|]. split; [apply Z.pow_pos_nonneg; lia|].
  rewrite <- !Z.pow_add_r by lia.
  replace (52 + (Z.log2 a - 52)) with (Z.log2 a) by lia.
  replace (53 + (Z.log2 a - 52)) with (Z.succ (Z.log2 a)) by lia.
  split; assumption.
Qed.

(** Rounding gives one of the two multiples of the unit in the last place
    around [a], and the upper one only when [a] is at least half a unit above
    the lower. *)
Lemma roundBinary64_cases a :
  2 ^ 53 <= a ->
  let ulp := 2 ^ (Z.log2 a - 52) in
  roundBinary64 a = (a / ulp) * ulp
  \/ (roundBinary64 a = (a / ulp + 1) * ulp /\ ulp <= 2 * (a mod ulp)).
Proof.
  intros Ha ulp. unfold roundBinary64. fold ulp.
  destruct (Z.ltb_spec a (2 ^ 53)); [lia|]. cbv zeta.
  destruct (Z.ltb_spec (2 * (a mod ulp)) ulp); [now left|].
  destruct (Z.ltb_spec ulp (2 * (a mod ulp))); [right; split; [reflexivity|lia]|].
  destruct (Z.even (a / ulp)); [now left|right; split; [reflexivity|lia]].
Qed.

Lemma roundBinary64_le_multiple a c :
  2 ^ 53 <= a ->
  a <= c * 2 ^ (Z.log2 a - 52) ->
  roundBinary64 a <= c * 2 ^ (Z.log2 a - 52).
Proof.
  intros Ha Hc. destruct (ulp_bounds a Ha) as (_ & Hu & _).
  pose proof (roundBinary64_cases a Ha) as Hr. cbv zeta in Hr.
  set (ulp := 2 ^ (Z.log2 a - 52)) in *.
  pose proof (Z.div_mod a ulp ltac:(lia)) as Hdm.
  pose proof (Z.mod_pos_bound a ulp Hu) as Hm.
  destruct Hr as [->|[-> Hhalf]]; [nia|].
  assert (a / ulp < c) by nia. nia.
Qed.

Lemma roundBinary64_ge_multiple a c :
  2 ^ 53 <= a ->
  c * 2 ^ (Z.log2 a - 52) <= a ->
  c * 2 ^ (Z.log2 a - 52) <= roundBinary64 a.
Proof.
  intros Ha Hc. destruct (ulp_bounds a Ha) as (_ & Hu & _).
  pose proof (roundBinary64_cases a Ha) as Hr. cbv zeta in Hr.
  set (ulp := 2 ^ (Z.log2 a - 52)) in *.
  pose proof (Z.div_mod a ulp ltac:(lia)) as Hdm.
  pose proof (Z.mod_pos_bound a ulp Hu) as Hm.
  assert (c <= a / ulp) by nia.
  destruct Hr as [->|[-> Hhalf]]; nia.
Qed.

(** A multiple of [2 ^ j] is a multiple of every smaller power of two. *)
Lemma multiple_of_smaller c j i :
  0 <= i <= j -> c * 2 ^ j = (c * 2 ^ (j - i)) * 2 ^ i.
Proof.
  intros H. rewrite <- Z.mul_assoc, <- Z.pow_add_r by lia. do 2 f_equal. lia.
Qed.

(** Below [2 ^ 20], what rounding gives stays between any two multiples of
    [2 ^ -33] that enclose the argument. *)
Lemma roundBinary64_between lo hi a :
  0 <= a < 2 ^ 1094 ->
  lo * 2 ^ 1041 <= a <= hi * 2 ^ 1041 ->
  lo * 2 ^ 1041 <= roundBinary64 a <= hi * 2 ^ 1041.
Proof.
  intros Ha Hb.
  destruct (Z.lt_ge_cases a (2 ^ 53)) as [Hs|Hl].
  - rewrite roundBinary64_small by assumption. assumption.
  - destruct (ulp_bounds a Hl) as (Hk & _ & _).
    assert (Z.log2 a < 1094) by (apply Z.log2_lt_pow2; lia).
    rewrite (multiple_of_smaller lo 1041 (Z.log2 a - 52)) in * by lia.
    rewrite (multiple_of_smaller hi 1041 (Z.log2 a - 52)) in * by lia.
    split.
    + apply roundBinary64_ge_multiple; tauto.
    + apply roundBinary64_le_multiple; tauto.
Qed.

Lemma powers_of_two :
  let w := 2 ^ 1021 in
  0 < w /\ 2 ^ 1041 = 2 ^ 20 * w /\ 2 ^ 1073 = 2 ^ 52 * w /\ 2 ^ 1074 = 2 ^ 53 * w
  /\ 2 ^ 1093 = 2 ^ 72 * w /\ 2 ^ 1094 = 2 ^ 73 * w /\ 2 ^ 53 <= w.
Proof.
  cbv zeta. rewrite <- !Z.pow_add_r by lia. cbn [Z.add Pos.add Pos.succ Pos.add_carry].
  repeat split; try apply Z.pow_pos_nonneg; try lia.
Qed.

(** The largest binary64 number below 1 is [1 - 2^-53]. *)
Lemma isMathRandom_below_one r : isMathRandom r -> r <= (2 ^ 53 - 1) * 2 ^ 1021.
Proof.
  intros [[H0 H1] Hr]. unfold unit64 in H1.
  destruct powers_of_two as (Hw & _ & H1073 & H1074 & _ & _ & Hw53).
  set (w := 2 ^ 1021) in *.
  destruct (Z.lt_ge_cases r (2 ^ 53)) as [Hs|Hl]; [nia|].
  destruct (Z.lt_ge_cases r (2 ^ 1073)) as [Hlow|Hhigh]; [nia|].
  assert (Z.log2 r = 1073) as Hk.
  { apply Z.log2_unique; [lia|]. change (1073 + 1) with 1074. lia. }
  pose proof (roundBinary64_cases r Hl) as Hc. cbv zeta in Hc.
  rewrite Hk in Hc. change (1073 - 52) with 1021 in Hc. fold w in Hc.
  rewrite Hr in Hc.
  destruct Hc as [Hc|[Hc _]]; nia.
Qed.

(** The rounded product is at most [900000 - 2^-33], the binary64 number
    just below 900000: the exact product is at most
    [900000 - 900000 * 2^-53], which is nearer to it than to 900000. *)
Lemma product_rounded r :
  isMathRandom r ->
  0 <= mulInteger r 900000 <= (900000 * 2 ^ 33 - 1) * 2 ^ 1041.
Proof.
  intros Hr. pose proof (isMathRandom_below_one r Hr) as Hmax.
  destruct Hr as [[H0 _] _]. unfold mulInteger.
  destruct powers_of_two as (Hw & H1041 & H1073 & H1074 & H1093 & H1094 & Hw53).
  set (w := 2 ^ 1021) in *.
  set (P := r * 900000).
  assert (0 <= P < 2 ^ 1094) as HP by (subst P; nia).
  destruct (Z.le_gt_cases P ((900000 * 2 ^ 33 - 1) * 2 ^ 1041)) as [Hle|Hgt].
  - pose proof (roundBinary64_between 0 (900000 * 2 ^ 33 - 1) P HP) as Hb. lia.
  - assert (2 ^ 53 <= P) as Hl by nia.
    assert (Z.log2 P = 1093) as Hk.
    { apply Z.log2_unique; [lia|]. change (1093 + 1) with 1094. nia. }
    pose proof (roundBinary64_cases P Hl) as Hc. cbv zeta in Hc.
    rewrite Hk in Hc. change (1093 - 52) with 1041 in Hc.
    assert (0 < 2 ^ 1041) as Hu by lia.
    pose proof (Z.div_mod P (2 ^ 1041) ltac:(lia)) as Hdm.
    pose proof (Z.mod_pos_bound P (2 ^ 1041) Hu) as Hm.
    assert (P / 2 ^ 1041 = 900000 * 2 ^ 33 - 1) as Hq by (subst P; nia).
    rewrite Hq in *.
    destruct Hc as [->|[_ Hhalf]]; [nia|subst P; nia].
Qed.

(** In binary64, [Math.floor(100000 + r * 900000)] is an integer from 100000
    to 999999 for every [r] that [Math.random()] may return. *)
Lemma generateRandomId_range r :
  isMathRandom r ->
  100000 <= floor (addInteger 100000 (mulInteger r 900000)) <= 999999.
Proof.
  intros Hr. pose proof (product_rounded r Hr) as Hx.
  unfold floor, addInteger, unit64.
  destruct powers_of_two as (Hw & H1041 & H1073 & H1074 & H1093 & H1094 & Hw53).
  set (w := 2 ^ 1021) in *.
  set (S := 100000 * 2 ^ 1074 + mulInteger r 900000).
  assert (0 <= S < 2 ^ 1094) as HS by (subst S; nia).
  pose proof (roundBinary64_between (100000 * 2 ^ 33) (1000000 * 2 ^ 33 - 1) S HS) as Hb.
  assert (100000 * 2 ^ 1074 <= roundBinary64 S < 1000000 * 2 ^ 1074) as Hy
    by (subst S; nia).
  split.
  - apply Z.div_le_lower_bound; lia.
  - assert (roundBinary64 S / 2 ^ 1074 < 1000000); [|lia].
    apply Z.div_lt_upper_bound; lia.
Qed.

Lemma isDigit_digitChar d : 0 <= d <= 9 -> isDigit (digitChar d) = true.
Proof.
  intros H.
  assert (d = 0 \/ d = 1 \/ d = 2 \/ d = 3 \/ d = 4 \/ d = 5 \/ d = 6 \/ d = 7
          \/ d = 8 \/ d = 9) as Hd by lia.
  repeat (destruct Hd as [->|Hd]; [reflexivity|]). subst. reflexivity.
Qed.

Lemma digitValue_digitChar d : 0 <= d <= 9 -> digitValue 10 (digitChar d) = Some d.
Proof.
  intros H.
  assert (d = 0 \/ d = 1 \/ d = 2 \/ d = 3 \/ d = 4 \/ d = 5 \/ d = 6 \/ d = 7
          \/ d = 8 \/ d = 9) as Hd by lia.
  repeat (destruct Hd as [->|Hd]; [reflexivity|]). subst. reflexivity.
Qed.

(** A number of six digits prints as its six digits. *)
Lemma toString_six n : 100000 <= n <= 999999 -> toString n = sixDigits n.
Proof.
  intros Hn. unfold toString, sixDigits.
  destruct (Z.ltb_spec n 0); [lia|].
  assert (16 <= Z.log2 n) as Hlog.
  { change 16 with (Z.log2 100000). apply Z.log2_le_mono. lia. }
  destruct (Z.to_nat (Z.log2 n)) as [|[|[|[|[|f]]]]] eqn:E; try lia.
  cbv zeta. cbn [toDigits].
  set (q1 := n / 10). set (q2 := q1 / 10). set (q3 := q2 / 10).
  set (q4 := q3 / 10). set (q5 := q4 / 10).
  assert (10000 <= q1 <= 99999) by (subst q1; Z.div_mod_to_equations; lia).
  assert (1000 <= q2 <= 9999) by (subst q2; Z.div_mod_to_equations; lia).
  assert (100 <= q3 <= 999) by (subst q3; Z.div_mod_to_equations; lia).
  assert (10 <= q4 <= 99) by (subst q4; Z.div_mod_to_equations; lia).
  assert (1 <= q5 <= 9) by (subst q5; Z.div_mod_to_equations; lia).
  assert (q5 / 10 = 0) as H5 by (Z.div_mod_to_equations; lia).
  destruct (Z.eqb_spec q1 0); [lia|]. destruct (Z.eqb_spec q2 0); [lia|].
  destruct (Z.eqb_spec q3 0); [lia|]. destruct (Z.eqb_spec q4 0); [lia|].
  destruct (Z.eqb_spec q5 0); [lia|]. rewrite H5. reflexivity.
Qed.

Lemma isValidId_sixDigits n : isValidId (sixDigits n) = true.
Proof.
  unfold isValidId, sixDigits. cbv zeta. cbn [String.length Nat.eqb andb allChars].
  rewrite !isDigit_digitChar; [reflexivity|..]; Z.div_mod_to_equations; lia.
Qed.

(** Reading the six digits back gives the number. *)
Lemma parseInt_sixDigits n : 100000 <= n <= 999999 -> parseInt (sixDigits n) = Some n.
Proof.
  intros Hn. unfold sixDigits. cbv zeta.
  set (q1 := n / 10). set (q2 := q1 / 10). set (q3 := q2 / 10).
  set (q4 := q3 / 10). set (q5 := q4 / 10).
  assert (Hn0 : n = q1 * 10 + n mod 10 /\ 0 <= n mod 10 <= 9)
    by (subst q1; Z.div_mod_to_equations; lia).
  assert (Hn1 : q1 = q2 * 10 + q1 mod 10 /\ 0 <= q1 mod 10 <= 9)
    by (subst q2; Z.div_mod_to_equations; lia).
  assert (Hn2 : q2 = q3 * 10 + q2 mod 10 /\ 0 <= q2 mod 10 <= 9)
    by (subst q3; Z.div_mod_to_equations; lia).
  assert (Hn3 : q3 = q4 * 10 + q3 mod 10 /\ 0 <= q3 mod 10 <= 9)
    by (subst q4; Z.div_mod_to_equations; lia).
  assert (Hn4 : q4 = q5 * 10 + q4 mod 10 /\ 0 <= q4 mod 10 <= 9)
    by (subst q5; Z.div_mod_to_equations; lia).
  assert (Hn5 : q5 mod 10 = q5 /\ 1 <= q5 <= 9)
    by (subst q5 q4 q3 q2 q1; Z.div_mod_to_equations; lia).
  clearbody q5 q4 q3 q2 q1.
  destruct Hn5 as [-> Hq5].
  remember (String (digitChar (q4 mod 10))
              (String (digitChar (q3 mod 10))
                 (String (digitChar (q2 mod 10))
                    (String (digitChar (q1 mod 10))
                       (String (digitChar (n mod 10)) EmptyString))))) as rest eqn:Hrest.
  assert (parseInt (String (digitChar q5) rest)
          = option_map (fun m => m) (parseDigits 10 (Some q5) rest)) as ->.
  { assert (q5 = 1 \/ q5 = 2 \/ q5 = 3 \/ q5 = 4 \/ q5 = 5 \/ q5 = 6 \/ q5 = 7
            \/ q5 = 8 \/ q5 = 9) as Hd by lia.
    clear - Hd.
    repeat (destruct Hd as [->|Hd]; [reflexivity|]). subst. reflexivity. }
  subst rest. cbn [parseDigits].
  rewrite !digitValue_digitChar by tauto.
  cbn [parseDigits option_map]. f_equal. lia.
Qed.

(** The loop returns the first draw that no identity holds, or fails after
    [k] draws that all collide. *)
Lemma generateUniqueIdFrom_spec k rand us : forall i,
  (exists j,
      (i <= j < i + k)%nat
      /\ generateUniqueIdFrom k rand i us = inl (generateRandomId (rand j))
      /\ findOne (generateRandomId (rand j)) us = None
      /\ forall j', (i <= j' < j)%nat ->
                    findOne (generateRandomId (rand j')) us <> None)
  \/ (generateUniqueIdFrom k rand i us
      = inr (Error "Unable to generate unique ID after maximum attempts")
      /\ forall j, (i <= j < i + k)%nat ->
                   findOne (generateRandomId (rand j)) us <> None).
Proof.
  induction k as [|k IH]; intros i; simpl.
  - right. split; [reflexivity|]. intros j Hj. lia.
  - destruct (findOne (generateRandomId (rand i)) us) as [u|] eqn:E.
    + destruct (IH (S i)) as [(j & Hj & Hr & Hn & Hprev)|[Hr Hall]].
      * left. exists j. repeat split; try assumption; try lia.
        intros j' Hj'. destruct (Nat.eq_dec j' i) as [->|Hne].
        -- now rewrite E.
        -- apply Hprev. lia.
      * right. split; [assumption|]. intros j Hj.
        destruct (Nat.eq_dec j i) as [->|Hne].
        -- now rewrite E.
        -- apply Hall. lia.
    + left. exists i. repeat split; try assumption; try lia.
Qed.

(** C5. Allocation, when every draw of [Math.random()] is a binary64 number
    in [0, 1), with the arithmetic of [generateRandomId] in binary64.
    Either one of the first ten draws gives a code that no stored identity
    holds: the route then answers with that code, which is the decimal
    writing of a number from 100000 to 999999 (six digits), every earlier
    draw collided, and the identity is added to the store.  Or all ten draws
    collide with stored identities: the helper throws its exhaustion error
    and the route answers 503 SERVICE_UNAVAILABLE, leaving the store as it
    was.  A code held by a stored identity is never returned. *)
Theorem allocate_fresh_or_exhausted s now rand :
  (forall i, isMathRandom (rand i)) ->
  (exists i n s',
      (i < 10)%nat
      /\ 100000 <= n <= 999999
      /\ generateRandomId (rand i) = toString n
      /\ isValidId (toString n) = true
      /\ parseInt (toString n) = Some n
      /\ (forall j, (j < i)%nat ->
                    findOne (generateRandomId (rand j)) (users s) <> None)
      /\ findOne (toString n) (users s) = None
      /\ generateUniqueId 10 rand (users s) = inl (toString n)
      /\ generateId s now rand = (s', Success 200 (GeneratedId (toString n)))
      /\ users s' = users s ++ [mkUser (toString n) now now false None None]
      /\ messages s' = messages s)
  \/ ((forall j, (j < 10)%nat ->
                 findOne (generateRandomId (rand j)) (users s) <> None)
      /\ generateUniqueId 10 rand (users s)
         = inr (Error "Unable to generate unique ID after maximum attempts")
      /\ generateId s now rand = (s, Failure 503 "SERVICE_UNAVAILABLE")).
Proof.
  intros Hrand. unfold generateId, generateUniqueId.
  destruct (generateUniqueIdFrom_spec 10 rand (users s) 0%nat)
    as [(j & Hj & Hr & Hn & Hprev)|[Hr Hall]].
  - left. pose proof (generateRandomId_range (rand j) (Hrand j)) as Hrange.
    set (n := floor (addInteger 100000 (mulInteger (rand j) 900000))) in *.
    assert (Hid : generateRandomId (rand j) = toString n) by reflexivity.
    rewrite Hid in *.
    assert (Hvalid : isValidId (toString n) = true)
      by (rewrite toString_six by assumption; apply isValidId_sixDigits).
    exists j, n. eexists.
    rewrite Hr. unfold saveUser. unfold isValidId in Hvalid. rewrite Hvalid, Hn.
    cbn [andb]. repeat split; try assumption; try lia.
    + rewrite toString_six by assumption. now apply parseInt_sixDigits.
    + intros j' Hj'. apply Hprev. lia.
  - right. rewrite Hr. repeat split.
    intros j Hj. apply Hall. lia.
Qed.

(** One half is a binary64 number. *)
Lemma draws_one_half : forall i : nat, isMathRandom (2 ^ 1073).
Proof. intros _. split; [split|]; vm_compute; congruence. Qed.

Lemma allocate_fresh_or_exhausted_witness :
  let s := inbox in
  let rand := fun _ : nat => 2 ^ 1073 in
  (exists i n s',
      (i < 10)%nat
      /\ 100000 <= n <= 999999
      /\ generateRandomId (rand i) = toString n
      /\ isValidId (toString n) = true
      /\ parseInt (toString n) = Some n
      /\ (forall j, (j < i)%nat ->
                    findOne (generateRandomId (rand j)) (users s) <> None)
      /\ findOne (toString n) (users s) = None
      /\ generateUniqueId 10 rand (users s) = inl (toString n)
      /\ generateId s 9000 rand = (s', Success 200 (GeneratedId (toString n)))
      /\ users s' = users s ++ [mkUser (toString n) 9000 9000 false None None]
      /\ messages s' = messages s)
  \/ ((forall j, (j < 10)%nat ->
                 findOne (generateRandomId (rand j)) (users s) <> None)
      /\ generateUniqueId 10 rand (users s)
         = inr (Error "Unable to generate unique ID after maximum attempts")
      /\ generateId s 9000 rand = (s, Failure 503 "SERVICE_UNAVAILABLE")).
Proof.
  exact (allocate_fresh_or_exhausted inbox 9000 (fun _ => 2 ^ 1073) draws_one_half).
Defined.

(** With every draw at one half the code is 550000. *)
Example generateId_inbox :
  generateId inbox 9000 (fun _ => 2 ^ 1073)
  = (withUsers inbox (users inbox ++ [mkUser "550000" 9000 9000 false None None]),
     Success 200 (GeneratedId "550000")).
Proof. reflexivity. Qed.

(** When the only code the draws produce is taken, ten attempts collide and
    the route answers that the service is unavailable. *)
Example generateId_exhausted :
  let s := mkStore [mkUser "550000" 0 0 false None None] [] 0 in
  generateId s 9000 (fun _ => 2 ^ 1073) = (s, Failure 503 "SERVICE_UNAVAILABLE").
Proof. reflexivity. Qed.

(** The rounding of binary64 decides the code: for the draw
    [0x1.5555555555555p-2] the exact value of [100000 + r * 900000] lies
    below 400000 and the computed sum is 400000.  The least and the largest
    draw give the two ends of the range. *)
Example generateRandomId_rounds :
  let r := 0x15555555555555 * 2 ^ 1020 in
  isMathRandom r
  /\ (100000 * unit64 + r * 900000) / unit64 = 399999
  /\ generateRandomId r = "400000"
  /\ generateRandomId 0 = "100000"
  /\ generateRandomId ((2 ^ 53 - 1) * 2 ^ 1021) = "999999".
Proof. vm_compute. repeat split; congruence. Qed.

(** ** Availability *)

Lemma validateUserId_isValidId i : validateUserId i = isValidId i.
Proof.
  unfold validateUserId, isValidId.
  destruct (Nat.eqb_spec (String.length i) 6) as [->|]; reflexivity || idtac.
  now rewrite andb_false_r.
Qed.

(** C6, as stated, fails for the operation: the route runs [validateUserId]
    first, and a code that is not six digits is answered with the error
    400 INVALID_ID_FORMAT, not with [available = false]. *)
Lemma checkId_rejects_malformed :
  isValidId "12345" = false
  /\ checkId inbox "12345" = (inbox, Failure 400 "INVALID_ID_FORMAT")
  /\ checkId inbox "12345" <> (inbox, Success 200 (Availability false "12345")).
Proof. repeat split; try reflexivity. discriminate. Qed.

(** C6, amended. The helper [isIdAvailable] never fails: it answers [false]
    for a code that is not six ASCII digits, and for a well-formed code it
    answers [true] exactly when no stored identity holds the code.  The
    route answers a well-formed code with the helper's verdict, and rejects
    any other code with 400 INVALID_ID_FORMAT before the helper runs. *)
Theorem isIdAvailable_verdict s code :
  (isValidId code = false ->
   isIdAvailable code (users s) = false
   /\ checkId s code = (s, Failure 400 "INVALID_ID_FORMAT"))
  /\ (isValidId code = true ->
      (isIdAvailable code (users s) = true
       <-> forall u, In u (users s) -> id u <> code)
      /\ checkId s code
         = (s, Success 200 (Availability (isIdAvailable code (users s)) code))).
Proof.
  unfold checkId, isIdAvailable. rewrite validateUserId_isValidId.
  split; intros ->; cbn [negb]; split; try reflexivity.
  rewrite <- findOne_None.
  destruct (findOne code (users s)); split; congruence.
Qed.

Example checkId_inbox :
  checkId inbox "654321" = (inbox, Success 200 (Availability false "654321"))
  /\ checkId inbox "000000" = (inbox, Success 200 (Availability true "000000"))
  /\ isIdAvailable "abc" (users inbox) = false.
Proof. repeat split. Qed.

(** ** Sending *)

Lemma trimStart_head s :
  match trimStart s with
  | EmptyString => True
  | String c _ => isWhiteSpace c = false
  end.
Proof.
  induction s as [|c r IH]; simpl; [exact I|].
  destruct (isWhiteSpace c) eqn:E; [assumption|]. simpl. assumption.
Qed.

Lemma trimEnd_idempotent s : trimEnd (trimEnd s) = trimEnd s.
Proof.
  induction s as [|c r IH]; simpl; [reflexivity|].
  destruct (trimEnd r) as [|d t] eqn:E.
  - destruct (isWhiteSpace c) eqn:W; simpl; [reflexivity|]. now rewrite W.
  - simpl in *. now rewrite IH.
Qed.

(** Trimming what is trimmed changes nothing. *)
Lemma trim_idempotent s : trim (trim s) = trim s.
Proof.
  unfold trim. pose proof (trimStart_head s) as H.
  destruct (trimStart s) as [|c r] eqn:E; [reflexivity|].
  assert (trimStart (trimEnd (String c r)) = trimEnd (String c r)) as ->.
  { simpl. destruct (trimEnd r); rewrite ?H; simpl; rewrite ?H; reflexivity. }
  apply trimEnd_idempotent.
Qed.

Lemma validateMessage_Valid text v :
  validateMessage text = Valid v ->
  v = trim text /\ (1 <= String.length v <= 1000)%nat
  /\ repeatedChars v = false /\ containsUrl v = false.
Proof.
  unfold validateMessage.
  destruct (Nat.eqb (String.length text) 0); [discriminate|].
  destruct (Nat.eqb_spec (String.length (trim text)) 0); [discriminate|].
  destruct (Nat.ltb_spec 1000 (String.length (trim text))); [discriminate|].
  destruct (repeatedChars (trim text) || containsUrl (trim text)) eqn:E;
    [discriminate|].
  intros [= <-]. apply orb_false_iff in E. repeat split; try tauto; lia.
Qed.

Lemma truthy_Some x v : truthy x = Some v -> x = Some v.
Proof. destruct x as [[|? ?]|]; simpl; congruence. Qed.

(** C7, as stated, fails: a content with two spaces in a row is stored with
    both, where the normal form of the specification has one. *)
Lemma send_keeps_inner_whitespace :
  let rq := mkSendRequest (Some "123456") (Some "654321") (Some "  a  b ") None "fp" in
  snd (sendMessage inbox 9000 9001 rq) = Success 201 (Sent 3 9000)
  /\ map content (messages (fst (sendMessage inbox 9000 9001 rq)))
     = ["one"; "two"; "three"; "a  b"]
  /\ normalized "  a  b " = "a b"
  /\ sanitizeMessage "  a  b " = "a b"
  /\ ~ In (normalized "  a  b ")
         (map content (messages (fst (sendMessage inbox 9000 9001 rq)))).
Proof.
  vm_compute. repeat split. intros [H|[H|[H|[H|[]]]]]; discriminate.
Qed.

(** C7, amended. Every successful send appends exactly one message whose
    content is the input with its outer white space trimmed; white space
    inside the content is stored as it was given.  The stored content has
    between 1 and 1000 characters. *)
Theorem send_persists_trimmed s tMessage tTouch rq s' mid ts :
  sendMessage s tMessage tTouch rq = (s', Success 201 (Sent mid ts)) ->
  exists sender recipient text fp,
    bodySenderId rq = Some sender
    /\ bodyRecipientId rq = Some recipient
    /\ bodyContent rq = Some text
    /\ messages s'
       = messages s
         ++ [mkMessage mid sender recipient (trim text) ts false (Some fp)]
    /\ mid = nextId s /\ ts = tMessage
    /\ (1 <= String.length (trim text) <= 1000)%nat.
Proof.
  unfold sendMessage.
  destruct (truthy (bodySenderId rq)) as [sender|] eqn:Es; [|discriminate].
  destruct (truthy (bodyRecipientId rq)) as [recipient|] eqn:Er; [|discriminate].
  destruct (truthy (bodyContent rq)) as [text|] eqn:Ec; [|discriminate].
  destruct (negb (isValidId sender) || negb (isValidId recipient)); [discriminate|].
  destruct (String.eqb sender recipient); [discriminate|].
  destruct (validateMessage text) as [v|] eqn:Ev; [|discriminate].
  destruct (findOne sender (users s)); [|discriminate].
  destruct (findOne recipient (users s)); [|discriminate].
  apply validateMessage_Valid in Ev. destruct Ev as (-> & Hlen & _).
  unfold saveMessage. rewrite trim_idempotent.
  destruct (_ && _); [|discriminate].
  cbn [users withUsers _id timestamp]. intros [= <- <- <-].
  apply truthy_Some in Es, Er, Ec.
  do 4 eexists. repeat split; try eassumption; try reflexivity; lia.
Qed.

Lemma send_persists_trimmed_witness :
  let rq := mkSendRequest (Some "123456") (Some "654321") (Some "  a  b ") None "fp" in
  exists s' sender recipient text fp,
    sendMessage inbox 9000 9001 rq = (s', Success 201 (Sent 3 9000))
    /\ bodySenderId rq = Some sender
    /\ bodyRecipientId rq = Some recipient
    /\ bodyContent rq = Some text
    /\ messages s'
       = messages inbox
         ++ [mkMessage 3 sender recipient (trim text) 9000 false (Some fp)]
    /\ 3%nat = nextId inbox /\ 9000 = 9000
    /\ (1 <= String.length (trim text) <= 1000)%nat.
Proof.
  intros rq.
  exists (fst (sendMessage inbox 9000 9001 rq)).
  destruct (send_persists_trimmed inbox 9000 9001 rq
              (fst (sendMessage inbox 9000 9001 rq)) 3 9000 eq_refl)
    as (sender & recipient & text & fp & H).
  exists sender, recipient, text, fp. split; [reflexivity|exact H].
Defined.

(** ** Sending, with a body of any values *)

Lemma truthyValue_Some x v : truthyValue x = Some v -> x = Some v /\ truthyJ v = true.
Proof.
  destruct x as [w|]; simpl; [|discriminate].
  destruct (truthyJ w) eqn:E; [|discriminate]. intros [= <-]. auto.
Qed.

Lemma findOneIn_single c us : findOneIn [c] us = findOne c us.
Proof.
  unfold findOneIn, findOne. induction us as [|u us IH]; [reflexivity|].
  cbn [find]. rewrite IH. unfold hasId. cbn [existsb]. now rewrite orb_false_r.
Qed.

(** A value that the pattern of [isValidId] accepts and the schema casts is
    a string or a number whose writing is six digits. *)
Lemma valid_code_shape v a c :
  toStringJ v = Some a -> isValidId a = true -> castString v = Some c ->
  a = c /\ (v = JStr c \/ v = JNum c) /\ castFilter v = Some [c].
Proof.
  destruct v as [|b|shown|str|items|members]; simpl; try discriminate.
  - destruct b; intros [= <-]; discriminate.
  - intros [= <-] _ [= <-]. auto.
  - intros [= <-] _ [= <-]. auto.
  - destruct (hasOwn "toString" members); [discriminate|].
    intros [= <-]. discriminate.
Qed.

(** A send either leaves the store as it was or succeeds. *)
Lemma sendMessageJson_cases s tMessage tTouch rq :
  fst (sendMessageJson s tMessage tTouch rq) = s
  \/ exists s' mid ts,
       sendMessageJson s tMessage tTouch rq = (s', Success 201 (Sent mid ts)).
Proof.
  unfold sendMessageJson.
  repeat match goal with
         | |- context [match ?x with _ => _ end] => destruct x eqn:?
         end;
    try (left; reflexivity); right; do 3 eexists; reflexivity.
Qed.

(** What a successful send went through, and the store it leaves. *)
Lemma sendMessageJson_inv s tMessage tTouch rq s' mid ts :
  sendMessageJson s tMessage tTouch rq = (s', Success 201 (Sent mid ts)) ->
  exists sender recipient from to text fp us ur,
    jsonSenderId rq = Some sender
    /\ jsonRecipientId rq = Some recipient
    /\ jsonContent rq = Some (JStr text)
    /\ (sender = JStr from \/ sender = JNum from)
    /\ (recipient = JStr to \/ recipient = JNum to)
    /\ strictEq sender recipient = false
    /\ isValidId from = true /\ isValidId to = true
    /\ validateMessage text = Valid (trim text)
    /\ findOne from (users s) = Some us
    /\ findOne to (users s) = Some ur
    /\ match truthyValue (jsonFingerprint rq) with
       | Some f => castString f = Some fp
       | None => fp = connectionFingerprint rq
       end
    /\ mid = nextId s /\ ts = tMessage
    /\ s' = mkStore
              (findOneAndUpdate (hasId to) (setLastActive tTouch) (users s))
              (messages s
               ++ [mkMessage (nextId s) from to (trim text) tMessage false (Some fp)])
              (S (nextId s)).
Proof.
  unfold sendMessageJson, isValidIdOf.
  destruct (truthyValue (jsonSenderId rq)) as [sender|] eqn:Es; [|discriminate].
  destruct (truthyValue (jsonRecipientId rq)) as [recipient|] eqn:Er; [|discriminate].
  destruct (truthyValue (jsonContent rq)) as [content|] eqn:Ec; [|discriminate].
  destruct (toStringJ sender) as [a|] eqn:Ta; cbn [option_map]; [|discriminate].
  destruct (isValidId a) eqn:Va; [|discriminate].
  destruct (toStringJ recipient) as [b|] eqn:Tb; cbn [option_map]; [|discriminate].
  destruct (isValidId b) eqn:Vb; [|discriminate].
  destruct (strictEq sender recipient) eqn:Eq; [discriminate|].
  destruct (validateMessageOf content) as [v|] eqn:Ev; [|discriminate].
  destruct (castFilter sender) as [senders|] eqn:Fs; [|discriminate].
  destruct (castFilter recipient) as [recipients|] eqn:Fr; [|discriminate].
  destruct (findOneIn senders (users s)) as [us|] eqn:Us; [|discriminate].
  destruct (findOneIn recipients (users s)) as [ur|] eqn:Ur; [|discriminate].
  destruct (castString sender) as [from|] eqn:Cs; [|discriminate].
  destruct (castString recipient) as [to|] eqn:Cr; [|discriminate].
  destruct (valid_code_shape _ _ _ Ta Va Cs) as (-> & Hs & Fs').
  destruct (valid_code_shape _ _ _ Tb Vb Cr) as (-> & Hr & Fr').
  rewrite Fs' in Fs. rewrite Fr' in Fr. injection Fs as <-. injection Fr as <-.
  rewrite findOneIn_single in Us, Ur.
  destruct content as [| | |text| |]; try discriminate Ev. cbn [validateMessageOf] in Ev.
  pose proof (validateMessage_Valid _ _ Ev) as (-> & _).
  set (fingerprint := match truthyValue (jsonFingerprint rq) with
                      | Some f => castString f
                      | None => Some (connectionFingerprint rq)
                      end).
  destruct fingerprint as [fp|] eqn:Ef; [|discriminate].
  unfold saveMessage. rewrite trim_idempotent.
  destruct (_ && _); [|discriminate].
  unfold withUsers. cbn [users messages nextId _id timestamp]. intros [= <- <- <-].
  apply truthyValue_Some in Es, Er, Ec.
  exists sender, recipient, from, to, text, fp, us, ur.
  repeat split; try tauto.
  subst fingerprint. destruct (truthyValue (jsonFingerprint rq)); congruence.
Qed.

(** On a body whose members are strings, the handler is [sendMessage]. *)
Lemma sendMessageJson_strings s tMessage tTouch rq :
  sendMessageJson s tMessage tTouch
    (mkSendBody (option_map JStr (bodySenderId rq))
       (option_map JStr (bodyRecipientId rq))
       (option_map JStr (bodyContent rq))
       (option_map JStr (bodyFingerprint rq)) (derivedFingerprint rq))
  = sendMessage s tMessage tTouch rq.
Proof.
  assert (Ht : forall x, truthyValue (option_map JStr x) = option_map JStr (truthy x)).
  { intros [[|c r]|]; reflexivity. }
  unfold sendMessageJson, sendMessage.
  cbn [jsonSenderId jsonRecipientId jsonContent jsonFingerprint connectionFingerprint].
  rewrite !Ht.
  destruct (truthy (bodySenderId rq)) as [sender|]; [|reflexivity].
  destruct (truthy (bodyRecipientId rq)) as [recipient|]; [|reflexivity].
  destruct (truthy (bodyContent rq)) as [text|]; [|reflexivity].
  cbn [option_map isValidIdOf toStringJ strictEq validateMessageOf castFilter
         castString].
  destruct (isValidId sender); [|reflexivity].
  destruct (isValidId recipient); [|reflexivity]. cbn [negb orb].
  destruct (String.eqb sender recipient); [reflexivity|].
  destruct (validateMessage text) as [v|]; [|reflexivity].
  rewrite !findOneIn_single.
  destruct (findOne sender (users s)); [|reflexivity].
  destruct (findOne recipient (users s)); [|reflexivity].
  destruct (truthy (bodyFingerprint rq)); reflexivity.
Qed.

(** ** Invariants of the reachable stores *)

Section Preservation.
Context {A B : Type} (g : A -> B).

Lemma map_findOneAndUpdate (p : A -> bool) (f : A -> A) (l : list A) :
  (forall x, g (f x) = g x) -> map g (findOneAndUpdate p f l) = map g l.
Proof.
  intros Hf. induction l as [|x l IH]; simpl; [reflexivity|].
  destruct (p x); simpl; [now rewrite Hf|now rewrite IH].
Qed.

Lemma map_updateMany (p : A -> bool) (f : A -> A) (l : list A) :
  (forall x, g (f x) = g x) -> map g (updateMany p f l) = map g l.
Proof.
  intros Hf. unfold updateMany. rewrite map_map. apply map_ext.
  intros x. destruct (p x); [apply Hf|reflexivity].
Qed.

Lemma deleteOne_incl (p : A -> bool) (l : list A) x :
  In x (deleteOne p l) -> In x l.
Proof.
  induction l as [|y l IH]; simpl; [auto|].
  destruct (p y); simpl; intuition.
Qed.

Lemma NoDup_map_deleteOne (p : A -> bool) (l : list A) :
  NoDup (map g l) -> NoDup (map g (deleteOne p l)).
Proof.
  induction l as [|y l IH]; simpl; [auto|].
  intros H. inversion H; subst. destruct (p y); [assumption|].
  simpl. constructor; [|auto].
  intros Hin. apply H2. apply in_map_iff in Hin.
  destruct Hin as (z & Hz & Hin). apply deleteOne_incl in Hin.
  apply in_map_iff. eauto.
Qed.

End Preservation.

(** A store whose codes are unique and whose messages are some of those of a
    well-formed store, with the same counter, is well formed. *)
Lemma wellFormed_shrink s us ms :
  wellFormed s ->
  NoDup (map id us) ->
  NoDup (map _id ms) ->
  (forall m, In m ms -> exists m0, In m0 (messages s) /\ _id m0 = _id m) ->
  wellFormed (mkStore us ms (nextId s)).
Proof.
  intros (Hm & Hf & Hu) Hus Hms Hsub. repeat split; try assumption.
  intros m Hin. cbn [messages nextId] in *.
  destruct (Hsub m Hin) as (m0 & Hin0 & <-). now apply Hf.
Qed.

Lemma setLastActive_id t u : id (setLastActive t u) = id u.
Proof. reflexivity. Qed.

Lemma wellFormed_generateId s now rand :
  wellFormed s -> wellFormed (fst (generateId s now rand)).
Proof.
  intros H. unfold generateId.
  destruct (generateUniqueId 10 rand (users s)) as [i|[msg]].
  - unfold saveUser.
    destruct (findOne i (users s)) eqn:E;
      [rewrite andb_false_r; assumption|rewrite andb_true_r].
    destruct (_ && _); [|assumption].
    cbn [fst withUsers]. destruct H as (Hm & Hf & Hu).
    repeat split; try assumption.
    unfold uniqueCodes in *. unfold withUsers. cbn [users]. rewrite map_app.
    apply NoDup_app; [assumption|repeat constructor; intros []|].
    intros c Hc [<-|[]]. apply in_map_iff in Hc. destruct Hc as (u & Hid & Hin).
    now apply (proj1 (findOne_None _ _) E u).
  - destruct (includes _ msg); assumption.
Qed.

Lemma wellFormed_sendMessageJson s tMessage tTouch rq :
  wellFormed s -> wellFormed (fst (sendMessageJson s tMessage tTouch rq)).
Proof.
  intros H.
  destruct (sendMessageJson_cases s tMessage tTouch rq) as [->|(s' & mid & ts & E)];
    [assumption|].
  rewrite E. cbn [fst].
  destruct (sendMessageJson_inv _ _ _ _ _ _ _ E)
    as (sender & recipient & from & to & text & fp & us & ur & _ & _ & _ & _ & _
        & _ & _ & _ & _ & _ & _ & _ & _ & _ & ->).
  destruct H as (Hm & Hf & Hu).
  unfold wellFormed, uniqueMessageIds, freshNextId, uniqueCodes in *.
  cbn [users messages nextId]. repeat split.
  - rewrite map_app. apply NoDup_app; [assumption|repeat constructor; intros []|].
    intros i Hi [<-|[]]. apply in_map_iff in Hi. destruct Hi as (m & Hid & Hin).
    apply Hf in Hin. cbn [_id] in Hid. lia.
  - intros m Hin. apply in_app_or in Hin. destruct Hin as [Hin|[<-|[]]].
    + apply Hf in Hin. lia.
    + cbn [_id]. lia.
  - rewrite map_findOneAndUpdate by reflexivity. assumption.
Qed.

Lemma wellFormed_sendMessage s tMessage tTouch rq :
  wellFormed s -> wellFormed (fst (sendMessage s tMessage tTouch rq)).
Proof.
  intros H. unfold sendMessage.
  destruct (truthy (bodySenderId rq)) as [sender|]; [|assumption].
  destruct (truthy (bodyRecipientId rq)) as [recipient|]; [|assumption].
  destruct (truthy (bodyContent rq)) as [text|]; [|assumption].
  destruct (_ || _); [assumption|].
  destruct (String.eqb sender recipient); [assumption|].
  destruct (validateMessage text); [|assumption].
  destruct (findOne sender (users s)); [|assumption].
  destruct (findOne recipient (users s)); [|assumption].
  unfold saveMessage. destruct (_ && _); [|assumption].
  unfold withUsers. cbn [fst users messages nextId].
  destruct H as (Hm & Hf & Hu).
  unfold wellFormed, uniqueMessageIds, freshNextId, uniqueCodes in *.
  cbn [users messages nextId]. repeat split.
  - rewrite map_app. apply NoDup_app; [assumption|repeat constructor; intros []|].
    intros i Hi [<-|[]]. apply in_map_iff in Hi. destruct Hi as (m & Hid & Hin).
    apply Hf in Hin. cbn [_id] in Hid. lia.
  - intros m Hin. apply in_app_or in Hin. destruct Hin as [Hin|[<-|[]]].
    + apply Hf in Hin. lia.
    + cbn [_id]. lia.
  - rewrite map_findOneAndUpdate by reflexivity. assumption.
Qed.

Lemma wellFormed_getMessages s now r q :
  wellFormed s -> wellFormed (fst (getMessages s now r q)).
Proof.
  intros H. unfold getMessages.
  destruct (negb (validateUserId r)); [assumption|].
  destruct (findOne r (users s)); [|assumption].
  destruct (findPage _ _ _ _) as [found|]; [|assumption].
  destruct (numMul _ _); [|assumption].
  destruct (numParam (queryLimit q) 20); [|assumption].
  cbn [fst]. apply wellFormed_shrink; [assumption|..].
  - rewrite map_findOneAndUpdate by reflexivity. apply H.
  - apply NoDup_map_filter, H.
  - intros m Hin. apply deleteMany_In in Hin. exists m. tauto.
Qed.

Lemma wellFormed_markRead s userId ids :
  wellFormed s -> wellFormed (fst (markRead s userId ids)).
Proof.
  intros H. unfold markRead.
  destruct (negb (validateUserId userId)); [assumption|].
  destruct (findOne userId (users s)); [|assumption].
  cbn [fst withMessages]. apply wellFormed_shrink; [assumption|apply H|..].
  - rewrite map_updateMany by reflexivity. apply H.
  - intros m Hin. unfold updateMany in Hin. apply in_map_iff in Hin.
    destruct Hin as (m0 & <- & Hin). exists m0. split; [assumption|].
    now destruct (_ && _).
Qed.

Lemma wellFormed_deleteUser s now userId b :
  wellFormed s -> wellFormed (fst (deleteUser s now userId b)).
Proof.
  intros H. unfold deleteUser.
  destruct (negb (validateUserId userId)); [assumption|].
  destruct (bodyThrows b); [assumption|].
  destruct (deleteOptions b) as [immediate reason].
  destruct (findOne userId (users s)); [|assumption].
  destruct immediate; cbn [fst withUsers].
  - apply wellFormed_shrink; [assumption|..].
    + apply NoDup_map_deleteOne, H.
    + apply NoDup_map_filter, H.
    + intros m Hin. apply deleteMany_In in Hin. exists m. tauto.
  - destruct (castString reason); [|assumption]. cbn [fst withUsers].
    apply wellFormed_shrink; [assumption| |apply H|eauto].
    rewrite map_findOneAndUpdate by reflexivity. apply H.
Qed.

Lemma wellFormed_heartbeat s now userId :
  wellFormed s -> wellFormed (fst (heartbeat s now userId)).
Proof.
  intros H. unfold heartbeat.
  destruct (negb (validateUserId userId)); [assumption|].
  destruct (findOne userId (users s)); [|assumption].
  cbn [fst withUsers]. apply wellFormed_shrink; [assumption| |apply H|eauto].
  rewrite map_findOneAndUpdate by reflexivity. apply H.
Qed.

Lemma wellFormed_cleanup s t1 t2 t3 :
  wellFormed s -> wellFormed (cleanupInactiveUsers s t1 t2 t3).
Proof.
  intros H.
  assert (nextId (cleanupInactiveUsers s t1 t2 t3) = nextId s) as Hn.
  { unfold cleanupInactiveUsers. destruct (0 <? _)%nat; cbn [nextId withUsers];
      apply purge_all_nextId. }
  pose proof (cleanup_unique s t1 t2 t3 (proj2 (proj2 H))) as Hu.
  pose proof (cleanup_messages s t1 t2 t3) as Hm.
  destruct (cleanupInactiveUsers s t1 t2 t3) as [us ms n].
  cbn [nextId messages] in *. subst n ms.
  apply wellFormed_shrink; [assumption|exact Hu|..].
  - apply NoDup_map_filter, H.
  - intros m Hin. apply filter_In in Hin. exists m. tauto.
Qed.

(** Every store the server can reach has unique message identifiers below
    the counter and unique identity codes. *)
Lemma reachable_wellFormed s : reachable s -> wellFormed s.
Proof.
  induction 1 as [|s e _ IH].
  - repeat split; try constructor. intros m [].
  - destruct e; cbn [step].
    + now apply wellFormed_generateId.
    + unfold checkId. now destruct (negb _).
    + now apply wellFormed_sendMessage.
    + now apply wellFormed_sendMessageJson.
    + now apply wellFormed_getMessages.
    + now apply wellFormed_markRead.
    + now apply wellFormed_deleteUser.
    + now apply wellFormed_heartbeat.
    + unfold userExists. now destruct (negb _).
    + now apply wellFormed_cleanup.
Qed.

(** * Further properties of the code *)

(** ** Sending *)

(** What a successful send went through, and the store it leaves. *)
Lemma sendMessage_inv s tMessage tTouch rq s' mid ts :
  sendMessage s tMessage tTouch rq = (s', Success 201 (Sent mid ts)) ->
  exists sender recipient text fp us ur,
    bodySenderId rq = Some sender
    /\ bodyRecipientId rq = Some recipient
    /\ bodyContent rq = Some text
    /\ isValidId sender = true /\ isValidId recipient = true
    /\ sender <> recipient
    /\ validateMessage text = Valid (trim text)
    /\ findOne sender (users s) = Some us
    /\ findOne recipient (users s) = Some ur
    /\ mid = nextId s /\ ts = tMessage
    /\ s' = mkStore
              (findOneAndUpdate (hasId recipient) (setLastActive tTouch) (users s))
              (messages s
               ++ [mkMessage (nextId s) sender recipient (trim text) tMessage false
                     (Some fp)])
              (S (nextId s)).
Proof.
  unfold sendMessage.
  destruct (truthy (bodySenderId rq)) as [sender|] eqn:Es; [|discriminate].
  destruct (truthy (bodyRecipientId rq)) as [recipient|] eqn:Er; [|discriminate].
  destruct (truthy (bodyContent rq)) as [text|] eqn:Ec; [|discriminate].
  destruct (isValidId sender) eqn:Vs; [|discriminate].
  destruct (isValidId recipient) eqn:Vr; [|discriminate]. cbn [negb orb].
  destruct (String.eqb_spec sender recipient); [discriminate|].
  destruct (validateMessage text) as [v|] eqn:Ev; [|discriminate].
  destruct (findOne sender (users s)) as [us|] eqn:Fs; [|discriminate].
  destruct (findOne recipient (users s)) as [ur|] eqn:Fr; [|discriminate].
  pose proof (validateMessage_Valid _ _ Ev) as (-> & _).
  unfold saveMessage. rewrite trim_idempotent.
  destruct (_ && _); [|discriminate].
  unfold withUsers. cbn [users messages nextId _id timestamp]. intros [= <- <- <-].
  apply truthy_Some in Es, Er, Ec.
  exists sender, recipient, text.
  eexists. exists us, ur. repeat split; try assumption; reflexivity.
Qed.

Lemma valid_code_truthy c :
  isValidId c = true -> truthyJ (JStr c) = true /\ truthyJ (JNum c) = true.
Proof.
  destruct c as [|a [|b r]]; try discriminate. intros _. split; [reflexivity|].
  cbn. now destruct (Ascii.eqb a "0").
Qed.

Lemma code_value v c :
  v = JStr c \/ v = JNum c ->
  isValidId c = true ->
  truthyValue (Some v) = Some v
  /\ isValidIdOf v = Some true
  /\ castFilter v = Some [c]
  /\ castString v = Some c.
Proof.
  intros Hv Hc. destruct (valid_code_truthy c Hc) as [Hs Hn].
  unfold truthyValue, isValidIdOf.
  destruct Hv as [-> | ->]; cbn [toStringJ option_map castFilter castString];
    rewrite ?Hs, ?Hn, Hc; auto.
Qed.

Lemma saveMessage_validated from to text v fp now s :
  isValidId from = true -> isValidId to = true ->
  validateMessage text = Valid v ->
  saveMessage from to v fp now s
  = Some (mkMessage (nextId s) from to v now false fp,
          mkStore (users s)
            (messages s ++ [mkMessage (nextId s) from to v now false fp])
            (S (nextId s))).
Proof.
  intros Vf Vt Ev. pose proof (validateMessage_Valid _ _ Ev) as (-> & Hlen & _).
  unfold saveMessage. rewrite trim_idempotent.
  unfold isValidId in Vf, Vt. rewrite Vf, Vt. cbn [andb].
  destruct (Nat.eqb_spec (String.length (trim text)) 0); [lia|].
  destruct (Nat.leb_spec (String.length (trim text)) 1000); [|lia].
  reflexivity.
Qed.

(** The store and the reply of a send that passes every check. *)
Lemma sendMessageJson_accepted s tMessage tTouch sender recipient from to text
    fingerprint derived v us ur :
  (sender = JStr from \/ sender = JNum from) ->
  (recipient = JStr to \/ recipient = JNum to) ->
  isValidId from = true ->
  isValidId to = true ->
  strictEq sender recipient = false ->
  validateMessage text = Valid v ->
  findOne from (users s) = Some us ->
  findOne to (users s) = Some ur ->
  (forall f, truthyValue fingerprint = Some f -> isComposite f = false) ->
  sendMessageJson s tMessage tTouch
    (mkSendBody (Some sender) (Some recipient) (Some (JStr text)) fingerprint derived)
  = (mkStore
       (findOneAndUpdate (hasId to) (setLastActive tTouch) (users s))
       (messages s
        ++ [mkMessage (nextId s) from to v tMessage false
              (match truthyValue fingerprint with
               | Some f => castString f
               | None => Some derived
               end)])
       (S (nextId s)),
     Success 201 (Sent (nextId s) tMessage)).
Proof.
  intros Hs Hr Vf Vt Hne Ev Fs Fr Hfp. unfold sendMessageJson.
  cbn [jsonSenderId jsonRecipientId jsonContent jsonFingerprint connectionFingerprint].
  destruct (code_value _ _ Hs Vf) as (-> & -> & -> & ->).
  destruct (code_value _ _ Hr Vt) as (-> & -> & -> & ->).
  assert (truthyValue (Some (JStr text)) = Some (JStr text)) as ->.
  { destruct text; [discriminate Ev|reflexivity]. }
  rewrite Hne. cbn [validateMessageOf]. rewrite Ev, !findOneIn_single, Fs, Fr.
  assert (exists fp, match truthyValue fingerprint with
                     | Some f => castString f
                     | None => Some derived
                     end = Some fp) as [fp Hcast].
  { destruct (truthyValue fingerprint) as [f|] eqn:Ef; [|eauto].
    specialize (Hfp f eq_refl). apply truthyValue_Some in Ef.
    destruct Ef as [_ Ht].
    destruct f as [|b|shown|str|items|members]; try discriminate; cbn; eauto. }
  rewrite Hcast, (saveMessage_validated _ _ _ _ _ _ _ Vf Vt Ev). reflexivity.
Qed.

(** X2. A send succeeds when the two codes are strings or numbers that
    write as six digits and are not strictly equal, both are stored
    identities, the content is a string that [validateMessage] accepts, and
    the fingerprint of the body is absent, falsy, or neither an array nor an
    object: it appends one unread message with the next identifier, the two
    codes as strings, the accepted (trimmed) content and the given or
    derived fingerprint, and touches the recipient. *)
Theorem sendMessageJson_succeeds s tMessage tTouch sender recipient from to text
    fingerprint derived v us ur :
  (sender = JStr from \/ sender = JNum from) ->
  (recipient = JStr to \/ recipient = JNum to) ->
  isValidId from = true ->
  isValidId to = true ->
  strictEq sender recipient = false ->
  validateMessage text = Valid v ->
  findOne from (users s) = Some us ->
  findOne to (users s) = Some ur ->
  (forall f, truthyValue fingerprint = Some f -> isComposite f = false) ->
  sendMessageJson s tMessage tTouch
    (mkSendBody (Some sender) (Some recipient) (Some (JStr text)) fingerprint derived)
  = (mkStore
       (findOneAndUpdate (hasId to) (setLastActive tTouch) (users s))
       (messages s
        ++ [mkMessage (nextId s) from to v tMessage false
              (match truthyValue fingerprint with
               | Some f => castString f
               | None => Some derived
               end)])
       (S (nextId s)),
     Success 201 (Sent (nextId s) tMessage)).
Proof. exact (sendMessageJson_accepted s tMessage tTouch sender recipient from to
               text fingerprint derived v us ur). Qed.

Lemma sendMessageJson_succeeds_witness :
  sendMessageJson inbox 9000 9001
    (mkSendBody (Some (JNum "123456")) (Some (JStr "654321")) (Some (JStr " hi "))
       (Some (JNum "7")) "fp")
  = (mkStore
       (findOneAndUpdate (hasId "654321") (setLastActive 9001) (users inbox))
       (messages inbox
        ++ [mkMessage (nextId inbox) "123456" "654321" "hi" 9000 false
              (match truthyValue (Some (JNum "7")) with
               | Some f => castString f
               | None => Some "fp"
               end)])
       (S (nextId inbox)),
     Success 201 (Sent (nextId inbox) 9000)).
Proof.
  apply (sendMessageJson_succeeds inbox 9000 9001 (JNum "123456") (JStr "654321")
           "123456" "654321" " hi " (Some (JNum "7")) "fp" "hi" alice bob);
    try reflexivity; auto.
  intros f [= <-]. reflexivity.
Defined.

(** X3. A send whose sender and recipient are the same six-digit string, or
    the same number, is refused with INVALID_RECIPIENT, whatever the truthy
    content and whether or not the identity exists. *)
Theorem sendMessageJson_to_self_refused s tMessage tTouch c content fingerprint derived :
  isValidId c = true ->
  truthyJ content = true ->
  sendMessageJson s tMessage tTouch
    (mkSendBody (Some (JStr c)) (Some (JStr c)) (Some content) fingerprint derived)
  = (s, Failure 400 "INVALID_RECIPIENT")
  /\ sendMessageJson s tMessage tTouch
       (mkSendBody (Some (JNum c)) (Some (JNum c)) (Some content) fingerprint derived)
     = (s, Failure 400 "INVALID_RECIPIENT").
Proof.
  intros Vc Ht. unfold sendMessageJson.
  cbn [jsonSenderId jsonRecipientId jsonContent].
  destruct (code_value (JStr c) c (or_introl eq_refl) Vc) as (-> & -> & _).
  destruct (code_value (JNum c) c (or_intror eq_refl) Vc) as (-> & -> & _).
  unfold truthyValue. rewrite Ht. cbn [strictEq]. now rewrite String.eqb_refl.
Qed.

Lemma sendMessageJson_to_self_refused_witness :
  sendMessageJson emptyStore 1 2
    (mkSendBody (Some (JStr "123456")) (Some (JStr "123456")) (Some (JStr "hello"))
       None "fp")
  = (emptyStore, Failure 400 "INVALID_RECIPIENT")
  /\ sendMessageJson emptyStore 1 2
       (mkSendBody (Some (JNum "123456")) (Some (JNum "123456")) (Some (JStr "hello"))
          None "fp")
     = (emptyStore, Failure 400 "INVALID_RECIPIENT").
Proof.
  apply sendMessageJson_to_self_refused; reflexivity.
Defined.

(** X28. The comparison of the route does not stop an identity from writing
    to itself: when the same six-digit code is given once as a number and
    once as a string, [===] tells them apart, the schema casts both to the
    same string, and the message is stored with equal sender and recipient
    codes. *)
Theorem sendMessageJson_self_by_number s tMessage tTouch c text fingerprint derived v u :
  isValidId c = true ->
  validateMessage text = Valid v ->
  findOne c (users s) = Some u ->
  (forall f, truthyValue fingerprint = Some f -> isComposite f = false) ->
  exists s' m,
    sendMessageJson s tMessage tTouch
      (mkSendBody (Some (JNum c)) (Some (JStr c)) (Some (JStr text)) fingerprint derived)
    = (s', Success 201 (Sent (nextId s) tMessage))
    /\ messages s' = messages s ++ [m]
    /\ senderId m = c /\ recipientId m = c /\ content m = v
    /\ findOne c (users s') = Some (setLastActive tTouch u).
Proof.
  intros Vc Ev Fu Hfp.
  do 2 eexists. split.
  - apply (sendMessageJson_accepted s tMessage tTouch (JNum c) (JStr c) c c text
             fingerprint derived v u u); auto.
  - cbn [messages users senderId recipientId content].
    repeat split. now apply findOne_update.
Qed.

Lemma sendMessageJson_self_by_number_witness :
  exists s' m,
    sendMessageJson inbox 9000 9001
      (mkSendBody (Some (JNum "654321")) (Some (JStr "654321")) (Some (JStr "to me"))
         None "fp")
    = (s', Success 201 (Sent (nextId inbox) 9000))
    /\ messages s' = messages inbox ++ [m]
    /\ senderId m = "654321" /\ recipientId m = "654321" /\ content m = "to me"
    /\ findOne "654321" (users s') = Some (setLastActive 9001 bob).
Proof.
  apply (sendMessageJson_self_by_number inbox 9000 9001 "654321" "to me" None "fp"
           "to me" bob); try reflexivity.
  intros f [=].
Defined.

(** A value that the pattern of [isValidId] accepts and the schema does not
    cast is an array. *)
Lemma uncastable_code v a :
  toStringJ v = Some a -> isValidId a = true -> castString v = None ->
  exists items, v = JArr items.
Proof.
  destruct v as [|b|shown|str|items|members]; simpl; try discriminate; eauto.
  - intros [= <-]. discriminate.
  - destruct (hasOwn "toString" members); [discriminate|].
    intros [= <-]. discriminate.
Qed.

(** X4. The schema refuses only what the checks of the route cannot see: a
    send is answered VALIDATION_ERROR only when the sender or the recipient
    of the body is an array, or its fingerprint is an array or an object. *)
Theorem sendMessageJson_validation_error s tMessage tTouch rq :
  snd (sendMessageJson s tMessage tTouch rq) = Failure 400 "VALIDATION_ERROR" ->
  (exists items, jsonSenderId rq = Some (JArr items))
  \/ (exists items, jsonRecipientId rq = Some (JArr items))
  \/ (exists f, jsonFingerprint rq = Some f /\ isComposite f = true).
Proof.
  unfold sendMessageJson, isValidIdOf.
  destruct (truthyValue (jsonSenderId rq)) as [sender|] eqn:Es; [|discriminate].
  destruct (truthyValue (jsonRecipientId rq)) as [recipient|] eqn:Er; [|discriminate].
  destruct (truthyValue (jsonContent rq)) as [content|] eqn:Ec; [|discriminate].
  destruct (toStringJ sender) as [a|] eqn:Ta; cbn [option_map]; [|discriminate].
  destruct (isValidId a) eqn:Va; [|discriminate].
  destruct (toStringJ recipient) as [b|] eqn:Tb; cbn [option_map]; [|discriminate].
  destruct (isValidId b) eqn:Vb; [|discriminate].
  destruct (strictEq sender recipient); [discriminate|].
  destruct (validateMessageOf content) as [v|] eqn:Ev; [|discriminate].
  destruct (castFilter sender) as [senders|]; [|discriminate].
  destruct (castFilter recipient) as [recipients|]; [|discriminate].
  destruct (findOneIn senders (users s)); [|discriminate].
  destruct (findOneIn recipients (users s)); [|discriminate].
  apply truthyValue_Some in Es, Er. destruct Es as [Es _], Er as [Er _].
  destruct (castString sender) as [from|] eqn:Cs.
  - destruct (castString recipient) as [to|] eqn:Cr.
    + destruct (valid_code_shape _ _ _ Ta Va Cs) as (-> & _ & _).
      destruct (valid_code_shape _ _ _ Tb Vb Cr) as (-> & _ & _).
      destruct (truthyValue (jsonFingerprint rq)) as [f|] eqn:Ef.
      * apply truthyValue_Some in Ef. destruct Ef as [Ef Ht].
        destruct (castString f) as [fp|] eqn:Cf.
        -- destruct content as [| | |text| |]; try discriminate Ev.
           cbn [validateMessageOf] in Ev.
           rewrite (saveMessage_validated _ _ _ _ _ _ _ Va Vb Ev). discriminate.
        -- intros _. right. right. exists f. split; [assumption|].
           destruct f; try discriminate; reflexivity.
      * destruct content as [| | |text| |]; try discriminate Ev.
        cbn [validateMessageOf] in Ev.
        rewrite (saveMessage_validated _ _ _ _ _ _ _ Va Vb Ev). discriminate.
    + intros _. right. left.
      destruct (uncastable_code _ _ Tb Vb Cr) as [items ->]. eauto.
  - intros _. left. destruct (uncastable_code _ _ Ta Va Cs) as [items ->]. eauto.
Qed.

Lemma sendMessageJson_validation_error_witness :
  let rq := mkSendBody (Some (JStr "123456")) (Some (JStr "654321"))
              (Some (JStr "hi")) (Some (JObj [])) "fp" in
  (exists items, jsonSenderId rq = Some (JArr items))
  \/ (exists items, jsonRecipientId rq = Some (JArr items))
  \/ (exists f, jsonFingerprint rq = Some f /\ isComposite f = true).
Proof.
  exact (sendMessageJson_validation_error inbox 9000 9001
           (mkSendBody (Some (JStr "123456")) (Some (JStr "654321"))
              (Some (JStr "hi")) (Some (JObj [])) "fp") eq_refl).
Defined.

(** An object as fingerprint passes every check of the route and is refused
    by the schema; nothing is stored. *)
Example sendMessageJson_object_fingerprint :
  sendMessageJson inbox 9000 9001
    (mkSendBody (Some (JStr "123456")) (Some (JStr "654321")) (Some (JStr "hi"))
       (Some (JObj [])) "fp")
  = (inbox, Failure 400 "VALIDATION_ERROR").
Proof. reflexivity. Qed.

(** ** A refusal changes nothing *)

Ltac split_route :=
  repeat match goal with
         | |- context [match ?x with _ => _ end] => destruct x eqn:?
         end;
  cbn [fst snd]; try discriminate; try reflexivity.

(** X1. The routes write only after their last refusal: whenever one of
    them answers with a failure other than the 500 of its [catch] block, the
    store it leaves is the store it found. *)
Theorem refusal_changes_nothing s st c :
  st <> 500 ->
  (forall now rand,
      snd (generateId s now rand) = Failure st c -> fst (generateId s now rand) = s)
  /\ (forall tMessage tTouch rq,
      snd (sendMessageJson s tMessage tTouch rq) = Failure st c ->
      fst (sendMessageJson s tMessage tTouch rq) = s)
  /\ (forall now r q,
      snd (getMessages s now r q) = Failure st c -> fst (getMessages s now r q) = s)
  /\ (forall userId ids,
      snd (markRead s userId ids) = Failure st c -> fst (markRead s userId ids) = s)
  /\ (forall now userId b,
      snd (deleteUser s now userId b) = Failure st c ->
      fst (deleteUser s now userId b) = s)
  /\ (forall now userId,
      snd (heartbeat s now userId) = Failure st c -> fst (heartbeat s now userId) = s)
  /\ (forall now i,
      snd (customId s now i) = Failure st c -> fst (customId s now i) = s).
Proof.
  intros _. repeat split; intros.
  - revert H. unfold generateId. split_route.
  - destruct (sendMessageJson_cases s tMessage tTouch rq)
      as [E|(s' & mid & ts & E)]; [assumption|].
    rewrite E in H. discriminate.
  - revert H. unfold getMessages. split_route.
  - revert H. unfold markRead. split_route.
  - revert H. unfold deleteUser. split_route.
  - revert H. unfold heartbeat. split_route.
  - revert H. unfold customId. split_route.
Qed.

Lemma refusal_changes_nothing_witness :
  snd (heartbeat inbox 7000 "000000") = Failure 404 "USER_NOT_FOUND"
  /\ fst (heartbeat inbox 7000 "000000") = inbox.
Proof.
  split; [reflexivity|].
  apply (proj1 (proj2 (proj2 (proj2 (proj2 (proj2
           (refusal_changes_nothing inbox 404 "USER_NOT_FOUND" ltac:(discriminate)))))))
           7000 "000000" eq_refl).
Defined.

(** ** A message sent is a message received, once *)

Lemma filter_foreign_inbox r b ms :
  (forall m, In m ms -> recipientId m <> r) -> filter (inboxQuery r b) ms = [].
Proof.
  intros H. apply filter_none. intros m Hm. unfold inboxQuery.
  destruct (String.eqb_spec (recipientId m) r); [|reflexivity].
  now apply H in Hm.
Qed.

Lemma deleteMany_fresh_id s m :
  freshNextId s -> _id m = nextId s ->
  deleteMany (idIn [_id m]) (messages s ++ [m]) = messages s.
Proof.
  intros Hf Hid. unfold deleteMany. rewrite filter_app.
  rewrite filter_all.
  - cbn [filter idIn existsb]. rewrite Nat.eqb_refl. cbn. apply app_nil_r.
  - intros x Hx. apply Hf in Hx. cbn [idIn existsb].
    destruct (Nat.eqb_spec (_id x) (_id m)); [lia|reflexivity].
Qed.

(** What the default query returns from an inbox that holds one message. *)
Lemma getMessages_single s now r u m :
  validateUserId r = true ->
  findOne r (users s) = Some u ->
  filter (inboxQuery r false) (messages s) = [m] ->
  getMessages s now r (mkQuery None None None)
  = (mkStore (findOneAndUpdate (hasId r) (setLastActive now) (users s))
       (deleteMany (idIn [_id m]) (messages s)) (nextId s),
     Success 200
       (Received [stripFingerprint m]
          (mkPagination (Some 1) (Some 0) 0 false (Some 20))
          (Some (countDocuments (inboxQuery r true)
                   (deleteMany (idIn [_id m]) (messages s))))
          1)).
Proof.
  intros Hv Hu Hf.
  rewrite (getMessages_ok s now r (mkQuery None None None) u 1 20 Hv Hu
             eq_refl eq_refl ltac:(lia)).
  cbv zeta. unfold selectPage, countDocuments.
  change (unreadOnly (mkQuery None None None)) with false.
  rewrite Hf. reflexivity.
Qed.

(** What the default query returns from an empty inbox. *)
Lemma getMessages_none s now r u :
  validateUserId r = true ->
  findOne r (users s) = Some u ->
  filter (inboxQuery r false) (messages s) = [] ->
  getMessages s now r (mkQuery None None None)
  = (mkStore (findOneAndUpdate (hasId r) (setLastActive now) (users s))
       (messages s) (nextId s),
     Success 200
       (Received [] (mkPagination (Some 1) (Some 0) 0 false (Some 20))
          (Some (countDocuments (inboxQuery r true) (messages s))) 0)).
Proof.
  intros Hv Hu Hf.
  rewrite (getMessages_ok s now r (mkQuery None None None) u 1 20 Hv Hu
             eq_refl eq_refl ltac:(lia)).
  cbv zeta. unfold selectPage, countDocuments.
  change (unreadOnly (mkQuery None None None)) with false.
  rewrite Hf.
  change (applyLimit 20 (skipn (Z.to_nat ((1 - 1) * 20)) (sortNewestFirst [])))
    with (@nil Message).
  cbn [map].
  assert (deleteMany (idIn []) (messages s) = messages s) as ->
      by (unfold deleteMany; now apply filter_all).
  reflexivity.
Qed.

Lemma filter_unread_subset r ms :
  filter (inboxQuery r false) ms = [] -> filter (inboxQuery r true) ms = [].
Proof.
  intros H. apply filter_none. intros m Hm.
  destruct (inboxQuery r true m) eqn:E; [|reflexivity].
  assert (In m (filter (inboxQuery r false) ms)) as Hin.
  { apply filter_In. split; [assumption|]. unfold inboxQuery in *.
    apply andb_true_iff in E. now rewrite (proj1 E). }
  rewrite H in Hin. contradiction.
Qed.

(** X5. Send, receive, receive.  After a successful send to a recipient
    whose inbox was empty, the recipient's next default fetch returns exactly
    that message (without its fingerprint) with [deletedCount = 1] and
    nothing left to page, the messages in the store are again those from
    before the send, and a further fetch returns no message. *)
Theorem send_receive_once s tMessage tTouch rq s1 mid ts r now now' :
  freshNextId s ->
  sendMessage s tMessage tTouch rq = (s1, Success 201 (Sent mid ts)) ->
  bodyRecipientId rq = Some r ->
  (forall m, In m (messages s) -> recipientId m <> r) ->
  exists sender text s2 s3,
    bodySenderId rq = Some sender
    /\ bodyContent rq = Some text
    /\ getMessages s1 now r (mkQuery None None None)
       = (s2, Success 200
                (Received [mkMessage mid sender r (trim text) ts false None]
                   (mkPagination (Some 1) (Some 0) 0 false (Some 20)) (Some 0) 1))
    /\ messages s2 = messages s
    /\ getMessages s2 now' r (mkQuery None None None)
       = (s3, Success 200
                (Received [] (mkPagination (Some 1) (Some 0) 0 false (Some 20))
                   (Some 0) 0))
    /\ messages s3 = messages s.
Proof.
  intros Hfresh Hsend Hr Hempty.
  destruct (sendMessage_inv _ _ _ _ _ _ _ Hsend)
    as (sender & recipient & text & fp & us & ur & Hs & Hr' & Hc & Vs & Vr & Hne
        & Hv & Fs & Fr & -> & -> & ->).
  rewrite Hr in Hr'. injection Hr' as <-.
  assert (Hval : validateUserId r = true) by now rewrite validateUserId_isValidId.
  set (m := mkMessage (nextId s) sender r (trim text) tMessage false (Some fp)).
  set (s1 := mkStore _ (messages s ++ [m]) _).
  assert (Hu1 : findOne r (users s1) = Some (setLastActive tTouch ur))
    by now apply findOne_update.
  assert (Hf1 : filter (inboxQuery r false) (messages s1) = [m]).
  { assert (inboxQuery r false m = true) as Hm
        by (unfold inboxQuery, m; cbn [recipientId]; now rewrite String.eqb_refl).
    unfold s1. cbn [messages].
    rewrite filter_app, (filter_foreign_inbox _ _ _ Hempty).
    cbn [filter app]. now rewrite Hm. }
  pose proof (getMessages_single s1 now r _ m Hval Hu1 Hf1) as G1.
  assert (Hdel : deleteMany (idIn [_id m]) (messages s1) = messages s)
    by now apply deleteMany_fresh_id.
  rewrite Hdel in G1.
  assert (Hf0 : filter (inboxQuery r false) (messages s) = [])
    by now apply filter_foreign_inbox.
  assert (Hunread : countDocuments (inboxQuery r true) (messages s) = 0).
  { unfold countDocuments. now rewrite (filter_unread_subset _ _ Hf0). }
  rewrite Hunread in G1.
  match type of G1 with _ = (?a, _) => set (s2 := a) in * end.
  assert (Hu2 : findOne r (users s2) = Some (setLastActive now (setLastActive tTouch ur)))
    by now apply findOne_update.
  pose proof (getMessages_none s2 now' r _ Hval Hu2 Hf0) as G2.
  cbn [messages s2] in G2. rewrite Hunread in G2.
  exists sender, text, s2. eexists.
  split; [exact Hs|]. split; [exact Hc|]. split; [exact G1|].
  split; [reflexivity|]. split; [exact G2|]. reflexivity.
Qed.

Lemma send_receive_once_witness :
  exists sender text s2 s3,
    Some "654321" = Some sender
    /\ Some " hi " = Some text
    /\ getMessages
         (fst (sendMessage (mkStore [alice; bob] [] 0) 10 11
                 (mkSendRequest (Some "654321") (Some "123456") (Some " hi ") None "fp")))
         20 "123456" (mkQuery None None None)
       = (s2, Success 200
                (Received [mkMessage 0 sender "123456" (trim text) 10 false None]
                   (mkPagination (Some 1) (Some 0) 0 false (Some 20)) (Some 0) 1))
    /\ messages s2 = []
    /\ getMessages s2 30 "123456" (mkQuery None None None)
       = (s3, Success 200
                (Received [] (mkPagination (Some 1) (Some 0) 0 false (Some 20))
                   (Some 0) 0))
    /\ messages s3 = [].
Proof.
  apply (send_receive_once (mkStore [alice; bob] [] 0) 10 11
           (mkSendRequest (Some "654321") (Some "123456") (Some " hi ") None "fp")
           _ 0%nat 10 "123456" 20 30).
  - intros m [].
  - reflexivity.
  - reflexivity.
  - intros m [].
Defined.

(** ** What [validateMessage] refuses *)

Lemma countPrefix_replicate n c b : (n <= countPrefix c (replicate n c ++ b))%nat.
Proof.
  induction n as [|n IH]; simpl; [lia|]. rewrite Ascii.eqb_refl. lia.
Qed.

Lemma repeatedChars_app a s : repeatedChars s = true -> repeatedChars (a ++ s) = true.
Proof.
  intros H. induction a as [|c a IH]; simpl; [assumption|].
  rewrite IH. apply orb_true_r.
Qed.

Lemma stripPrefixCI_app p : forall u rest,
  lowerString u = p -> stripPrefixCI p (u ++ rest) = Some rest.
Proof.
  induction p as [|a p IH]; intros [|b u] rest; simpl; try discriminate.
  - intros _. now destruct rest.
  - intros [= <- H]. rewrite Ascii.eqb_refl. now apply IH.
Qed.

Lemma containsUrl_app a s : containsUrl s = true -> containsUrl (a ++ s) = true.
Proof.
  intros H. induction a as [|c a IH]; [assumption|].
  change (containsUrl (String c a ++ s))
    with (urlAt (String c (a ++ s)) || containsUrl (a ++ s)).
  rewrite IH. apply orb_true_r.
Qed.

Lemma containsUrl_here s : urlAt s = true -> containsUrl s = true.
Proof.
  intros H. destruct s as [|c r];
    [change (urlAt EmptyString || false = true)
    |change (urlAt (String c r) || containsUrl r = true)];
    now rewrite H.
Qed.

Lemma validateMessage_spam content :
  repeatedChars (trim content) || containsUrl (trim content) = true ->
  exists e, validateMessage content = Invalid e.
Proof.
  intros H. unfold validateMessage.
  destruct (Nat.eqb _ 0); [eauto|]. destruct (Nat.eqb _ 0); [eauto|].
  destruct (_ <? _)%nat; [eauto|]. rewrite H. eauto.
Qed.

(** X6. A content in which some character other than a line break stands
    eleven times in a row (after the outer white space is trimmed) is never
    accepted, wherever the run is. *)
Theorem validateMessage_rejects_runs content a c b :
  trim content = (a ++ replicate 11 c ++ b)%string ->
  isLineTerminator c = false ->
  exists e, validateMessage content = Invalid e.
Proof.
  intros Ht Hc. apply validateMessage_spam. rewrite Ht.
  rewrite repeatedChars_app; [reflexivity|].
  change (replicate 11 c ++ b)%string with (String c (replicate 10 c ++ b)).
  cbn [repeatedChars]. rewrite Hc. cbn [negb andb].
  pose proof (countPrefix_replicate 10 c b) as H.
  destruct (Nat.leb_spec 10 (countPrefix c (replicate 10 c ++ b))); [reflexivity|lia].
Qed.

Lemma validateMessage_rejects_runs_witness :
  exists e, validateMessage "  so looooooooooong " = Invalid e.
Proof.
  apply (validateMessage_rejects_runs "  so looooooooooong " "so l" "o" "ng");
    reflexivity.
Defined.

(** X7. A content that holds [http://] or [https://], in any mix of letter
    case, followed by a character that is not white space, is never
    accepted, wherever the link is. *)
Theorem validateMessage_rejects_links content a scheme c b :
  trim content = (a ++ scheme ++ String c b)%string ->
  lowerString scheme = "http://" \/ lowerString scheme = "https://" ->
  isWhiteSpace c = false ->
  exists e, validateMessage content = Invalid e.
Proof.
  intros Ht Hs Hc. apply validateMessage_spam. rewrite Ht.
  rewrite containsUrl_app; [apply orb_true_r|].
  apply containsUrl_here. unfold urlAt.
  destruct Hs as [Hs|Hs].
  - rewrite (stripPrefixCI_app "http://" scheme _ Hs), Hc. apply orb_true_r.
  - rewrite (stripPrefixCI_app "https://" scheme _ Hs), Hc. reflexivity.
Qed.

Lemma validateMessage_rejects_links_witness :
  exists e, validateMessage "see HtTpS://x.org now" = Invalid e.
Proof.
  apply (validateMessage_rejects_links "see HtTpS://x.org now" "see " "HtTpS://"
           "x" ".org now"); [reflexivity|right; reflexivity|reflexivity].
Defined.

(** ** Pagination helpers *)

(** X8. For a page parameter that is absent, not a number, or an integer of
    at most [2^47] in magnitude, so that every number of the helper is an
    exact binary64 integer, [parsePagination] yields a usable window: a page
    of at least 1, a limit from 1 to 50, and the skip [(page - 1) * limit],
    which is never negative; absent parameters give page 1 and limit 20, a
    page number from 1 on is kept, a limit from 1 to 50 is kept and a larger
    one becomes 50. *)
Theorem parsePagination_window page limit :
  (forall str n, page = Some str -> parseInt str = Some n -> Z.abs n <= 2 ^ 47) ->
  let '(p, l, sk) := parsePagination page limit in
  1 <= p /\ 1 <= l <= 50 /\ sk = (p - 1) * l /\ 0 <= sk
  /\ (page = None -> p = 1)
  /\ (limit = None -> l = 20)
  /\ (forall str n, page = Some str -> parseInt str = Some n -> 1 <= n -> p = n)
  /\ (forall str n, limit = Some str -> parseInt str = Some n ->
        (1 <= n <= 50 -> l = n) /\ (50 < n -> l = 50)).
Proof.
  intros _. unfold parsePagination. cbv zeta.
  set (pn := match page with Some s => parseInt s | None => None end).
  set (ln := match limit with Some s => parseInt s | None => None end).
  repeat split; try lia; try nia.
  - intros ->. reflexivity.
  - intros ->. reflexivity.
  - intros str n -> Hn Hle. subst pn. rewrite Hn. unfold orDefault.
    destruct (Z.eqb_spec n 0); lia.
  - intros Hle. subst ln. rewrite H, H0. unfold orDefault.
    destruct (Z.eqb_spec n 0); lia.
  - intros Hle. subst ln. rewrite H, H0. unfold orDefault.
    destruct (Z.eqb_spec n 0); lia.
Qed.

Lemma parsePagination_window_witness :
  let '(p, l, sk) := parsePagination (Some "3") (Some "80") in
  1 <= p /\ 1 <= l <= 50 /\ sk = (p - 1) * l /\ 0 <= sk
  /\ (Some "3" = None -> p = 1)
  /\ (Some "80" = None -> l = 20)
  /\ (forall str n, Some "3" = Some str -> parseInt str = Some n -> 1 <= n -> p = n)
  /\ (forall str n, Some "80" = Some str -> parseInt str = Some n ->
        (1 <= n <= 50 -> l = n) /\ (50 < n -> l = 50)).
Proof.
  apply (parsePagination_window (Some "3") (Some "80")).
  intros str n [= <-] [= <-]. vm_compute. discriminate.
Defined.

(** X9. For a positive limit and a total that is not negative,
    [getPaginationMeta] reports the least number of pages that hold the
    total, a next page exactly when items lie beyond the current page, and a
    previous page exactly when the page is past the first. *)
Theorem getPaginationMeta_pages page limit total :
  0 < limit -> 0 <= total ->
  exists pages,
    metaTotalPages (getPaginationMeta page limit total) = Some pages
    /\ (pages - 1) * limit < total <= pages * limit
    /\ (hasNextPage (getPaginationMeta page limit total) = true
        <-> page * limit < total)
    /\ (hasPrevPage (getPaginationMeta page limit total) = true <-> 1 < page).
Proof.
  intros Hl Ht. unfold getPaginationMeta. cbv zeta.
  cbn [metaTotalPages hasNextPage hasPrevPage].
  destruct (ceilDiv total limit) as [pages|] eqn:E.
  - pose proof (ceilDiv_spec _ _ _ Hl E) as Hb.
    exists pages. split; [reflexivity|]. split; [assumption|].
    rewrite !Z.ltb_lt. split; [|reflexivity]. split; intros H; nia.
  - unfold ceilDiv in E. destruct (Z.eqb_spec limit 0); [lia|discriminate].
Qed.

Lemma getPaginationMeta_pages_witness :
  exists pages,
    metaTotalPages (getPaginationMeta 2 20 45) = Some pages
    /\ (pages - 1) * 20 < 45 <= pages * 20
    /\ (hasNextPage (getPaginationMeta 2 20 45) = true <-> 2 * 20 < 45)
    /\ (hasPrevPage (getPaginationMeta 2 20 45) = true <-> 1 < 2).
Proof. apply (getPaginationMeta_pages 2 20 45); lia. Defined.

(** ** What a fetch hands out, and what it leaves *)

Lemma newestFirst_skipn n : forall l, newestFirst l -> newestFirst (skipn n l).
Proof.
  induction n as [|n IH]; intros [|m l]; simpl; auto.
  intros [_ H]. now apply IH.
Qed.

Lemma newestFirst_firstn n : forall l, newestFirst l -> newestFirst (firstn n l).
Proof.
  induction n as [|n IH]; intros [|m l]; simpl; auto.
  intros [Hm H]. split; [|now apply IH].
  intros x Hx. apply Hm. now apply firstn_incl in Hx.
Qed.

Lemma newestFirst_strip l : newestFirst l -> newestFirst (map stripFingerprint l).
Proof.
  induction l as [|m l IH]; simpl; [auto|].
  intros [Hm H]. split; [|auto].
  intros x Hx. apply in_map_iff in Hx. destruct Hx as (y & <- & Hy).
  exact (Hm y Hy).
Qed.

Lemma selectPage_incl r q p l ms m :
  In m (selectPage r q p l ms) ->
  In m ms /\ inboxQuery r (unreadOnly q) m = true.
Proof.
  unfold selectPage, applyLimit. intros Hin.
  assert (In m (filter (inboxQuery r (unreadOnly q)) ms)) as H.
  { destruct (l =? 0); [|apply firstn_incl in Hin]; apply skipn_incl in Hin;
      now apply (Permutation_in _ (Permutation_sym (sortNewestFirst_perm _))) in Hin. }
  now apply filter_In in H.
Qed.

(** X10. The messages of a successful fetch carry no fingerprint, are all
    addressed to the recipient, are all unread when only unread ones were
    asked for, come newest first, and are as many as [deletedCount] says. *)
Theorem getMessages_page_shape s now r q s1 msgs pg uc dc :
  getMessages s now r q = (s1, Success 200 (Received msgs pg uc dc)) ->
  (forall m, In m msgs ->
     senderFingerprint m = None /\ recipientId m = r
     /\ (unreadOnly q = true -> isRead m = false))
  /\ newestFirst msgs
  /\ dc = Z.of_nat (List.length msgs).
Proof.
  intros E.
  destruct (getMessages_inv _ _ _ _ _ _ _ _ _ _ E) as (u & p & l & Hv & Hu & Hp & Hl & Hsk).
  rewrite (getMessages_ok _ _ _ _ _ _ _ Hv Hu Hp Hl Hsk) in E.
  cbv zeta in E. injection E as _ <- _ _ <-.
  split; [|split; [|reflexivity]].
  - intros m Hm. apply in_map_iff in Hm. destruct Hm as (m0 & <- & Hm0).
    apply selectPage_incl in Hm0. destruct Hm0 as [_ Hq].
    unfold inboxQuery in Hq. apply andb_true_iff in Hq. destruct Hq as [Hr Hread].
    apply String.eqb_eq in Hr. cbn [senderFingerprint recipientId isRead stripFingerprint].
    repeat split; [assumption|]. intros Hun. rewrite Hun in Hread.
    now apply negb_true_iff.
  - apply newestFirst_strip. unfold selectPage, applyLimit.
    destruct (l =? 0); [|apply newestFirst_firstn]; apply newestFirst_skipn;
      apply sortNewestFirst_sorted.
Qed.

Lemma getMessages_page_shape_witness :
  exists s1 msgs pg uc dc,
    getMessages inbox 9000 "654321" firstTwo
      = (s1, Success 200 (Received msgs pg uc dc))
    /\ (forall m, In m msgs ->
          senderFingerprint m = None /\ recipientId m = "654321"
          /\ (unreadOnly firstTwo = true -> isRead m = false))
    /\ newestFirst msgs
    /\ dc = Z.of_nat (List.length msgs).
Proof.
  do 5 eexists. split; [vm_compute; reflexivity|].
  eapply (getMessages_page_shape inbox 9000 "654321" firstTwo).
  vm_compute. reflexivity.
Defined.

(** X11. A successful fetch deletes the messages it delivered and nothing
    else: with unique message identifiers, a message is in the store
    afterwards exactly when it was there before and is not among the
    delivered ones, so other inboxes are untouched.  Of the identities only
    the recipient changes, and only in [lastActive]. *)
Theorem getMessages_frame s now r q s1 msgs pg uc dc :
  uniqueMessageIds s ->
  getMessages s now r q = (s1, Success 200 (Received msgs pg uc dc)) ->
  (forall m, In m (messages s1)
             <-> In m (messages s) /\ ~ In (stripFingerprint m) msgs)
  /\ (forall m, In m (messages s) -> recipientId m <> r -> In m (messages s1))
  /\ nextId s1 = nextId s
  /\ Forall2
       (fun old new =>
          (id old <> r -> new = old)
          /\ (new = old \/ new = setLastActive now old))
       (users s) (users s1).
Proof.
  intros Hnd E.
  destruct (getMessages_inv _ _ _ _ _ _ _ _ _ _ E) as (u & p & l & Hv & Hu & Hp & Hl & Hsk).
  rewrite (getMessages_ok _ _ _ _ _ _ _ Hv Hu Hp Hl Hsk) in E.
  cbv zeta in E. injection E as <- <- _ _ _.
  cbn [messages users nextId]. rewrite ids_stripFingerprint.
  set (page := selectPage r q p l (messages s)).
  assert (Hkey : forall m, In m (messages s) ->
            (In (_id m) (map _id page) <-> In (stripFingerprint m) (map stripFingerprint page))).
  { intros m Hm. split; intros H; apply in_map_iff in H; destruct H as (m' & Heq & Hin).
    - assert (m' = m).
      { apply (NoDup_map_injective _id (messages s)); try assumption.
        now apply selectPage_incl in Hin. }
      subst. now apply in_map.
    - apply in_map_iff. exists m'. split; [|assumption].
      change (_id m') with (_id (stripFingerprint m')). now rewrite Heq. }
  assert (Hiff : forall m, In m (deleteMany (idIn (map _id page)) (messages s))
            <-> In m (messages s) /\ ~ In (stripFingerprint m) (map stripFingerprint page)).
  { intros m. rewrite deleteMany_In. split; intros [Hm H]; split; try assumption.
    - rewrite <- (Hkey m Hm). intros Hin. apply idIn_spec in Hin. congruence.
    - destruct (idIn (map _id page) m) eqn:F; [|reflexivity].
      apply idIn_spec in F. now apply (Hkey m Hm) in F. }
  split; [exact Hiff|]. split; [|split; [reflexivity|]].
  - intros m Hm Hne. apply Hiff. split; [assumption|].
    intros Hin. apply in_map_iff in Hin. destruct Hin as (m' & Heq & Hin).
    apply selectPage_incl in Hin. destruct Hin as [_ Hq].
    unfold inboxQuery in Hq. apply andb_true_iff in Hq. destruct Hq as [Hr _].
    apply String.eqb_eq in Hr. apply Hne. rewrite <- Hr.
    change (recipientId m) with (recipientId (stripFingerprint m)).
    now rewrite <- Heq.
  - apply findOneAndUpdate_pointwise.
    + intros x. auto.
    + intros x Hx. apply hasId_spec in Hx. split; [contradiction|now right].
Qed.

Lemma getMessages_frame_witness :
  exists s1 msgs pg uc dc,
    getMessages inbox 9000 "654321" firstTwo
      = (s1, Success 200 (Received msgs pg uc dc))
    /\ (forall m, In m (messages s1)
                  <-> In m (messages inbox) /\ ~ In (stripFingerprint m) msgs)
    /\ (forall m, In m (messages inbox) -> recipientId m <> "654321" ->
                  In m (messages s1))
    /\ nextId s1 = nextId inbox
    /\ Forall2
         (fun old new =>
            (id old <> "654321" -> new = old)
            /\ (new = old \/ new = setLastActive 9000 old))
         (users inbox) (users s1).
Proof.
  do 5 eexists. split; [vm_compute; reflexivity|].
  eapply (getMessages_frame inbox 9000 "654321" firstTwo);
    [exact inbox_unique | vm_compute; reflexivity].
Defined.

(** ** Marking as read *)

Section UpdateTwice.
Context {A : Type} (p : A -> bool) (f : A -> A).
Hypothesis p_stable : forall x, p (f x) = p x.


Lemma countDocuments_updateMany l :
  countDocuments p (updateMany p f l) = countDocuments p l.
Proof.
  unfold countDocuments, updateMany. f_equal.
  induction l as [|x l IH]; simpl; [reflexivity|].
  destruct (p x) eqn:E; [rewrite p_stable|]; rewrite E; simpl; now rewrite IH.
Qed.

End UpdateTwice.



(** A fetch whose query matches nothing delivers nothing and deletes
    nothing. *)
Lemma getMessages_no_match s now r q u p l :
  validateUserId r = true ->
  findOne r (users s) = Some u ->
  numParam (queryPage q) 1 = Some p ->
  numParam (queryLimit q) 20 = Some l ->
  0 <= (p - 1) * l ->
  filter (inboxQuery r (unreadOnly q)) (messages s) = [] ->
  delivered (snd (getMessages s now r q)) = []
  /\ messages (fst (getMessages s now r q)) = messages s.
Proof.
  intros Hv Hu Hp Hl Hsk Hf.
  rewrite (getMessages_ok _ _ _ _ _ _ _ Hv Hu Hp Hl Hsk). cbv zeta.
  cbn [fst snd delivered messages].
  assert (selectPage r q p l (messages s) = []) as ->.
  { unfold selectPage, applyLimit. rewrite Hf. cbn [sortNewestFirst].
    rewrite skipn_nil. destruct (l =? 0); [reflexivity|apply firstn_nil]. }
  split; [reflexivity|]. unfold deleteMany. now apply filter_all.
Qed.

(** X13. Once an identity has marked everything as read, a fetch of its
    unread messages delivers nothing and deletes nothing, whatever the page
    and the limit, as long as they are numbers with a skip that is not
    negative. *)
Theorem markRead_then_no_unread s userId u now page lim p l :
  validateUserId userId = true ->
  findOne userId (users s) = Some u ->
  numParam page 1 = Some p ->
  numParam lim 20 = Some l ->
  0 <= (p - 1) * l ->
  let s' := fst (markRead s userId None) in
  let q := mkQuery page lim (Some "true") in
  delivered (snd (getMessages s' now userId q)) = []
  /\ messages (fst (getMessages s' now userId q)) = messages s'.
Proof.
  intros Hv Hu Hp Hl Hsk s' q.
  assert (Hs' : s' = withMessages s
                       (updateMany (fun m => String.eqb (recipientId m) userId && true)
                          setRead (messages s))).
  { unfold s', markRead. now rewrite Hv, Hu. }
  apply (getMessages_no_match s' now userId q u p l); try assumption.
  - rewrite Hs'. exact Hu.
  - rewrite Hs'. cbn [messages withMessages]. apply filter_none.
    intros m Hm. unfold updateMany in Hm. apply in_map_iff in Hm.
    destruct Hm as (m0 & <- & _). unfold inboxQuery. cbn [unreadOnly queryUnread q].
    rewrite andb_true_r.
    destruct (String.eqb (recipientId m0) userId) eqn:E.
    + cbn [recipientId setRead isRead]. rewrite E. reflexivity.
    + now rewrite E.
Qed.

Lemma markRead_then_no_unread_witness :
  delivered
    (snd (getMessages (fst (markRead inbox "654321" None)) 9000 "654321"
            (mkQuery None (Some "2") (Some "true")))) = []
  /\ messages
       (fst (getMessages (fst (markRead inbox "654321" None)) 9000 "654321"
               (mkQuery None (Some "2") (Some "true"))))
     = messages (fst (markRead inbox "654321" None)).
Proof.
  apply (markRead_then_no_unread inbox "654321" bob 9000 None (Some "2") 1 2);
    try reflexivity; try lia.
Defined.

(** ** Deleting, at once or by marking *)

Lemma findOne_deleteOne_unique i us :
  NoDup (map id us) -> findOne i (deleteOne (hasId i) us) = None.
Proof.
  intros Hnd. rewrite (deleteOne_unique _ _ Hnd). apply findOne_None.
  intros u Hu Hid. apply filter_In in Hu. destruct Hu as [_ Hu].
  apply hasId_spec in Hid. rewrite Hid in Hu. discriminate.
Qed.

Lemma involves_spec i m :
  involves i m = false <-> senderId m <> i /\ recipientId m <> i.
Proof.
  unfold involves. rewrite orb_false_iff, !String.eqb_neq. reflexivity.
Qed.

(** X14. An immediate deletion of a stored identity, in a store with unique
    codes and with a body that the handler reads and logs without a thrown
    error: the identity is gone, every other identity is kept as it was, the
    messages that are left are exactly those that the identity neither sent
    nor received, and [deletedMessages] counts the others.  The same request
    again is answered as a no-op and changes nothing. *)
Theorem deleteUser_immediate s now now' userId b u :
  uniqueCodes s ->
  validateUserId userId = true ->
  findOne userId (users s) = Some u ->
  fst (deleteOptions b) = true ->
  bodyThrows b = false ->
  exists s',
    deleteUser s now userId b
    = (s', Success 200
             (Deleted userId (countDocuments (involves userId) (messages s)) true
                (snd (deleteOptions b))))
    /\ findOne userId (users s') = None
    /\ users s' = filter (fun x => negb (hasId userId x)) (users s)
    /\ (forall m, In m (messages s')
                  <-> In m (messages s) /\ senderId m <> userId /\ recipientId m <> userId)
    /\ deleteUser s' now' userId b
       = (s', Success 200 (Deleted userId 0 false (snd (deleteOptions b)))).
Proof.
  intros Hnd Hv Hu Himm Hb. unfold deleteUser. rewrite Hv, Hb, Hu. cbn [negb].
  destruct (deleteOptions b) as [immediate reason]. cbn [fst snd] in *. subst.
  eexists. split; [reflexivity|]. cbn [users messages].
  pose proof (findOne_deleteOne_unique userId (users s) Hnd) as Hgone.
  rewrite Hgone.
  split; [reflexivity|]. split; [now apply deleteOne_unique|].
  split; [|reflexivity].
  intros m. rewrite deleteMany_In, involves_spec. reflexivity.
Qed.

Lemma deleteUser_immediate_witness :
  exists s',
    deleteUser inbox 9000 "654321" (JsonBody (Some (JBool true)) None None)
    = (s', Success 200
             (Deleted "654321" (countDocuments (involves "654321") (messages inbox))
                true (snd (deleteOptions (JsonBody (Some (JBool true)) None None)))))
    /\ findOne "654321" (users s') = None
    /\ users s' = filter (fun x => negb (hasId "654321" x)) (users inbox)
    /\ (forall m, In m (messages s')
                  <-> In m (messages inbox)
                      /\ senderId m <> "654321" /\ recipientId m <> "654321")
    /\ deleteUser s' 9001 "654321" (JsonBody (Some (JBool true)) None None)
       = (s', Success 200
                (Deleted "654321" 0 false (snd (deleteOptions (JsonBody (Some (JBool true)) None None))))).
Proof.
  assert (uniqueCodes inbox) as H.
  { unfold uniqueCodes. cbn. repeat constructor; cbn; intuition discriminate. }
  exact (deleteUser_immediate inbox 9000 9001 "654321"
           (JsonBody (Some (JBool true)) None None) bob
           H eq_refl eq_refl eq_refl eq_refl).
Defined.

(** A pass purges the identities that are past grace, and their messages. *)
Lemma cleanup_purges s t1 t2 t3 u :
  uniqueCodes s ->
  In u (users s) ->
  pastGrace (t1 - 2 * 60 * 1000) u = true ->
  findOne (id u) (users (cleanupInactiveUsers s t1 t2 t3)) = None
  /\ forall m, In m (messages (cleanupInactiveUsers s t1 t2 t3)) ->
               senderId m <> id u /\ recipientId m <> id u.
Proof.
  intros Hnd Hu Hg. split.
  - apply findOne_None. intros v Hv Hid.
    rewrite (cleanup_users _ _ _ _ Hnd) in Hv.
    apply in_map_iff in Hv. destruct Hv as (v0 & <- & Hv0).
    apply filter_In in Hv0. destruct Hv0 as [Hv0 Hg0].
    assert (v0 = u).
    { apply (NoDup_map_injective id (users s)); try assumption.
      rewrite <- Hid. now destruct (inactive _ v0). }
    subst. rewrite Hg in Hg0. discriminate.
  - intros m Hm. rewrite cleanup_messages in Hm. apply filter_In in Hm.
    destruct Hm as [_ Hm]. apply negb_true_iff in Hm.
    apply involves_spec.
    destruct (involves (id u) m) eqn:F; [|reflexivity].
    rewrite <- Hm. symmetry. apply existsb_exists. exists (id u).
    split; [|assumption]. apply in_map. apply filter_In. auto.
Qed.

Lemma findOneAndUpdate_In {A : Type} (p : A -> bool) (f : A -> A) l x :
  find p l = Some x -> In (f x) (findOneAndUpdate p f l).
Proof.
  induction l as [|y l IH]; simpl; [discriminate|].
  destruct (p y); [intros [= ->]; now left|intros H; right; auto].
Qed.

(** X15. Marked is marked.  When a stored identity is deleted without
    [immediate] at clock [now], by a request whose body the handler reads and
    logs without a thrown error and whose [reason] the schema casts to a
    string, any later pass of the sweep whose grace deadline [t1 - 2 min]
    lies after [now] purges the identity and every message it sent or
    received; a heartbeat in between does not save it. *)
Theorem soft_delete_then_sweep s now userId b u r beat t1 t2 t3 :
  uniqueCodes s ->
  validateUserId userId = true ->
  findOne userId (users s) = Some u ->
  bodyThrows b = false ->
  fst (deleteOptions b) = false ->
  castString (snd (deleteOptions b)) = Some r ->
  now < t1 - 2 * 60 * 1000 ->
  let marked := fst (deleteUser s now userId b) in
  let revived := fst (heartbeat marked beat userId) in
  (forall swept, swept = cleanupInactiveUsers marked t1 t2 t3
                 \/ swept = cleanupInactiveUsers revived t1 t2 t3 ->
     findOne userId (users swept) = None
     /\ forall m, In m (messages swept) ->
                  senderId m <> userId /\ recipientId m <> userId)
  /\ snd (deleteUser s now userId b)
     = Success 200 (Deleted userId 0 false (snd (deleteOptions b)))
  /\ snd (heartbeat marked beat userId) = Success 200 (Heartbeat userId beat).
Proof.
  intros Hnd Hv Hu Hb Hsoft Hcast Hlate marked revived.
  assert (Hid : id u = userId) by (apply findOne_Some in Hu; tauto).
  assert (Hmarked : marked
            = withUsers s (findOneAndUpdate (hasId userId) (mark now r) (users s))).
  { unfold marked, deleteUser. rewrite Hv, Hb, Hu. cbn [negb].
    destruct (deleteOptions b) as [immediate reason]. cbn [fst snd] in *.
    subst. now rewrite Hcast. }
  set (mu := mark now r u).
  assert (Hmu : findOne userId (users marked) = Some mu)
    by (rewrite Hmarked; now apply findOne_update).
  assert (Hrevived : revived
            = withUsers marked (findOneAndUpdate (hasId userId)
                                  (setLastActive beat) (users marked))).
  { unfold revived, heartbeat. now rewrite Hv, Hmu. }
  assert (Hru : findOne userId (users revived) = Some (setLastActive beat mu))
    by (rewrite Hrevived; now apply findOne_update).
  assert (Hnd1 : uniqueCodes marked).
  { rewrite Hmarked. unfold uniqueCodes. cbn [users withUsers].
    now rewrite map_findOneAndUpdate. }
  assert (Hnd2 : uniqueCodes revived).
  { rewrite Hrevived. unfold uniqueCodes. cbn [users withUsers].
    now rewrite map_findOneAndUpdate. }
  assert (Hg : forall x, pastGrace (t1 - 2 * 60 * 1000) (setLastActive x mu) = true
                         /\ pastGrace (t1 - 2 * 60 * 1000) mu = true).
  { intros x. unfold pastGrace. cbn. split; now apply Z.ltb_lt. }
  split; [|split].
  - intros swept [->| ->].
    + apply findOne_Some in Hmu. destruct Hmu as [Hin Hid'].
      rewrite <- Hid'. apply cleanup_purges; try assumption. apply (Hg 0).
    + apply findOne_Some in Hru. destruct Hru as [Hin Hid'].
      rewrite <- Hid'. apply cleanup_purges; try assumption. apply (Hg beat).
  - unfold deleteUser. rewrite Hv, Hb, Hu. cbn [negb].
    destruct (deleteOptions b) as [immediate reason]. cbn [fst snd] in *.
    subst. now rewrite Hcast.
  - unfold heartbeat. now rewrite Hv, Hmu.
Qed.

Lemma soft_delete_then_sweep_witness :
  let marked := fst (deleteUser inbox 1000 "654321" NoBody) in
  let revived := fst (heartbeat marked 2000 "654321") in
  (forall swept, swept = cleanupInactiveUsers marked 200000 200000 200000
                 \/ swept = cleanupInactiveUsers revived 200000 200000 200000 ->
     findOne "654321" (users swept) = None
     /\ forall m, In m (messages swept) ->
                  senderId m <> "654321" /\ recipientId m <> "654321")
  /\ snd (deleteUser inbox 1000 "654321" NoBody)
     = Success 200 (Deleted "654321" 0 false (snd (deleteOptions NoBody)))
  /\ snd (heartbeat marked 2000 "654321") = Success 200 (Heartbeat "654321" 2000).
Proof.
  assert (uniqueCodes inbox) as H.
  { unfold uniqueCodes. cbn. repeat constructor; cbn; intuition discriminate. }
  apply (soft_delete_then_sweep inbox 1000 "654321" NoBody bob "manual" 2000
           200000 200000 200000 H eq_refl eq_refl eq_refl eq_refl eq_refl). lia.
Defined.

(** ** A second pass at the same clock *)

Lemma cleanup_nextId s t1 t2 t3 :
  nextId (cleanupInactiveUsers s t1 t2 t3) = nextId s.
Proof.
  unfold cleanupInactiveUsers.
  destruct (0 <? _)%nat; cbn [nextId withUsers]; apply purge_all_nextId.
Qed.

Lemma store_eq (a b : Store) :
  users a = users b -> messages a = messages b -> nextId a = nextId b -> a = b.
Proof. destruct a, b; cbn; congruence. Qed.

(** X16. The sweep does not process an identity twice: when the clock of
    the marking is not before the grace deadline of the pass, running the
    pass again with the same readings changes nothing (nothing that the
    first pass marked is purged, nothing is marked again). *)
Theorem sweep_settles s t1 t2 t3 :
  uniqueCodes s ->
  t1 - 2 * 60 * 1000 <= t3 ->
  cleanupInactiveUsers (cleanupInactiveUsers s t1 t2 t3) t1 t2 t3
  = cleanupInactiveUsers s t1 t2 t3.
Proof.
  intros Hnd Hclock.
  set (s' := cleanupInactiveUsers s t1 t2 t3).
  pose proof (cleanup_unique s t1 t2 t3 Hnd) as Hnd'. fold s' in Hnd'.
  set (g := pastGrace (t1 - 2 * 60 * 1000)).
  set (a := inactive (t2 - 15 * 60 * 1000)).
  assert (Hsettled : forall u, In u (users s') -> g u = false /\ a u = false).
  { intros u' Hu'. unfold s' in Hu'. rewrite (cleanup_users _ _ _ _ Hnd) in Hu'.
    apply in_map_iff in Hu'. destruct Hu' as (u & <- & Hu).
    apply filter_In in Hu. destruct Hu as [_ Hg]. apply negb_true_iff in Hg.
    fold g in Hg. fold a.
    destruct (a u) eqn:Ha.
    - split.
      + unfold g, pastGrace. cbn. apply Z.ltb_ge. assumption.
      + unfold a, inactive. cbn. apply andb_false_r.
    - auto. }
  apply store_eq.
  - rewrite (cleanup_users _ _ _ _ Hnd'). fold g a.
    rewrite filter_all by (intros u Hu; apply negb_true_iff; now apply Hsettled).
    rewrite <- (map_id (users s')) at 2. apply map_ext_in.
    intros u Hu. now rewrite (proj2 (Hsettled u Hu)).
  - rewrite cleanup_messages. fold g.
    rewrite (filter_none g (users s')) by (intros u Hu; now apply Hsettled).
    now apply filter_all.
  - apply cleanup_nextId.
Qed.

Lemma sweep_settles_witness :
  cleanupInactiveUsers (cleanupInactiveUsers lobby 1000000 1000000 1000001)
    1000000 1000000 1000001
  = cleanupInactiveUsers lobby 1000000 1000000 1000001.
Proof.
  apply (sweep_settles lobby 1000000 1000000 1000001); [exact lobby_unique|lia].
Defined.

(** ** Reserving and allocating a code *)

Lemma findOne_app_new i us u :
  findOne i us = None -> id u = i -> findOne i (us ++ [u]) = Some u.
Proof.
  unfold findOne. intros Hn Hid. induction us as [|x us IH]; simpl in *.
  - apply hasId_spec in Hid. now rewrite Hid.
  - destruct (hasId i x); [discriminate|auto].
Qed.

Lemma findOne_app_other i us u :
  id u <> i -> findOne i (us ++ [u]) = findOne i us.
Proof.
  unfold findOne. intros Hid. induction us as [|x us IH]; simpl.
  - destruct (hasId i u) eqn:E; [|reflexivity]. apply hasId_spec in E. contradiction.
  - destruct (hasId i x); auto.
Qed.

(** What saving a new identity does, when it does not throw. *)
Lemma saveUser_Some i now s s' :
  saveUser i now s = Some s' ->
  isValidId i = true
  /\ findOne i (users s) = None
  /\ s' = withUsers s (users s ++ [mkUser i now now false None None]).
Proof.
  unfold saveUser, isValidId.
  destruct (Nat.eqb (String.length i) 6 && allChars isDigit i); [|discriminate].
  destruct (findOne i (users s)); [discriminate|].
  cbn [andb]. intros [= <-]. auto.
Qed.

(** Once a well-formed code is stored, the routes find it and refuse to
    store it again. *)
Lemma registered s i u :
  isValidId i = true ->
  findOne i (users s) = Some u ->
  userExists s i = (s, Success 200 (UserExists true i))
  /\ checkId s i = (s, Success 200 (Availability false i))
  /\ (forall now, customId s now i = (s, Failure 409 "ID_TAKEN")).
Proof.
  intros Hv Hu.
  assert (Hg : validateUserId i = true) by now rewrite validateUserId_isValidId.
  unfold userExists, checkId, customId, generateCustomId, isIdAvailable.
  rewrite Hg, Hv, Hu. cbn [negb]. auto.
Qed.

Lemma customId_free s now i :
  isValidId i = true ->
  findOne i (users s) = None ->
  customId s now i
  = (withUsers s (users s ++ [mkUser i now now false None None]),
     Success 200 (GeneratedId i)).
Proof.
  intros Hv Hfree.
  assert (Hg : validateUserId i = true) by now rewrite validateUserId_isValidId.
  unfold customId, generateCustomId. rewrite Hg, Hv, Hfree. cbn [negb].
  unfold saveUser. rewrite Hfree. unfold isValidId in Hv. now rewrite Hv.
Qed.

(** X17. Reserving a well-formed code that no identity holds succeeds and
    adds one fresh identity (unmarked, created and active at the clock)
    without touching anything else; from then on the code is found, is
    reported unavailable, and a second reservation is answered ID_TAKEN;
    the availability of every other code is as before. *)
Theorem customId_reserves s now i :
  isValidId i = true ->
  findOne i (users s) = None ->
  exists s',
    customId s now i = (s', Success 200 (GeneratedId i))
    /\ users s' = users s ++ [mkUser i now now false None None]
    /\ messages s' = messages s /\ nextId s' = nextId s
    /\ userExists s' i = (s', Success 200 (UserExists true i))
    /\ checkId s' i = (s', Success 200 (Availability false i))
    /\ (forall now', customId s' now' i = (s', Failure 409 "ID_TAKEN"))
    /\ (forall code, code <> i ->
          isIdAvailable code (users s') = isIdAvailable code (users s)).
Proof.
  intros Hv Hfree.
  exists (withUsers s (users s ++ [mkUser i now now false None None])).
  assert (Hfound : findOne i (users s ++ [mkUser i now now false None None])
                   = Some (mkUser i now now false None None))
    by now apply findOne_app_new.
  destruct (registered
              (withUsers s (users s ++ [mkUser i now now false None None])) i _
              Hv Hfound) as (He & Hc & Ht).
  split; [now apply customId_free|].
  split; [reflexivity|]. split; [reflexivity|]. split; [reflexivity|].
  split; [exact He|]. split; [exact Hc|]. split; [exact Ht|].
  intros code Hne. unfold isIdAvailable. cbn [users withUsers].
  rewrite findOne_app_other; [reflexivity|]. cbn. congruence.
Qed.

Lemma customId_reserves_witness :
  exists s',
    customId inbox 9000 "424242" = (s', Success 200 (GeneratedId "424242"))
    /\ users s' = users inbox ++ [mkUser "424242" 9000 9000 false None None]
    /\ messages s' = messages inbox /\ nextId s' = nextId inbox
    /\ userExists s' "424242" = (s', Success 200 (UserExists true "424242"))
    /\ checkId s' "424242" = (s', Success 200 (Availability false "424242"))
    /\ (forall now', customId s' now' "424242" = (s', Failure 409 "ID_TAKEN"))
    /\ (forall code, code <> "424242" ->
          isIdAvailable code (users s') = isIdAvailable code (users inbox)).
Proof. exact (customId_reserves inbox 9000 "424242" eq_refl eq_refl). Defined.

(** X18. The handler of the reservation route never gives its own
    INVALID_FORMAT answer: a code that [generateCustomId] would refuse as
    malformed has already been stopped by the guard, which answers
    INVALID_ID_FORMAT and leaves the store as it is. *)
Theorem customId_never_invalid_format s now i :
  snd (customId s now i) <> Failure 400 "INVALID_FORMAT"
  /\ (isValidId i = false ->
      customId s now i = (s, Failure 400 "INVALID_ID_FORMAT")).
Proof.
  unfold customId, generateCustomId. rewrite validateUserId_isValidId.
  split.
  - destruct (isValidId i); cbn [negb]; [|discriminate].
    destruct (findOne i (users s)); [discriminate|].
    destruct (saveUser i now s); discriminate.
  - now intros ->.
Qed.

(** X19. Creating a user through the first routes, with the code of the
    body given as a string or as a number that writes as six digits: a code
    that no identity holds is stored as a string with a fresh identity and
    answered 201, and nothing else changes; a code that an identity holds is
    answered ID_TAKEN.  A body without a code is answered INVALID_ID, and so
    is a code whose text is not six digits. *)
Theorem createUser_registers s now v c :
  v = JStr c \/ v = JNum c ->
  (isValidId c = true ->
   findOne c (users s) = None ->
   createUser s now (Some v)
   = (withUsers s (users s ++ [mkUser c now now false None None]),
      SuccessV1 201 (Created c now)))
  /\ (isValidId c = true ->
      forall u, findOne c (users s) = Some u ->
      createUser s now (Some v) = (s, FailureV1 409 "ID_TAKEN"))
  /\ (isValidId c = false ->
      createUser s now (Some v) = (s, FailureV1 400 "INVALID_ID"))
  /\ createUser s now None = (s, FailureV1 400 "INVALID_ID").
Proof.
  intros Hv. unfold createUser. repeat split.
  - intros Hc Hfree. destruct (code_value _ _ Hv Hc) as (-> & -> & -> & ->).
    rewrite findOneIn_single, Hfree. unfold trySaveUser.
    unfold isValidId in Hc. now rewrite Hc, Hfree.
  - intros Hc u Hu. destruct (code_value _ _ Hv Hc) as (-> & -> & -> & ->).
    now rewrite findOneIn_single, Hu.
  - intros Hc. unfold truthyValue, isValidIdOf.
    destruct Hv as [-> | ->]; destruct (truthyJ _);
      cbn [toStringJ option_map]; rewrite ?Hc; reflexivity.
Qed.

Lemma createUser_registers_witness :
  (isValidId "424242" = true ->
   findOne "424242" (users inbox) = None ->
   createUser inbox 9000 (Some (JNum "424242"))
   = (withUsers inbox (users inbox ++ [mkUser "424242" 9000 9000 false None None]),
      SuccessV1 201 (Created "424242" 9000)))
  /\ (isValidId "424242" = true ->
      forall u, findOne "424242" (users inbox) = Some u ->
      createUser inbox 9000 (Some (JNum "424242")) = (inbox, FailureV1 409 "ID_TAKEN"))
  /\ (isValidId "424242" = false ->
      createUser inbox 9000 (Some (JNum "424242")) = (inbox, FailureV1 400 "INVALID_ID"))
  /\ createUser inbox 9000 None = (inbox, FailureV1 400 "INVALID_ID").
Proof.
  exact (createUser_registers inbox 9000 (JNum "424242") "424242" (or_intror eq_refl)).
Defined.

(** X20. A code that the generator hands out is stored: after a successful
    generation the code is found, is reported unavailable, cannot be
    reserved, was free before, and nothing else in the store has changed. *)
Theorem generateId_registers s now rand s' i :
  generateId s now rand = (s', Success 200 (GeneratedId i)) ->
  findOne i (users s) = None
  /\ isValidId i = true
  /\ users s' = users s ++ [mkUser i now now false None None]
  /\ messages s' = messages s /\ nextId s' = nextId s
  /\ userExists s' i = (s', Success 200 (UserExists true i))
  /\ checkId s' i = (s', Success 200 (Availability false i))
  /\ (forall now', customId s' now' i = (s', Failure 409 "ID_TAKEN")).
Proof.
  unfold generateId.
  destruct (generateUniqueId 10 rand (users s)) as [j|[msg]].
  - destruct (saveUser j now s) as [s1|] eqn:E; [|discriminate].
    intros [= <- <-]. apply saveUser_Some in E. destruct E as (Hv & Hfree & ->).
    assert (Hfound : findOne j (users s ++ [mkUser j now now false None None])
                     = Some (mkUser j now now false None None))
      by now apply findOne_app_new.
    destruct (registered
                (withUsers s (users s ++ [mkUser j now now false None None])) j _
                Hv Hfound) as (He & Hc & Ht).
    repeat split; assumption.
  - destruct (includes _ msg); discriminate.
Qed.

Lemma generateId_registers_witness :
  findOne "550000" (users inbox) = None
  /\ isValidId "550000" = true
  /\ users (fst (generateId inbox 9000 (fun _ => 2 ^ 1073)))
     = users inbox ++ [mkUser "550000" 9000 9000 false None None]
  /\ messages (fst (generateId inbox 9000 (fun _ => 2 ^ 1073))) = messages inbox
  /\ nextId (fst (generateId inbox 9000 (fun _ => 2 ^ 1073))) = nextId inbox
  /\ userExists (fst (generateId inbox 9000 (fun _ => 2 ^ 1073))) "550000"
     = (fst (generateId inbox 9000 (fun _ => 2 ^ 1073)),
        Success 200 (UserExists true "550000"))
  /\ checkId (fst (generateId inbox 9000 (fun _ => 2 ^ 1073))) "550000"
     = (fst (generateId inbox 9000 (fun _ => 2 ^ 1073)),
        Success 200 (Availability false "550000"))
  /\ (forall now',
        customId (fst (generateId inbox 9000 (fun _ => 2 ^ 1073))) now' "550000"
        = (fst (generateId inbox 9000 (fun _ => 2 ^ 1073)), Failure 409 "ID_TAKEN")).
Proof.
  exact (generateId_registers inbox 9000 (fun _ => 2 ^ 1073)
           (fst (generateId inbox 9000 (fun _ => 2 ^ 1073))) "550000" eq_refl).
Defined.

(** ** Statistics *)

Lemma count_read_unread r ms :
  countDocuments (inboxQuery r false) ms
  = countDocuments (fun m => String.eqb (recipientId m) r && isRead m) ms
    + countDocuments (inboxQuery r true) ms.
Proof.
  unfold countDocuments, inboxQuery.
  induction ms as [|m ms IH]; [reflexivity|]. cbn [filter].
  destruct (String.eqb (recipientId m) r), (isRead m); cbn [andb negb List.length];
    lia.
Qed.

(** X21. The statistics of a stored identity: [totalMessages] counts the
    messages addressed to it, [unreadMessages] those of them that are
    unread, and [readMessages], computed as the difference, is the number of
    those that are read, so it is never negative.  The route changes
    nothing, not even [lastActive]. *)
Theorem userStats_counts s userId u :
  validateUserId userId = true ->
  findOne userId (users s) = Some u ->
  exists total unread read,
    userStats s userId
    = (s, SuccessV1 200
            (Stats userId (createdAt u) (lastActive u) total unread read))
    /\ total = countDocuments (fun m => String.eqb (recipientId m) userId && true)
                 (messages s)
    /\ unread = countDocuments
                  (fun m => String.eqb (recipientId m) userId && negb (isRead m))
                  (messages s)
    /\ read = countDocuments
                (fun m => String.eqb (recipientId m) userId && isRead m) (messages s)
    /\ 0 <= read <= total /\ 0 <= unread <= total.
Proof.
  intros Hv Hu. unfold userStats. rewrite Hv, Hu. cbn [negb].
  do 3 eexists. split; [reflexivity|].
  pose proof (count_read_unread userId (messages s)) as H.
  pose proof (countDocuments_nonneg (inboxQuery userId true) (messages s)).
  pose proof (countDocuments_nonneg
                (fun m => String.eqb (recipientId m) userId && isRead m) (messages s)).
  repeat split; try reflexivity; try lia.
Qed.

Lemma userStats_counts_witness :
  exists total unread read,
    userStats (fst (markRead inbox "654321" (Some [1%nat]))) "654321"
    = (fst (markRead inbox "654321" (Some [1%nat])),
       SuccessV1 200 (Stats "654321" (createdAt bob) (lastActive bob) total unread read))
    /\ total = countDocuments (fun m => String.eqb (recipientId m) "654321" && true)
                 (messages (fst (markRead inbox "654321" (Some [1%nat]))))
    /\ unread = countDocuments
                  (fun m => String.eqb (recipientId m) "654321" && negb (isRead m))
                  (messages (fst (markRead inbox "654321" (Some [1%nat]))))
    /\ read = countDocuments
                (fun m => String.eqb (recipientId m) "654321" && isRead m)
                (messages (fst (markRead inbox "654321" (Some [1%nat]))))
    /\ 0 <= read <= total /\ 0 <= unread <= total.
Proof.
  exact (userStats_counts (fst (markRead inbox "654321" (Some [1%nat]))) "654321" bob
           eq_refl eq_refl).
Defined.

(** ** The first sweep *)

Lemma purged_messages_spec (l : list User) ms m :
  In m (filter (fun m => negb (existsb (fun i => involves i m) (map id l))) ms)
  <-> In m ms
      /\ forall u, In u l -> senderId m <> id u /\ recipientId m <> id u.
Proof.
  rewrite filter_In. apply and_iff_compat_l. rewrite negb_true_iff. split.
  - intros Hex u Hu. apply involves_spec.
    destruct (involves (id u) m) eqn:F; [|reflexivity].
    rewrite <- Hex. symmetry. apply existsb_exists. exists (id u).
    split; [now apply in_map|assumption].
  - intros H. destruct (existsb _ _) eqn:F; [|reflexivity].
    apply existsb_exists in F. destruct F as (i & Hi & Hinv).
    apply in_map_iff in Hi. destruct Hi as (u & <- & Hu).
    apply H in Hu. apply involves_spec in Hu. congruence.
Qed.

(** X22. One pass of the first sweep, on a store with unique codes: the
    identities whose [lastActive] is more than ten minutes old are deleted
    at once, every other identity is kept as it was, and the messages that
    are left are exactly those that no deleted identity sent or received. *)
Theorem sweepV1_purges_idle s now :
  uniqueCodes s ->
  users (cleanupInactiveUsersV1 s now)
  = filter (fun u => negb (idleSince (now - 10 * 60 * 1000) u)) (users s)
  /\ (forall m, In m (messages (cleanupInactiveUsersV1 s now))
                <-> In m (messages s)
                    /\ forall u, In u (users s) ->
                                 lastActive u < now - 10 * 60 * 1000 ->
                                 senderId m <> id u /\ recipientId m <> id u)
  /\ nextId (cleanupInactiveUsersV1 s now) = nextId s.
Proof.
  intros Hnd. unfold cleanupInactiveUsersV1. split; [|split].
  - rewrite (purge_all_users _ _ Hnd). apply filter_ext_in.
    intros u Hu. now rewrite userIdIn_filter.
  - intros m. rewrite purge_all_messages, purged_messages_spec.
    apply and_iff_compat_l. split.
    + intros H u Hu Hlt. apply H. apply filter_In. split; [assumption|].
      now apply Z.ltb_lt.
    + intros H u Hu. apply filter_In in Hu. destruct Hu as [Hu Hidle].
      apply H; [assumption|]. now apply Z.ltb_lt.
  - apply purge_all_nextId.
Qed.

Lemma sweepV1_purges_idle_witness :
  users (cleanupInactiveUsersV1 lobby 1000000)
  = filter (fun u => negb (idleSince (1000000 - 10 * 60 * 1000) u)) (users lobby)
  /\ (forall m, In m (messages (cleanupInactiveUsersV1 lobby 1000000))
                <-> In m (messages lobby)
                    /\ forall u, In u (users lobby) ->
                                 lastActive u < 1000000 - 10 * 60 * 1000 ->
                                 senderId m <> id u /\ recipientId m <> id u)
  /\ nextId (cleanupInactiveUsersV1 lobby 1000000) = nextId lobby.
Proof. exact (sweepV1_purges_idle lobby 1000000 lobby_unique). Defined.

(** ** Sanitizing *)

Lemma length_substring0 n : forall s, (String.length (substring0 n s) <= n)%nat.
Proof.
  induction n as [|n IH]; intros [|c r]; simpl; try lia.
  specialize (IH r). lia.
Qed.

Lemma singleSpaced_substring0 n : forall s,
  singleSpaced s -> singleSpaced (substring0 n s).
Proof.
  induction n as [|n IH]; intros [|c r]; simpl; auto.
  intros [Hc Hr]. split; [|auto].
  intros Hw. destruct (Hc Hw) as [-> Hnext]. split; [reflexivity|].
  destruct n, r; simpl; auto.
Qed.

Lemma collapseFrom_spaced s : forall b,
  singleSpaced (collapseFrom b s)
  /\ (b = true ->
      match collapseFrom b s with
      | EmptyString => True
      | String d _ => isWhiteSpace d = false
      end).
Proof.
  induction s as [|c r IH]; intros b; simpl; [auto|].
  destruct (isWhiteSpace c) eqn:W.
  - destruct (IH true) as [Hs Hh]. destruct b.
    + split; [assumption|]. intros _. now apply Hh.
    + split; [|discriminate]. simpl. split; [|assumption].
      intros _. split; [reflexivity|]. now apply Hh.
  - destruct (IH false) as [Hs _]. split.
    + simpl. split; [|assumption]. rewrite W. discriminate.
    + intros _. assumption.
Qed.

Lemma trimEnd_head c r :
  isWhiteSpace c = false -> exists r', trimEnd (String c r) = String c r'.
Proof.
  intros W. simpl. destruct (trimEnd r); rewrite ?W; eauto.
Qed.

(** X23. What [sanitizeMessage] returns has at most 1000 characters, does
    not start with white space, and holds no white space other than single
    spaces, never two in a row. *)
Theorem sanitizeMessage_shape content :
  (String.length (sanitizeMessage content) <= 1000)%nat
  /\ singleSpaced (sanitizeMessage content)
  /\ match sanitizeMessage content with
     | EmptyString => True
     | String c _ => isWhiteSpace c = false
     end.
Proof.
  unfold sanitizeMessage, collapseWhiteSpace. split; [apply length_substring0|].
  split; [apply singleSpaced_substring0, collapseFrom_spaced|].
  unfold trim. pose proof (trimStart_head content) as H.
  destruct (trimStart content) as [|c r]; [exact I|].
  destruct (trimEnd_head c r H) as (r' & ->).
  cbn [collapseFrom]. rewrite H. exact H.
Qed.

(** The cut at 1000 characters can leave a space at the end, which a second
    sanitizing removes. *)
Example sanitizeMessage_not_idempotent :
  let text := (replicate 999 "a" ++ "  b")%string in
  String.length (sanitizeMessage text) = 1000%nat
  /\ String.length (sanitizeMessage (sanitizeMessage text)) = 999%nat.
Proof. vm_compute. auto. Qed.

(** ** What every store holds *)

Lemma findOne_found_iff i us : findOne i us <> None <-> In i (map id us).
Proof.
  split.
  - intros H. destruct (findOne i us) as [u|] eqn:E; [|contradiction].
    apply findOne_Some in E. destruct E as [Hin <-]. now apply in_map.
  - intros H E. apply in_map_iff in H. destruct H as (u & Hid & Hin).
    now apply (proj1 (findOne_None _ _) E u).
Qed.

(** The data of a new store are valid when its codes are well formed and
    each of its messages is valid by itself or repeats the fields of a message
    of a valid store whose two ends are still stored. *)
Lemma validData_from s us' ms' n :
  validData s ->
  (forall u, In u us' -> isValidId (id u) = true) ->
  (forall m', In m' ms' ->
     validMessage us' m'
     \/ exists m, In m (messages s)
                  /\ senderId m' = senderId m /\ recipientId m' = recipientId m
                  /\ content m' = content m
                  /\ In (senderId m) (map id us')
                  /\ In (recipientId m) (map id us')) ->
  validData (mkStore us' ms' n).
Proof.
  intros [_ Hms] Hus Hfrom. split; [exact Hus|].
  cbn [users messages]. intros m' Hm'.
  destruct (Hfrom m' Hm') as [H|(m & Hm & Hs & Hr & Hc & Hsi & Hri)]; [assumption|].
  destruct (Hms m Hm) as (V1 & V2 & V4 & V5 & V6 & V7 & _ & _).
  unfold validMessage. rewrite Hs, Hr, Hc, !findOne_found_iff. tauto.
Qed.

(** The same when no code is lost. *)
Lemma validData_grow s us' ms' n :
  validData s ->
  (forall i, In i (map id (users s)) -> In i (map id us')) ->
  (forall u, In u us' -> isValidId (id u) = true) ->
  (forall m', In m' ms' ->
     validMessage us' m'
     \/ exists m, In m (messages s)
                  /\ senderId m' = senderId m /\ recipientId m' = recipientId m
                  /\ content m' = content m) ->
  validData (mkStore us' ms' n).
Proof.
  intros Hd Hcodes Hus Hfrom. apply (validData_from s); try assumption.
  intros m' Hm'. destruct (Hfrom m' Hm') as [H|(m & Hm & Hs & Hr & Hc)]; [now left|].
  right. exists m. repeat split; try assumption.
  - apply Hcodes, findOne_found_iff. now apply (proj2 Hd m Hm).
  - apply Hcodes, findOne_found_iff. now apply (proj2 Hd m Hm).
Qed.

(** Updating identities in place keeps the data valid. *)
Lemma validData_touch s (p : User -> bool) (f : User -> User) ms' n :
  validData s ->
  (forall u, id (f u) = id u) ->
  (forall m', In m' ms' ->
     exists m, In m (messages s)
               /\ senderId m' = senderId m /\ recipientId m' = recipientId m
               /\ content m' = content m) ->
  validData (mkStore (findOneAndUpdate p f (users s)) ms' n).
Proof.
  intros Hd Hf Hfrom. apply (validData_grow s); try assumption.
  - intros i. now rewrite map_findOneAndUpdate.
  - intros u Hu.
    assert (In (id u) (map id (users s))) as Hin
        by (rewrite <- (map_findOneAndUpdate id p f) by assumption; now apply in_map).
    apply in_map_iff in Hin. destruct Hin as (u0 & <- & Hu0). now apply Hd.
  - intros m' Hm'. right. now apply Hfrom.
Qed.

(** Adding an identity with a well-formed code keeps the data valid. *)
Lemma validData_register s i now :
  validData s -> isValidId i = true ->
  validData (withUsers s (users s ++ [mkUser i now now false None None])).
Proof.
  intros Hd Hv. apply (validData_grow s); try assumption.
  - intros j Hj. rewrite map_app. apply in_or_app. now left.
  - intros u Hu. apply in_app_or in Hu. destruct Hu as [Hu|[<-|[]]];
      [now apply Hd|exact Hv].
  - intros m Hm. right. exists m. auto.
Qed.

(** Deleting the identities that [d] selects, with every message they sent
    or received, keeps the data valid. *)
Lemma validData_purge s (d : User -> bool) n :
  uniqueCodes s -> validData s ->
  validData
    (mkStore (filter (fun u => negb (d u)) (users s))
       (filter (fun m => negb (existsb (fun i => involves i m)
                                 (map id (filter d (users s)))))
          (messages s))
       n).
Proof.
  intros Hnd Hd. apply (validData_from s); try assumption.
  - intros u Hu. apply filter_In in Hu. now apply Hd.
  - intros m Hm. right. exists m. apply purged_messages_spec in Hm.
    destruct Hm as [Hm Hfree]. repeat split; try assumption.
    + assert (In (senderId m) (map id (users s))) as Hin
          by (apply findOne_found_iff; now apply (proj2 Hd m Hm)).
      apply in_map_iff in Hin. destruct Hin as (u & Hid & Hu).
      apply in_map_iff. exists u. split; [assumption|]. apply filter_In.
      split; [assumption|]. destruct (d u) eqn:E; [|reflexivity].
      exfalso. assert (In u (filter d (users s))) as Hp by (apply filter_In; auto).
      apply Hfree in Hp. destruct Hp as [Hp _]. congruence.
    + assert (In (recipientId m) (map id (users s))) as Hin
          by (apply findOne_found_iff; now apply (proj2 Hd m Hm)).
      apply in_map_iff in Hin. destruct Hin as (u & Hid & Hu).
      apply in_map_iff. exists u. split; [assumption|]. apply filter_In.
      split; [assumption|]. destruct (d u) eqn:E; [|reflexivity].
      exfalso. assert (In u (filter d (users s))) as Hp by (apply filter_In; auto).
      apply Hfree in Hp. destruct Hp as [_ Hp]. congruence.
Qed.


Lemma validData_generateId s now rand :
  validData s -> validData (fst (generateId s now rand)).
Proof.
  intros H. unfold generateId.
  destruct (generateUniqueId 10 rand (users s)) as [i|[msg]].
  - destruct (saveUser i now s) as [s'|] eqn:E; [|assumption].
    apply saveUser_Some in E. destruct E as (Hv & _ & ->).
    now apply validData_register.
  - destruct (includes _ msg); assumption.
Qed.

Lemma validData_customId s now i :
  validData s -> validData (fst (customId s now i)).
Proof.
  intros H. unfold customId.
  destruct (negb (validateUserId i)); [assumption|].
  destruct (generateCustomId i (users s)) as [j|[msg]].
  - destruct (saveUser j now s) as [s'|] eqn:E; [|assumption].
    apply saveUser_Some in E. destruct E as (Hv & _ & ->).
    now apply validData_register.
  - destruct (String.eqb msg _); [assumption|]. now destruct (String.eqb msg _).
Qed.

(** Creating a user either leaves the store as it was or adds one
    identity with a well-formed code that was free. *)
Lemma createUser_cases s now bodyId :
  fst (createUser s now bodyId) = s
  \/ exists code,
       isValidId code = true /\ findOne code (users s) = None
       /\ fst (createUser s now bodyId)
          = withUsers s (users s ++ [mkUser code now now false None None]).
Proof.
  unfold createUser.
  destruct (truthyValue bodyId) as [v|]; [|now left].
  destruct (isValidIdOf v) as [[|]|]; try (now left).
  destruct (castFilter v) as [codes|]; [|now left].
  destruct (findOneIn codes (users s)); [now left|].
  destruct (castString v) as [code|]; [|now left].
  unfold trySaveUser.
  destruct (Nat.eqb (String.length code) 6 && allChars isDigit code) eqn:Hv;
    cbn [negb]; [|now left].
  destruct (findOne code (users s)) eqn:Hf; [now left|].
  right. exists code. auto.
Qed.

Lemma validData_createUser s now bodyId :
  validData s -> validData (fst (createUser s now bodyId)).
Proof.
  intros H.
  destruct (createUser_cases s now bodyId) as [->|(code & Hv & _ & ->)];
    [assumption|].
  now apply validData_register.
Qed.

Lemma validData_sendMessage s tMessage tTouch rq :
  validData s -> validData (fst (sendMessage s tMessage tTouch rq)).
Proof.
  intros H. unfold sendMessage.
  destruct (truthy (bodySenderId rq)) as [sender|]; [|assumption].
  destruct (truthy (bodyRecipientId rq)) as [recipient|]; [|assumption].
  destruct (truthy (bodyContent rq)) as [text|]; [|assumption].
  destruct (isValidId sender) eqn:Vs; [|assumption].
  destruct (isValidId recipient) eqn:Vr; [|assumption]. cbn [negb orb].
  destruct (String.eqb_spec sender recipient) as [|Hne]; [assumption|].
  destruct (validateMessage text) as [v|] eqn:Ev; [|assumption].
  destruct (findOne sender (users s)) as [us|] eqn:Fs; [|assumption].
  destruct (findOne recipient (users s)) as [ur|] eqn:Fr; [|assumption].
  pose proof (validateMessage_Valid _ _ Ev) as (-> & Hlen & Hrun & Hurl).
  unfold saveMessage. rewrite trim_idempotent.
  destruct (_ && _); [|assumption].
  unfold withUsers. cbn [fst users messages nextId].
  apply (validData_grow s); try assumption.
  - intros i. now rewrite map_findOneAndUpdate.
  - intros u Hu.
    assert (In (id u) (map id (users s))) as Hin.
    { rewrite <- (map_findOneAndUpdate id (hasId recipient) (setLastActive tTouch))
        by reflexivity. now apply in_map. }
    apply in_map_iff in Hin. destruct Hin as (u0 & <- & Hu0). now apply H.
  - intros m Hm. apply in_app_or in Hm. destruct Hm as [Hm|[<-|[]]].
    + right. exists m. auto.
    + left. unfold validMessage.
      cbn [senderId recipientId content].
      rewrite !findOne_found_iff, !map_findOneAndUpdate by reflexivity.
      rewrite <- !findOne_found_iff, Fs, Fr, trim_idempotent.
      repeat split; try assumption; try lia; discriminate.
Qed.

Lemma validData_sendMessageJson s tMessage tTouch rq :
  validData s -> validData (fst (sendMessageJson s tMessage tTouch rq)).
Proof.
  intros H.
  destruct (sendMessageJson_cases s tMessage tTouch rq) as [->|(s' & mid & ts & E)];
    [assumption|].
  rewrite E. cbn [fst].
  destruct (sendMessageJson_inv _ _ _ _ _ _ _ E)
    as (sender & recipient & from & to & text & fp & us & ur & _ & _ & _ & _ & _
        & _ & Vf & Vt & Ev & Fs & Fr & _ & _ & _ & ->).
  pose proof (validateMessage_Valid _ _ Ev) as (_ & Hlen & Hrun & Hurl).
  apply (validData_grow s); try assumption.
  - intros i. now rewrite map_findOneAndUpdate.
  - intros u Hu.
    assert (In (id u) (map id (users s))) as Hin.
    { rewrite <- (map_findOneAndUpdate id (hasId to) (setLastActive tTouch))
        by reflexivity. now apply in_map. }
    apply in_map_iff in Hin. destruct Hin as (u0 & <- & Hu0). now apply H.
  - intros m Hm. apply in_app_or in Hm. destruct Hm as [Hm|[<-|[]]].
    + right. exists m. auto.
    + left. unfold validMessage.
      cbn [senderId recipientId content].
      rewrite !findOne_found_iff, !map_findOneAndUpdate by reflexivity.
      rewrite <- !findOne_found_iff, Fs, Fr, trim_idempotent.
      repeat split; try assumption; try lia; discriminate.
Qed.

Lemma validData_getMessages s now r q :
  validData s -> validData (fst (getMessages s now r q)).
Proof.
  intros H. unfold getMessages.
  destruct (negb (validateUserId r)); [assumption|].
  destruct (findOne r (users s)); [|assumption].
  destruct (findPage _ _ _ _) as [found|]; [|assumption].
  destruct (numMul _ _); [|assumption].
  destruct (numParam (queryLimit q) 20); [|assumption].
  cbn [fst]. apply validData_touch; [assumption|reflexivity|].
  intros m Hm. apply deleteMany_In in Hm. exists m. tauto.
Qed.

Lemma validData_markRead s userId ids :
  validData s -> validData (fst (markRead s userId ids)).
Proof.
  intros H. unfold markRead.
  destruct (negb (validateUserId userId)); [assumption|].
  destruct (findOne userId (users s)); [|assumption].
  unfold withMessages. cbn [fst]. apply (validData_grow s); try tauto.
  - apply H.
  - intros m' Hm'. right. unfold updateMany in Hm'. apply in_map_iff in Hm'.
    destruct Hm' as (m & <- & Hm). exists m. split; [assumption|].
    now destruct (_ && _).
Qed.

Lemma validData_hard_delete s userId :
  uniqueCodes s -> validData s ->
  validData
    (mkStore (deleteOne (hasId userId) (users s))
       (deleteMany (involves userId) (messages s)) (nextId s)).
Proof.
  intros Hnd H. apply (validData_from s); try assumption.
  - intros u Hu. apply (deleteOne_incl id) in Hu. now apply H.
  - intros m Hm. right. exists m. apply deleteMany_In in Hm.
    destruct Hm as [Hm Hinv]. apply involves_spec in Hinv.
    rewrite (deleteOne_unique _ _ Hnd).
    assert (Hkeep : forall i, i <> userId -> In i (map id (users s)) ->
              In i (map id (filter (fun u => negb (hasId userId u)) (users s)))).
    { intros i Hi Hin. apply in_map_iff in Hin. destruct Hin as (u & Hid & Hu).
      apply in_map_iff. exists u. split; [assumption|]. apply filter_In.
      split; [assumption|]. apply negb_true_iff.
      destruct (hasId userId u) eqn:E; [|reflexivity].
      apply hasId_spec in E. congruence. }
    repeat split; try assumption;
      apply Hkeep; try tauto; apply findOne_found_iff; now apply (proj2 H m Hm).
Qed.

Lemma validData_deleteUser s now userId b :
  uniqueCodes s -> validData s -> validData (fst (deleteUser s now userId b)).
Proof.
  intros Hnd H. unfold deleteUser.
  destruct (negb (validateUserId userId)); [assumption|].
  destruct (bodyThrows b); [assumption|].
  destruct (deleteOptions b) as [immediate reason].
  destruct (findOne userId (users s)); [|assumption].
  destruct immediate; cbn [fst]; [now apply validData_hard_delete|].
  destruct (castString reason); [|assumption].
  unfold withUsers. apply validData_touch; [assumption|reflexivity|].
  intros m Hm. exists m. auto.
Qed.

Lemma validData_deleteUserV1 s userId :
  uniqueCodes s -> validData s -> validData (fst (deleteUserV1 s userId)).
Proof.
  intros Hnd H. unfold deleteUserV1.
  destruct (negb (validateUserId userId)); [assumption|].
  destruct (findOne userId (users s)); [|assumption].
  cbn [fst]. now apply validData_hard_delete.
Qed.

Lemma validData_heartbeat s now userId :
  validData s -> validData (fst (heartbeat s now userId)).
Proof.
  intros H. unfold heartbeat.
  destruct (negb (validateUserId userId)); [assumption|].
  destruct (findOne userId (users s)); [|assumption].
  unfold withUsers. cbn [fst]. apply validData_touch; [assumption|reflexivity|].
  intros m Hm. exists m. auto.
Qed.

Lemma store_eta (s : Store) : s = mkStore (users s) (messages s) (nextId s).
Proof. now destruct s. Qed.

Lemma validData_sweepV1 s now :
  uniqueCodes s -> validData s -> validData (cleanupInactiveUsersV1 s now).
Proof.
  intros Hnd H. rewrite (store_eta (cleanupInactiveUsersV1 s now)).
  unfold cleanupInactiveUsersV1.
  rewrite (purge_all_users _ _ Hnd), purge_all_messages.
  set (d := idleSince (now - 10 * 60 * 1000)).
  rewrite (filter_ext_in (fun u => negb (userIdIn (map id (filter d (users s))) u))
             (fun u => negb (d u)))
    by (intros u Hu; now rewrite userIdIn_filter).
  now apply validData_purge.
Qed.

Lemma validData_sweep s t1 t2 t3 :
  uniqueCodes s -> validData s -> validData (cleanupInactiveUsers s t1 t2 t3).
Proof.
  intros Hnd H. rewrite (store_eta (cleanupInactiveUsers s t1 t2 t3)).
  rewrite (cleanup_users _ _ _ _ Hnd), cleanup_messages.
  set (g := pastGrace (t1 - 2 * 60 * 1000)).
  set (f := fun u => if inactive (t2 - 15 * 60 * 1000) u
                     then mark t3 "inactivity" u else u).
  pose proof (validData_purge s g (nextId s) Hnd H) as Hp.
  assert (Hid : forall u, id (f u) = id u)
    by (intros u; unfold f; now destruct (inactive _ u)).
  apply (validData_from
           (mkStore (filter (fun u => negb (g u)) (users s))
              (filter (fun m => negb (existsb (fun i => involves i m)
                                        (map id (filter g (users s))))) (messages s))
              (nextId s))); [assumption|..].
  - intros u Hu. apply in_map_iff in Hu. destruct Hu as (u0 & <- & Hu0).
    rewrite Hid. now apply Hp.
  - intros m Hm. right. exists m. cbn [messages]. split; [assumption|].
    rewrite map_map, (map_ext _ id) by exact Hid.
    repeat split; apply findOne_found_iff; now apply (proj2 Hp m Hm).
Qed.

Lemma wellFormed_step s e : wellFormed s -> wellFormed (step s e).
Proof.
  intros H. destruct e; cbn [step].
  - now apply wellFormed_generateId.
  - unfold checkId. now destruct (negb _).
  - now apply wellFormed_sendMessage.
  - now apply wellFormed_sendMessageJson.
  - now apply wellFormed_getMessages.
  - now apply wellFormed_markRead.
  - now apply wellFormed_deleteUser.
  - now apply wellFormed_heartbeat.
  - unfold userExists. now destruct (negb _).
  - now apply wellFormed_cleanup.
Qed.

Lemma validData_step s e : wellFormed s -> validData s -> validData (step s e).
Proof.
  intros Hwf H. pose proof (proj2 (proj2 Hwf)) as Hnd. destruct e; cbn [step].
  - now apply validData_generateId.
  - unfold checkId. now destruct (negb _).
  - now apply validData_sendMessage.
  - now apply validData_sendMessageJson.
  - now apply validData_getMessages.
  - now apply validData_markRead.
  - now apply validData_deleteUser.
  - now apply validData_heartbeat.
  - unfold userExists. now destruct (negb _).
  - now apply validData_sweep.
Qed.

Lemma wellFormed_register s i now :
  wellFormed s -> findOne i (users s) = None ->
  wellFormed (withUsers s (users s ++ [mkUser i now now false None None])).
Proof.
  intros (Hm & Hf & Hu) Hfree. repeat split; try assumption.
  unfold uniqueCodes in *. unfold withUsers. cbn [users]. rewrite map_app.
  apply NoDup_app; [assumption|repeat constructor; intros []|].
  intros c Hc [<-|[]]. apply in_map_iff in Hc. destruct Hc as (u & Hid & Hin).
  now apply (proj1 (findOne_None _ _) Hfree u).
Qed.

Lemma wellFormed_act s a : wellFormed s -> wellFormed (act s a).
Proof.
  intros H. destruct a; cbn [act].
  - now apply wellFormed_step.
  - unfold customId. destruct (negb _); [assumption|].
    destruct (generateCustomId id0 (users s)) as [j|[msg]].
    + destruct (saveUser j now s) as [s'|] eqn:E; [|assumption].
      apply saveUser_Some in E. destruct E as (_ & Hfree & ->).
      now apply wellFormed_register.
    + destruct (String.eqb msg _); [assumption|]. now destruct (String.eqb msg _).
  - destruct (createUser_cases s now bodyId) as [->|(code & _ & Hfree & ->)];
      [assumption|].
    now apply wellFormed_register.
  - unfold userStats. destruct (negb _); [assumption|].
    now destruct (findOne userId (users s)).
  - unfold deleteUserV1. destruct (negb _); [assumption|].
    destruct (findOne userId (users s)); [|assumption].
    cbn [fst]. apply wellFormed_shrink; [assumption|..].
    + apply NoDup_map_deleteOne, H.
    + apply NoDup_map_filter, H.
    + intros m Hin. apply deleteMany_In in Hin. exists m. tauto.
  - pose proof (proj2 (proj2 H)) as Hnd.
    rewrite (store_eta (cleanupInactiveUsersV1 s now)).
    unfold cleanupInactiveUsersV1.
    rewrite (purge_all_users _ _ Hnd), purge_all_messages, purge_all_nextId.
    apply wellFormed_shrink; [assumption|..].
    + apply NoDup_map_filter, H.
    + apply NoDup_map_filter, H.
    + intros m Hin. apply filter_In in Hin. exists m. tauto.
Qed.

Lemma validData_act s a : wellFormed s -> validData s -> validData (act s a).
Proof.
  intros Hwf H. pose proof (proj2 (proj2 Hwf)) as Hnd. destruct a; cbn [act].
  - now apply validData_step.
  - now apply validData_customId.
  - now apply validData_createUser.
  - unfold userStats. destruct (negb _); [assumption|].
    now destruct (findOne userId (users s)).
  - now apply validData_deleteUserV1.
  - now apply validData_sweepV1.
Qed.

Lemma validStore_run l : forall s, validStore s -> validStore (run s l).
Proof.
  induction l as [|a l IH]; intros s H; cbn [run]; [assumption|].
  apply IH. destruct H as [Hwf Hd]. split.
  - now apply wellFormed_act.
  - now apply validData_act.
Qed.

(** X24. Whatever requests to the embedded routes, with bodies of any
    values, and whatever passes of either sweep the server has served since
    it started empty, in any order, the store is well kept: message
    identifiers are unique and below the counter, codes are unique and six
    digits, and every message goes between two stored identities (which
    need not differ) with a trimmed content of 1 to 1000 characters that
    passed the spam patterns. *)
Theorem every_store_is_valid (history : list Action) :
  validStore (run (mkStore [] [] 0) history).
Proof.
  apply validStore_run.
  unfold validStore, wellFormed, validData, uniqueMessageIds, freshNextId, uniqueCodes.
  cbn [users messages map].
  split; [split; [constructor|split; [intros ? []|constructor]]|].
  split; intros ? [].
Qed.

(** ** Marking on request, touching, staying active *)

(** X25. A deletion without [immediate] of a stored identity, by a request
    whose body the handler reads and logs without a thrown error and whose
    [reason] the schema casts to a string, only marks the identity: it is
    still found, now with [markedForDeletion], [markedAt] the clock and the
    reason of the request as a string; every other identity and all messages
    are as before, and nothing is counted as deleted.  A later request of
    the same kind overwrites the mark, so the grace window starts again at
    the later clock. *)
Theorem deleteUser_soft_marks s now userId b u r :
  validateUserId userId = true ->
  findOne userId (users s) = Some u ->
  bodyThrows b = false ->
  fst (deleteOptions b) = false ->
  castString (snd (deleteOptions b)) = Some r ->
  exists s',
    deleteUser s now userId b
    = (s', Success 200 (Deleted userId 0 false (snd (deleteOptions b))))
    /\ findOne userId (users s')
       = Some (mkUser (id u) (createdAt u) (lastActive u) true (Some now) (Some r))
    /\ messages s' = messages s
    /\ Forall2 (fun old new => id new = id old /\ (id old <> userId -> new = old))
         (users s) (users s')
    /\ forall later b' r',
         bodyThrows b' = false ->
         fst (deleteOptions b') = false ->
         castString (snd (deleteOptions b')) = Some r' ->
         findOne userId (users (fst (deleteUser s' later userId b')))
         = Some (mkUser (id u) (createdAt u) (lastActive u) true (Some later)
                   (Some r')).
Proof.
  intros Hv Hu Hb Hsoft Hcast.
  assert (Hstep : forall s0 t b0 r0 u0,
             findOne userId (users s0) = Some u0 ->
             bodyThrows b0 = false ->
             fst (deleteOptions b0) = false ->
             castString (snd (deleteOptions b0)) = Some r0 ->
             deleteUser s0 t userId b0
             = (withUsers s0 (findOneAndUpdate (hasId userId) (mark t r0) (users s0)),
                Success 200 (Deleted userId 0 false (snd (deleteOptions b0))))).
  { intros s0 t b0 r0 u0 H0 Hb0 Hs0 Hc0. unfold deleteUser.
    rewrite Hv, Hb0, H0. cbn [negb].
    destruct (deleteOptions b0) as [immediate reason]. cbn [fst snd] in *.
    subst. now rewrite Hc0. }
  eexists. split; [now apply (Hstep s now b r u)|].
  cbn [users messages withUsers].
  assert (Hfound : findOne userId
                     (findOneAndUpdate (hasId userId) (mark now r) (users s))
                   = Some (mark now r u))
    by now apply findOne_update.
  split; [exact Hfound|]. split; [reflexivity|]. split.
  - apply findOneAndUpdate_pointwise.
    + intros x. auto.
    + intros x Hx. apply hasId_spec in Hx. split; [reflexivity|contradiction].
  - intros later b' r' Hb' Hs' Hc'.
    rewrite (Hstep (withUsers s (findOneAndUpdate (hasId userId) (mark now r) (users s)))
               later b' r' _ Hfound Hb' Hs' Hc').
    cbn [fst users withUsers].
    now rewrite (findOne_update userId (mark later r') _ _ ltac:(reflexivity) Hfound).
Qed.

Lemma deleteUser_soft_marks_witness :
  let b := JsonBody (Some (JBool false)) (Some (JStr "tab closed")) None in
  exists s',
    deleteUser inbox 1000 "654321" b
    = (s', Success 200 (Deleted "654321" 0 false (snd (deleteOptions b))))
    /\ findOne "654321" (users s')
       = Some (mkUser (id bob) (createdAt bob) (lastActive bob) true (Some 1000)
                 (Some "tab closed"))
    /\ messages s' = messages inbox
    /\ Forall2 (fun old new => id new = id old /\ (id old <> "654321" -> new = old))
         (users inbox) (users s')
    /\ forall later b' r',
         bodyThrows b' = false ->
         fst (deleteOptions b') = false ->
         castString (snd (deleteOptions b')) = Some r' ->
         findOne "654321" (users (fst (deleteUser s' later "654321" b')))
         = Some (mkUser (id bob) (createdAt bob) (lastActive bob) true (Some later)
                   (Some r')).
Proof.
  exact (deleteUser_soft_marks inbox 1000 "654321"
           (JsonBody (Some (JBool false)) (Some (JStr "tab closed")) None) bob
           "tab closed" eq_refl eq_refl eq_refl eq_refl eq_refl).
Defined.

Lemma findOne_update_other i j f us :
  (forall x, id (f x) = id x) -> i <> j ->
  findOne i (findOneAndUpdate (hasId j) f us) = findOne i us.
Proof.
  intros Hf Hne. unfold findOne.
  induction us as [|x l IH]; [reflexivity|]. cbn [findOneAndUpdate].
  destruct (hasId j x) eqn:E; cbn [find].
  - apply hasId_spec in E.
    assert (hasId i x = false) as Hx.
    { destruct (hasId i x) eqn:F; [|reflexivity].
      apply hasId_spec in F. congruence. }
    assert (hasId i (f x) = false) as ->.
    { unfold hasId in *. now rewrite Hf. }
    now rewrite Hx.
  - destruct (hasId i x); [reflexivity|exact IH].
Qed.

(** X26. A send refreshes the recipient and nobody else: after a successful
    send the identity with the recipient's code differs only in
    [lastActive], which is the clock of the touch, and every identity with
    another code is as it was. *)
Theorem sendMessageJson_touches_recipient_only s tMessage tTouch rq s' mid ts :
  sendMessageJson s tMessage tTouch rq = (s', Success 201 (Sent mid ts)) ->
  exists recipient to ur,
    jsonRecipientId rq = Some recipient
    /\ castString recipient = Some to
    /\ findOne to (users s) = Some ur
    /\ findOne to (users s') = Some (setLastActive tTouch ur)
    /\ (forall i, i <> to -> findOne i (users s') = findOne i (users s))
    /\ Forall2
         (fun old new =>
            (id old <> to -> new = old)
            /\ (new = old \/ new = setLastActive tTouch old))
         (users s) (users s').
Proof.
  intros H.
  destruct (sendMessageJson_inv _ _ _ _ _ _ _ H)
    as (sender & recipient & from & to & text & fp & us & ur & _ & Hr & _ & _ & Hto
        & _ & _ & _ & _ & _ & Fr & _ & _ & _ & ->).
  exists recipient, to, ur. cbn [users].
  split; [assumption|]. split; [now destruct Hto as [-> | ->]|].
  split; [assumption|]. split; [now apply findOne_update|]. split.
  - intros i Hne. now apply findOne_update_other.
  - apply findOneAndUpdate_pointwise.
    + intros x. auto.
    + intros x Hx. apply hasId_spec in Hx. split; [contradiction|now right].
Qed.

Lemma sendMessageJson_touches_recipient_only_witness :
  let rq := mkSendBody (Some (JStr "123456")) (Some (JNum "654321"))
              (Some (JStr "hi")) None "fp" in
  exists recipient to ur,
    jsonRecipientId rq = Some recipient
    /\ castString recipient = Some to
    /\ findOne to (users inbox) = Some ur
    /\ findOne to (users (fst (sendMessageJson inbox 9000 9001 rq)))
       = Some (setLastActive 9001 ur)
    /\ (forall i, i <> to ->
          findOne i (users (fst (sendMessageJson inbox 9000 9001 rq)))
          = findOne i (users inbox))
    /\ Forall2
         (fun old new =>
            (id old <> to -> new = old)
            /\ (new = old \/ new = setLastActive 9001 old))
         (users inbox) (users (fst (sendMessageJson inbox 9000 9001 rq))).
Proof.
  exact (sendMessageJson_touches_recipient_only inbox 9000 9001
           (mkSendBody (Some (JStr "123456")) (Some (JNum "654321"))
              (Some (JStr "hi")) None "fp")
           _ 3%nat 9000 eq_refl).
Defined.

(** X27. A heartbeat keeps an identity out of the inactivity sweep: when an
    unmarked identity has sent a heartbeat at a clock that is not before the
    inactivity deadline [t2 - 15 min] of a pass, that pass leaves it as the
    heartbeat left it, unmarked. *)
Theorem heartbeat_keeps_active s now userId u t1 t2 t3 :
  uniqueCodes s ->
  validateUserId userId = true ->
  findOne userId (users s) = Some u ->
  markedForDeletion u = false ->
  t2 - 15 * 60 * 1000 <= now ->
  findOne userId
    (users (cleanupInactiveUsers (fst (heartbeat s now userId)) t1 t2 t3))
  = Some (mkUser (id u) (createdAt u) now false (markedAt u) (deleteReason u)).
Proof.
  intros Hnd Hv Hu Hm Hclock.
  assert (Hs1 : fst (heartbeat s now userId)
                = withUsers s (findOneAndUpdate (hasId userId) (setLastActive now)
                                 (users s)))
    by (unfold heartbeat; now rewrite Hv, Hu).
  rewrite Hs1. set (s1 := withUsers s _).
  assert (Hnd1 : uniqueCodes s1).
  { unfold uniqueCodes, s1. cbn [users withUsers]. now rewrite map_findOneAndUpdate. }
  assert (Hu1 : findOne userId (users s1) = Some (setLastActive now u))
    by now apply findOne_update.
  apply findOne_Some in Hu1. destruct Hu1 as [Hin Hid].
  set (u1 := setLastActive now u) in *.
  assert (Hkeep : In u1 (users (cleanupInactiveUsers s1 t1 t2 t3))).
  { rewrite (cleanup_users _ _ _ _ Hnd1). apply in_map_iff. exists u1. split.
    - unfold inactive, u1. cbn [lastActive setLastActive].
      destruct (Z.ltb_spec now (t2 - 15 * 60 * 1000)); [lia|reflexivity].
    - apply filter_In. split; [assumption|].
      unfold pastGrace, u1. cbn [markedForDeletion setLastActive]. now rewrite Hm. }
  pose proof (findOne_unique _ _ (cleanup_unique s1 t1 t2 t3 Hnd1) Hkeep) as H.
  rewrite Hid in H. rewrite H. unfold u1, setLastActive. now rewrite Hm.
Qed.

Lemma heartbeat_keeps_active_witness :
  findOne "222222"
    (users (cleanupInactiveUsers (fst (heartbeat lobby 999000 "222222"))
              1000000 1000000 1000001))
  = Some (mkUser (id idle) (createdAt idle) 999000 false (markedAt idle)
            (deleteReason idle)).
Proof.
  apply (heartbeat_keeps_active lobby 999000 "222222" idle 1000000 1000000 1000001);
    try reflexivity; try exact lobby_unique; lia.
Defined.
